(* ===== verification/_CoqProject ===== *)
-Q . S2P
Prelude.v
Markdown.v
SearchPattern.v
Regex.v
Effects.v
SlackClient.v
CommandHandler.v
SlackBot.v
Settings.v
EventLoop.v
Entry.v
Process.v
