(* ===== verification/Prelude.v ===== *)
(** * A verification development for DeepSearchSlackBot

    The program (Python, three files) is a Slack bot that relays user
    commands to an external research agent ([graph.invoke]) and posts the
    agent's answer back to a channel.

    Parts of the program and how they interact:
    - [settings.py]: [load_dotenv()] then the dataclass [SlackSettings]
      whose fields are [os.getenv] lookups.  Modelled in [Settings.v].
    - [src/tools/slack.py], class [SlackClient]: the constructor builds an
      [AsyncWebClient] with the bot token; [get_user_info] (one
      [users_info] call, [SlackApiError] caught and logged, [None]
      returned) and [send_message] (one [chat_postMessage] call, the error
      caught and logged, a boolean returned).  Modelled in [SlackClient.v].
    - class [CommandHandler]: [handle_ping], [handle_search],
      [handle_deep_search]; the two search handlers share the block that
      greets the user, calls the agent and posts the result with
      [re.sub(r'\*{2,}', '*', ...)].  Modelled in [CommandHandler.v].
    - class [SlackBot]: the constructor builds [AsyncApp(token=bot_token)],
      [SlackClient(bot_token)] and [CommandHandler(self.client)];
      [_setup_routes] registers three listeners with
      Slack Bolt, [_search_message_handler] re-matches the text with
      the pattern [^search:\s*] followed by the group [.*] (Python's
      [re.match]), [send_to_channel], [start].
      Modelled in [SlackBot.v].
    - [main.py]: formats the current time, announces the bot, starts the
      socket-mode loop.  Modelled in [SlackBot.v] ([main]); the script
      as a whole (import of [settings.py], the [SlackBot(...)] call from
      the three settings, [asyncio.run(main())]) in [Entry.v].
    - The runtime: [asyncio.run(main())] and Bolt run each delivered
      event as a task; a task runs until it [await]s a network call and
      then yields to the loop.  Modelled in [EventLoop.v] from section 5
      of the spec, with the await points taken from the handlers' code.

    Layout of the development (one file per part, in dependency order):
    - [Prelude.v] (this file): Python strings as lists of Unicode code
      points ([pystr]), string literals ([py "..."]), the code points of
      the emoji the code prints, Python's [str()] of an optional value,
      the [pybot] hint database and the list lemmas all files share.
    - [Markdown.v]: the regular-expression substitution
      [re.sub(r'\*{2,}', '*', s)] as a left-to-right scan with fuel (the
      way Python's [re.sub] walks the string), a structural reference
      definition [collapse_stars], their equivalence, idempotence and the
      other properties the spec (section 8) asks of the normalisation.
    - [SearchPattern.v]: [re.match] of [^search:\s*] followed by the
      captured group [.*], with Python's Unicode [\s] class and [.] (everything but a newline), and the
      keyword test Bolt applies for [app.message("ping")]
      ([re.findall("ping", text)], a substring search).
    - [Regex.v]: the three patterns the source hands to Python's [re]
      (its pattern texts, parsed by [parse_regex]) and a backtracking
      matcher [mtch] that follows CPython's [sre] for the constructs they
      use (greedy single-character repeats take the longest run, then give
      characters back); [re.match] with [group(1)], Bolt's [re.findall]
      test, and the [re.sub] scan on top.
    - [Effects.v]: the calls the handlers make to the outside world
      ([users_info], [chat_postMessage], [say], [ack], [graph.invoke],
      [print]) as an inductive [call] with a dependent answer type, the
      handler programs as a finite free monad [prog] over those calls with
      Python exceptions ([Raise]), [try]/[except SlackApiError] as
      [catch_slack], and the interpreter [run] that executes a program
      against an environment ([world]) and returns the trace of calls and
      the outcome (a value or an uncaught exception).
    - [SlackClient.v]: the interface the handlers need of the client
      ([Class SlackClientOps]: the token of its calls and the two methods,
      and the laws [SlackClientLaws]), then [Module SlackClient] with the
      object ([slack_client], built by [new_slack_client]), the methods
      [get_user_info] and [send_message] of an object, and the instances,
      one per object, that discharge the laws.
    - [CommandHandler.v]: the three handlers, in a [Section] over any
      client instance; the generic theorems use only the laws; then the
      [CommandHandler] object ([command_handler], [new_command_handler])
      and the functional theorems, in a [Section] over a handler whose
      client is a [SlackClient] object.
    - [SlackBot.v]: the [SlackBot] object and its constructor
      [new_slack_bot], the Bolt routing table of a bot and dispatch, the
      search message handler, [send_to_channel], [start], [main].
    - [Settings.v]: the environment as a [gmap], [load_dotenv] (existing
      variables win), [SlackSettings].
    - [EventLoop.v]: the event loop as a step relation [step] on
      [loop_state] (pending events, suspended tasks with their ids, the
      handler each task started with, and the trace of slices run so
      far): deliver the next event (a new task running the handler
      [dispatch] chose), or resume any task for one [slice], which runs
      it up to and including its next awaited call.  [is_await] says
      which calls the code awaits ([users_info], [chat_postMessage],
      [say]); [await ack()] does not yield (Bolt's [AsyncAck.__call__]
      awaits nothing), and [graph.invoke] and [print] are not awaited.  The loop dispatches with the routes of one bot, a
      parameter of [step] (read-only after start-up, spec section 5).
      [exec_choice]/[exec] is an executable scheduler.
    - [Entry.v]: [bot_of_settings] (the constructor call of [main]) and
      [program], the start-up from the two environments to the program
      [main] runs.
    - [Process.v]: the whole process as one step relation [proc_step]:
      [main] runs as the first task, slice by slice, until it blocks in
      [start_async] (socket mode); from then on the event loop of
      [EventLoop.v] serves the events Slack delivers.  [Exited] is the
      end of [main] without reaching socket mode.

    What the theorems show, by group:
    - normalisation of the agent's answer (Markdown.v): the [re.sub] scan
      equals the reference [collapse_stars]; it is idempotent, leaves no
      two adjacent [*], is the identity on text without [**], keeps every
      other character in order.  A supporting lemma shows that the fuel
      given ([length s]) is enough.
    - query extraction (SearchPattern.v): exact characterisation of the
      captured group and the round trip from a composed message.
    - the patterns (Regex.v): run by the matcher, the source's pattern
      texts compute exactly the direct models of [Markdown.v] and
      [SearchPattern.v]: [group(1)] of the search pattern is
      [match_search], the [re.sub] is [normalize_markdown], the [ping]
      keyword test is a substring test, and the search route's test is
      the success of [re.match].  These rest on two engine lemmas: the
      matcher is sound and complete for a declarative semantics of
      patterns, and every state it returns is well formed ([wf_mstate]),
      so [group(1)] is a substring of the subject.
    - handlers (CommandHandler.v): the trace and outcome of every branch:
      the shared search flow for every answer of [say] and of the agent
      (a failed reply ends it with [SlackApiError], an agent exception or
      a malformed result ends it after the replies made so far), how each
      search handler reaches it after a successful lookup, lookup
      failure, and an event without its user ([KeyError]); [ack] before
      any other call, at most one directory lookup
      and one agent call per event, the result posted only to the fixed
      channel [ai-powered-services] and every reply made through the
      [say] Bolt passed.  Lookup failure in the two search handlers raises [TypeError]
      (the code subscripts [None]); this is a finding.  Whatever the
      world answers, a ping makes at most 3 calls, a search at most 7 and
      a /deep-search at most 8 (a bound on the requests one event costs).
    - routing and wiring (SlackBot.v): first listener that matches wins,
      in the registration order ping, /deep-search, search; only
      [/deep-search] has a command listener; a message of another bot
      that mentions [ping] reaches [handle_ping] and raises [KeyError]
      there (it has no [user]); the end-to-end scenario of the spec
      ([search: weather in Tokyo]) for every bot, conversation, user and
      world in which Slack accepts the replies; [main]
      announces then starts; the time stamp of the announcement reads
      back as the time it was made from; for a bot built by the
      constructor, every Web API call of [main] and of the handlers
      (their replies included) is authenticated with the bot token, and
      socket mode serves the app built with the bot token and connects
      with the app token; every reply of a routed handler goes into the
      conversation of its event and every post to [ai-powered-services]
      (spec, section 4.3).
    - settings (Settings.v): each of the three settings is read from the
      process environment, from [.env] when the environment does not set
      it (a variable already set wins), [None] otherwise.
    - the event loop (EventLoop.v): an invariant ([loop_inv]) preserved
      by every step: each task's calls, gathered from its interleaved
      slices, are a prefix of the sequential [run] of the handler the
      bot's routes chose for its event.  With it the handlers'
      guarantees hold of the whole concurrent system: whatever the
      interleaving, every post goes to [ai-powered-services], each task
      makes at most one lookup and one agent call, and replies only
      through the [say] of its own event.  The executable scheduler
      ([exec]) only takes steps of the relation.
    - the process (Process.v): with the three variables set, whatever
      Slack answers and whatever events arrive, the process never exits,
      runs no handler before all of [main]'s start-up calls were made
      (socket mode opened with [SLACK_APP_TOKEN]), posts from handlers
      only to [ai-powered-services], authenticates every Web API call with
      [SLACK_BOT_TOKEN].
    - start-up (Entry.v): with the three variables set, the program
      announces itself in the channel of [SLACK_CHANNEL], logs a failed
      post without stopping and starts socket mode with the token of
      [SLACK_APP_TOKEN].

    Modelling choices:
    - A Python [str] is a list of code points ([Z]); a [dict] read with
      [d["k"]] is a record of [option] fields where a missing key raises
      [KeyError] and [d.get] returns [None].
    - The external world is a record of functions ([world]): each call
      gets the answer the world gives for its arguments, the token it
      carries included (a wrong token gets whatever error Slack gives).
      Objects are records of their attributes; an SDK client object is
      given by the token it was built with.  The [say] Bolt passes to a
      listener is a closure, given by what it captures ([say_fn]): the
      token of the app's client and the conversation of the event
      ([bolt_say]); [ack] answers over the socket and carries no token.  Theorems
      quantify over every world, so they hold whatever Slack or the agent
      answers.  The spec states that no state is shared between events.
    - Python's [re] and Slack Bolt's listener matching (library code the
      sources only call) are modelled from their documented behaviour:
      [message(str)] matches when [re.findall(keyword, text)] is
      non-empty, listeners are tried in registration order and the first
      one that matches runs.
    - Abstractions that no theorem depends on: the [mrkdwn=True]
      argument of [chat_postMessage] in [send_message] is not recorded in
      the call (channel, text and token are); Bolt's middleware that
      drops the app's own events is not modelled ([dispatch] sees every
      event Slack delivers, so the theorems also cover those); a
      [profile] that is present but [null] in a [users_info] answer reads
      as absent (Python would raise [AttributeError] on [.get]), and
      exceptions other than [SlackApiError] (network errors) are not
      modelled; the agent's messages are given by their [.content];
      [d.get("k")] with a key present and [None] reads as absent.  The world answers a call from
      its arguments only: it carries no Slack-side state, so the event
      loop theorems are about routing, ordering and the calls each task
      makes, not about answers that depend on earlier calls.
    - Fuel: [re.sub]'s scan gets [length s] steps: every step consumes
      at least one character, and a theorem shows that more fuel gives
      the same result.
    - The event loop is nondeterministic: a theorem about it holds for
      every order in which the runtime may deliver events and resume
      tasks.  The events Slack delivers over the socket connection are
      a list given when the process enters socket mode; the order in
      which they arrive is that list's, the order in which they are
      handled is any the loop allows.  The concrete run of the witnesses alternates a search and a
      ping task.

    Not modelled: the socket-mode transport and event envelopes, the
    agent itself ([src.agent.graph], not in the repository), the
    commented-out [send_file]; start-up with a setting missing ([None]
    reaches the [SlackBot] constructor and the Slack SDK, whose behaviour
    on it the sources do not fix, and the spec calls it undefined, section
    7; [program] is [None] there).  The source lines no definition
    translates are imports, the commented-out [send_file] (slack.py lines
    36-74) and the [def]/[class] lines themselves.

    Plan for later work: a printer of patterns with the round trip
    through [parse_regex]. *)

From stdpp Require Export base list.
From Stdlib Require Export ZArith.
From Stdlib Require Ascii String.
Export (notations) String.

(** ** Python strings *)

(** A Unicode code point, and a Python [str] as the list of its code
    points. *)
Definition pychar := Z.
Definition pystr := list pychar.

#[export] Instance pychar_eq_dec : EqDecision pychar := _.

(** The code points of an ASCII literal. *)
Definition py (s : String.string) : pystr :=
  map (fun a => Z.of_nat (Ascii.nat_of_ascii a)) (String.list_ascii_of_string s).
Arguments py s%_string_scope.
(** Literals stay folded under [simpl] and [cbn]. *)
Arguments py : simpl never.


(** Characters that appear in the program's literals. *)
Definition CH_NEWLINE : pychar := 10%Z.
Definition CH_STAR : pychar := 42%Z.
Definition CH_QUOTE : pychar := 34%Z.
(** U+1F916 ROBOT FACE, U+1F44B WAVING HAND SIGN, U+1F60A SMILING FACE
    WITH SMILING EYES, U+2011 NON-BREAKING HYPHEN. *)
Definition CH_ROBOT : pychar := 0x1F916%Z.
Definition CH_WAVE : pychar := 0x1F44B%Z.
Definition CH_SMILE : pychar := 0x1F60A%Z.
Definition CH_NB_HYPHEN : pychar := 0x2011%Z.

(** [str(x)] of an optional string: Python prints [None] as "None". *)
Definition py_str_opt (o : option pystr) : pystr :=
  match o with
  | Some s => s
  | None => py "None"
  end.

(** [d.get(k, default)] on an optional field. *)
Definition py_get_default (o : option pystr) (dflt : pystr) : pystr :=
  match o with
  | Some s => s
  | None => dflt
  end.

(** ** Shared automation *)

Create HintDb pybot.
Create Rewrite HintDb pybot_rw.

(** ** Generic list lemmas used by several components *)

Section ListFacts.
Context {A : Type}.

Lemma app_cons_assoc (l1 l2 : list A) (x : A) :
  l1 ++ x :: l2 = (l1 ++ [x]) ++ l2.
Proof. by rewrite <- app_assoc. Qed.

Lemma drop_length_le (n : nat) (l : list A) :
  length (drop n l) <= length l.
Proof. rewrite length_drop. lia. Qed.
End ListFacts.

#[export] Hint Rewrite @length_app @length_drop @length_take : pybot_rw.

Example py_literal_ex : py "ab" = [97%Z; 98%Z].
Proof. reflexivity. Qed.

(** Membership in a concrete string, decided by evaluation. *)
Lemma not_elem_of_by_eval (x : pychar) (l : pystr) :
  bool_decide (x ∈ l) = false -> x ∉ l.
Proof. apply bool_decide_eq_false_1. Qed.
