(* ===== verification/Markdown.v ===== *)
(** * Normalisation of the agent's answer

    Both search handlers of [src/tools/slack.py] post
    [re.sub(r'\*{2,}', '*', state["messages"][-1].content)].  This file
    models that substitution the way Python's [re.sub] runs it: a scan from
    the left that tries the pattern at the current position, emits the
    replacement and jumps past the match when it matches, and copies one
    character otherwise.  The pattern [\*{2,}] is greedy: at a position it
    matches the whole run of asterisks when the run has at least two.

    [collapse_stars] is a structural one-pass reference ("drop an asterisk
    that follows an asterisk"); the main theorem is that the scan computes
    it, and the properties of section 8 of the spec follow from it. *)

From S2P Require Import Prelude.

(** ** The scan of [re.sub] *)

Section ReSub.
(** [m s] is the length of the match of the pattern at the start of
    [s], [None] when it does not match there. *)
Variable m : pystr -> option nat.
Variable repl : pystr.

(** One step per position of the scan; [fuel] bounds the number of
    positions. *)
Fixpoint re_sub_scan (fuel : nat) (s : pystr) : pystr :=
  match fuel with
  | O => s
  | S fuel' =>
      match s with
      | [] => []
      | c :: r =>
          match m s with
          | Some n => repl ++ re_sub_scan fuel' (drop n s)
          | None => c :: re_sub_scan fuel' r
          end
      end
  end.

Definition re_sub (s : pystr) : pystr := re_sub_scan (length s) s.
End ReSub.

(** ** The pattern [\*{2,}] *)

(** Length of the run of asterisks that starts [s]. *)
Fixpoint star_run (s : pystr) : nat :=
  match s with
  | c :: r => if decide (c = CH_STAR) then S (star_run r) else 0
  | [] => 0
  end.

(** [\*{2,}] tried at the start of [s]: greedy, so it takes the whole
    run, and it needs at least two asterisks. *)
Definition match_stars2 (s : pystr) : option nat :=
  let n := star_run s in
  if decide (2 <= n) then Some n else None.

(** [re.sub(r'\*{2,}', '*', s)]. *)
Definition normalize_markdown (s : pystr) : pystr :=
  re_sub match_stars2 [CH_STAR] s.

(** ** The reference: drop every asterisk that follows an asterisk *)

Fixpoint collapse_stars (after_star : bool) (s : pystr) : pystr :=
  match s with
  | [] => []
  | c :: r =>
      if decide (c = CH_STAR) then
        if after_star then collapse_stars true r
        else c :: collapse_stars true r
      else c :: collapse_stars false r
  end.

(** [s] contains two adjacent asterisks. *)
Fixpoint has_double_star (s : pystr) : bool :=
  match s with
  | c :: (d :: _) as r =>
      (bool_decide (c = CH_STAR) && bool_decide (d = CH_STAR))
      || has_double_star r
  | _ => false
  end.

Definition starts_with_star (s : pystr) : bool :=
  match s with
  | c :: _ => bool_decide (c = CH_STAR)
  | [] => false
  end.

(** ** Facts about runs of asterisks *)

Lemma has_double_star_cons (c : pychar) (t : pystr) :
  has_double_star (c :: t) =
  (bool_decide (c = CH_STAR) && starts_with_star t) || has_double_star t.
Proof. destruct t as [|d t]; simpl; [by rewrite andb_false_r|done]. Qed.

(** A string splits into its leading run of asterisks and a rest that
    does not start with one. *)
Lemma star_run_decomp (s : pystr) :
  s = replicate (star_run s) CH_STAR ++ drop (star_run s) s /\
  starts_with_star (drop (star_run s) s) = false.
Proof.
  induction s as [|c r [IH1 IH2]]; [done|]; simpl.
  case_decide as Hc; simpl.
  - subst. split; [by f_equal|done].
  - split; [done|]. by apply bool_decide_eq_false_2.
Qed.

Lemma collapse_true_replicate (k : nat) (t : pystr) :
  collapse_stars true (replicate k CH_STAR ++ t) = collapse_stars true t.
Proof. induction k as [|k IH]; simpl; [done|]. by repeat case_decide. Qed.

Lemma collapse_not_star_head (b : bool) (t : pystr) :
  starts_with_star t = false -> collapse_stars b t = collapse_stars false t.
Proof.
  destruct t as [|c t]; simpl; [done|].
  intros Hc. apply bool_decide_eq_false_1 in Hc. by rewrite !decide_False.
Qed.

#[export] Hint Resolve collapse_not_star_head : pybot.

Lemma star_run_zero_head (s : pystr) :
  star_run s = 0 -> starts_with_star s = false.
Proof.
  destruct s as [|c r]; simpl; [done|].
  case_decide; [done|]. intros _. by apply bool_decide_eq_false_2.
Qed.

(** The scan, given enough fuel, computes the reference. *)
Lemma scan_collapse (fuel : nat) (s : pystr) :
  length s <= fuel ->
  re_sub_scan match_stars2 [CH_STAR] fuel s = collapse_stars false s.
Proof.
  revert s; induction fuel as [|fuel IH]; intros s Hlen.
  { destruct s; simpl in *; [done|lia]. }
  destruct s as [|c r]; [done|]. simpl in Hlen.
  cbn [re_sub_scan]. unfold match_stars2. cbn [star_run collapse_stars].
  destruct (decide (c = CH_STAR)) as [->|Hc].
  - destruct (star_run_decomp r) as [Hr Hd].
    case_decide as H2.
    + rewrite IH by (simpl; rewrite length_drop; lia).
      simpl. f_equal. simpl.
      transitivity (collapse_stars true
        (replicate (star_run r) CH_STAR ++ drop (star_run r) r)); [|by rewrite <- Hr].
      rewrite collapse_true_replicate. symmetry. by apply collapse_not_star_head.
    + assert (star_run r = 0) as H0 by lia.
      rewrite IH by lia. f_equal.
      symmetry. by apply collapse_not_star_head, star_run_zero_head.
  - rewrite decide_False by lia. rewrite IH by lia. done.
Qed.

(** Output of the reference: no two adjacent asterisks, and no leading
    asterisk when the previous character was one. *)
Lemma collapse_no_double (b : bool) (s : pystr) :
  has_double_star (collapse_stars b s) = false /\
  (b = true -> starts_with_star (collapse_stars b s) = false).
Proof.
  revert b; induction s as [|c r IH]; intros b; [done|]; simpl.
  case_decide as Hc.
  - destruct (IH true) as [H1 H2]. destruct b; [by split|].
    split; [|done]. rewrite has_double_star_cons, H1, H2 by done.
    by rewrite andb_false_r.
  - destruct (IH false) as [H1 _]. split; [|intros _; simpl; by apply bool_decide_eq_false_2].
    rewrite has_double_star_cons, H1. by rewrite bool_decide_eq_false_2.
Qed.

(** The reference leaves a string without adjacent asterisks unchanged. *)
Lemma collapse_fixed (b : bool) (t : pystr) :
  has_double_star t = false ->
  (b = true -> starts_with_star t = false) ->
  collapse_stars b t = t.
Proof.
  revert b; induction t as [|c r IH]; intros b Hd Hb; [done|]; simpl.
  rewrite has_double_star_cons in Hd.
  apply orb_false_iff in Hd as [Hcs Hr].
  case_decide as Hc.
  - destruct b; [specialize (Hb eq_refl); simpl in Hb; by rewrite bool_decide_eq_true_2 in Hb|].
    rewrite bool_decide_eq_true_2 in Hcs by done. simpl in Hcs.
    f_equal. by apply IH.
  - f_equal. by apply IH.
Qed.

Lemma has_double_star_spec (s : pystr) :
  has_double_star s = true <-> exists a b, s = a ++ CH_STAR :: CH_STAR :: b.
Proof.
  induction s as [|c r IH].
  { split; [done|]. intros (a & b & H). by destruct a. }
  rewrite has_double_star_cons, orb_true_iff, andb_true_iff, IH, bool_decide_eq_true.
  split.
  - intros [[-> Hr]|(a & b & ->)].
    + destruct r as [|d r]; simpl in Hr; [done|].
      apply bool_decide_eq_true in Hr as ->. by exists [], r.
    + by exists (c :: a), b.
  - intros ([|c' a] & b & H); simpl in H; injection H as -> H.
    + left. subst. split; [done|]. done.
    + right. by exists a, b.
Qed.

Lemma collapse_filter (b : bool) (s : pystr) :
  filter (fun c => c <> CH_STAR) (collapse_stars b s) = filter (fun c => c <> CH_STAR) s.
Proof.
  revert b; induction s as [|c r IH]; intros b; [done|]. cbn [collapse_stars].
  rewrite (filter_cons _ c r).
  destruct (decide (c = CH_STAR)) as [->|Hc].
  - rewrite decide_False by (intros H; by apply H). cbn iota.
    destruct b; [apply IH|].
    rewrite (filter_cons _ CH_STAR), decide_False by (intros H; by apply H). apply IH.
  - rewrite decide_True by done. cbn iota. rewrite (filter_cons _ c), decide_True by done.
    by rewrite IH.
Qed.

Lemma collapse_length (b : bool) (s : pystr) :
  length (collapse_stars b s) <= length s.
Proof.
  revert b; induction s as [|c r IH]; intros b; [done|]; simpl.
  specialize (IH true) as IHt. specialize (IH false) as IHf.
  repeat case_match; simpl; lia.
Qed.

(** ** Properties of the normalisation *)

(** C7: the scan of [re.sub(r'\*{2,}', '*', s)] computes the reference
    [collapse_stars]: every run of asterisks becomes one asterisk. *)
Theorem normalize_markdown_spec (s : pystr) :
  normalize_markdown s = collapse_stars false s.
Proof. unfold normalize_markdown, re_sub. by apply scan_collapse. Qed.

Lemma normalize_markdown_collapse (s : pystr) :
  normalize_markdown s = collapse_stars false s.
Proof. unfold normalize_markdown, re_sub. by apply scan_collapse. Qed.

(** C8: the normalisation is idempotent (spec, section 8). *)
Theorem normalize_markdown_idempotent (s : pystr) :
  normalize_markdown (normalize_markdown s) = normalize_markdown s.
Proof.
  rewrite !normalize_markdown_collapse.
  apply collapse_fixed; [apply (collapse_no_double false s)|done].
Qed.

(** C31: the normalised text never contains two adjacent asterisks. *)
Theorem normalize_markdown_no_double (s : pystr) :
  ~ exists a b, normalize_markdown s = a ++ CH_STAR :: CH_STAR :: b.
Proof.
  rewrite <- has_double_star_spec, normalize_markdown_collapse.
  by rewrite (proj1 (collapse_no_double false s)).
Qed.

(** C32: text with no two adjacent asterisks is left unchanged (spec,
    section 8: no repeated markers, output equals input). *)
Theorem normalize_markdown_id (s : pystr) :
  ~ (exists a b, s = a ++ CH_STAR :: CH_STAR :: b) ->
  normalize_markdown s = s.
Proof.
  rewrite <- has_double_star_spec, not_true_iff_false. intros H.
  rewrite normalize_markdown_collapse. by apply collapse_fixed.
Qed.

Lemma normalize_markdown_id_witness :
  (~ exists a b, py "*Sunny*, 25 C" = a ++ CH_STAR :: CH_STAR :: b) /\
  normalize_markdown (py "*Sunny*, 25 C") = py "*Sunny*, 25 C".
Proof.
  assert (~ exists a b, py "*Sunny*, 25 C" = a ++ CH_STAR :: CH_STAR :: b) as H.
  { rewrite <- has_double_star_spec. vm_compute. discriminate. }
  split; [exact H | apply (normalize_markdown_id _ H)].
Defined.

(** The normalisation only removes asterisks: the other characters
    are kept, in order. *)
Theorem normalize_markdown_keeps_text (s : pystr) :
  filter (fun c => c <> CH_STAR) (normalize_markdown s) =
  filter (fun c => c <> CH_STAR) s.
Proof. rewrite normalize_markdown_collapse. apply collapse_filter. Qed.

(** Whether [collapse_stars] has just passed an asterisk after reading
    [x] from state [b]. *)
Definition ends_with_star (b : bool) (x : pystr) : bool :=
  match last x with
  | Some c => bool_decide (c = CH_STAR)
  | None => b
  end.

Lemma collapse_app (b : bool) (x y : pystr) :
  collapse_stars b (x ++ y) = collapse_stars b x ++ collapse_stars (ends_with_star b x) y.
Proof.
  revert b. induction x as [|c x IH]; intros b; [done|]. cbn [app collapse_stars].
  assert (Hs : ends_with_star b (c :: x) = ends_with_star (bool_decide (c = CH_STAR)) x).
  { unfold ends_with_star. rewrite last_cons. by destruct (last x). }
  rewrite Hs. destruct (decide (c = CH_STAR)) as [Hc|Hc].
  - rewrite bool_decide_eq_true_2 by done. destruct b; cbn; by rewrite IH.
  - rewrite bool_decide_eq_false_2 by done. cbn. by rewrite IH.
Qed.

(** The example of the spec, in any text: [***bold***] between a
    text that does not end with an asterisk and one that does not start
    with one becomes [*bold*], the rest being normalised on its own. *)
Theorem normalize_markdown_bold (a b : pystr) :
  last a <> Some CH_STAR -> head b <> Some CH_STAR ->
  normalize_markdown (a ++ py "***bold***" ++ b) =
  normalize_markdown a ++ py "*bold*" ++ normalize_markdown b.
Proof.
  intros Ha Hb. rewrite !normalize_markdown_collapse, !collapse_app.
  assert (He : ends_with_star false a = false).
  { unfold ends_with_star. destruct (last a); [|done].
    apply bool_decide_eq_false_2. congruence. }
  rewrite He. replace (collapse_stars false (py "***bold***")) with (py "*bold*")
    by (vm_compute; reflexivity).
  replace (ends_with_star false (py "***bold***")) with true by (vm_compute; reflexivity).
  do 2 f_equal. apply collapse_not_star_head.
  destruct b as [|c b]; [done|]. cbn in Hb |- *. apply bool_decide_eq_false_2. congruence.
Qed.

Theorem normalize_markdown_length (s : pystr) :
  length (normalize_markdown s) <= length s.
Proof. rewrite normalize_markdown_collapse. apply collapse_length. Qed.

(** ** Fuel of the scan *)

Section Fuel.
Variable m : pystr -> option nat.
Variable repl : pystr.
(** The pattern never matches the empty string. *)
Hypothesis m_nonempty : forall s n, m s = Some n -> 1 <= n.

Lemma re_sub_scan_fuel_eq (f1 f2 : nat) (s : pystr) :
  length s <= f1 -> length s <= f2 ->
  re_sub_scan m repl f1 s = re_sub_scan m repl f2 s.
Proof.
  revert f2 s; induction f1 as [|f1 IH]; intros f2 s H1 H2.
  { destruct s; simpl in *; [by destruct f2|lia]. }
  destruct f2 as [|f2]; [destruct s; simpl in *; [done|lia]|].
  destruct s as [|c r]; [done|]. simpl in *.
  destruct (m (c :: r)) as [n|] eqn:Hm.
  - apply m_nonempty in Hm. f_equal. apply IH; destruct n; simpl;
      rewrite ?length_drop; lia.
  - f_equal. apply IH; lia.
Qed.
End Fuel.

Lemma match_stars2_nonempty (s : pystr) (n : nat) :
  match_stars2 s = Some n -> 1 <= n.
Proof. unfold match_stars2. case_decide; intros; simplify_eq; lia. Qed.

