(* ===== verification/SearchPattern.v ===== *)
(** * Matching of incoming message text

    Two text tests decide which listener of [src/tools/slack.py] handles a
    message:
    - [_search_message_handler] (and the listener registered with
      [re.compile] in [_setup_routes]) runs Python's [re.match] of the
      pattern [^search:\s*] followed by the group [.*] and passes
      [match.group(1)] on as the query.  For a [str] pattern, [\s] is the
      class of Unicode whitespace and [.] is every character but the
      newline.  The greedy [\s*] is followed by a group that can match the
      empty string, so the engine never backtracks into [\s*]: the group
      is the longest newline-free text after the longest run of
      whitespace.
    - [app.message("ping")]: Bolt runs [re.findall("ping", text)] and the
      listener matches when the list is non-empty, i.e. when [ping] occurs
      anywhere in the text. *)

From S2P Require Import Prelude.

(** ** Character classes *)

(** [\s] for [str] patterns: the characters [str.isspace] accepts. *)
Definition is_py_space (c : pychar) : bool :=
  bool_decide ((9 <= c <= 13) \/ (28 <= c <= 32) \/ c = 0x85 \/ c = 0xA0 \/
               c = 0x1680 \/ (0x2000 <= c <= 0x200A) \/ c = 0x2028 \/
               c = 0x2029 \/ c = 0x202F \/ c = 0x205F \/ c = 0x3000)%Z.

(** ** Pieces of the pattern *)

(** A literal prefix: what is left of [s] after [p], if [s] starts with
    [p]. *)
Fixpoint strip_prefix (p s : pystr) : option pystr :=
  match p, s with
  | [], _ => Some s
  | c :: p', d :: s' => if decide (c = d) then strip_prefix p' s' else None
  | _ :: _, [] => None
  end.

(** Greedy [\s*]: drop the leading whitespace. *)
Fixpoint skip_spaces (s : pystr) : pystr :=
  match s with
  | c :: r => if is_py_space c then skip_spaces r else s
  | [] => []
  end.

(** Greedy [.*]: the text up to the first newline. *)
Fixpoint take_line (s : pystr) : pystr :=
  match s with
  | c :: r => if decide (c = CH_NEWLINE) then [] else c :: take_line r
  | [] => []
  end.

Definition SEARCH_PREFIX : pystr := py "search:".

(** [re.match] of the search pattern on [text]: [None] when there is no
    match, [Some (match.group(1))] otherwise. *)
Definition match_search (text : pystr) : option pystr :=
  match strip_prefix SEARCH_PREFIX text with
  | Some rest => Some (take_line (skip_spaces rest))
  | None => None
  end.

(** [re.findall(keyword, text) != []] for a keyword without special
    characters: the keyword occurs in the text. *)
Fixpoint contains (p s : pystr) : bool :=
  match s with
  | [] => bool_decide (p = [])
  | _ :: r => bool_decide (is_Some (strip_prefix p s)) || contains p r
  end.

(** ** Lemmas on the pieces *)

Lemma strip_prefix_Some (p s r : pystr) :
  strip_prefix p s = Some r <-> s = p ++ r.
Proof.
  revert s; induction p as [|c p IH]; intros [|d s]; simpl;
    try (split; congruence).
  case_decide; subst; rewrite ?IH; split; congruence.
Qed.

Lemma strip_prefix_None (p s : pystr) :
  strip_prefix p s = None <-> ~ exists r, s = p ++ r.
Proof.
  split.
  - intros H [r Hr]. apply strip_prefix_Some in Hr. congruence.
  - intros H. destruct (strip_prefix p s) as [r|] eqn:E; [|done].
    exfalso. apply H. exists r. by apply strip_prefix_Some.
Qed.

Lemma skip_spaces_app (ws q : pystr) :
  Forall (fun c => is_py_space c = true) ws ->
  (forall c q', q = c :: q' -> is_py_space c = false) ->
  skip_spaces (ws ++ q) = q.
Proof.
  intros Hws Hq. induction Hws as [|c ws Hc _ IH]; simpl.
  - destruct q as [|c q]; simpl; [done|]. by rewrite (Hq c q).
  - by rewrite Hc.
Qed.

(** [skip_spaces] removes a run of whitespace and stops at a character
    that is not whitespace. *)
Lemma skip_spaces_split (s : pystr) :
  exists pre, s = pre ++ skip_spaces s /\
              Forall (fun c => is_py_space c = true) pre /\
              (forall c q, skip_spaces s = c :: q -> is_py_space c = false).
Proof.
  induction s as [|c r (pre & Hs & Hpre & Hhd)]; simpl.
  { exists []. split; [done|]. split; [constructor|congruence]. }
  destruct (is_py_space c) eqn:Hc.
  - exists (c :: pre). simpl. split; [by f_equal|]. split; [by constructor|done].
  - exists []. split; [done|]. split; [constructor|]. intros ? ? [= <- _]. done.
Qed.

Lemma take_line_id (q : pystr) :
  CH_NEWLINE ∉ q -> take_line q = q.
Proof.
  induction q as [|c q IH]; simpl; [done|]. intros Hn.
  rewrite decide_False by (intros ->; apply Hn; constructor).
  f_equal. apply IH. intros Hin. apply Hn. by constructor.
Qed.

(** [take_line] keeps the text up to the first newline. *)
Lemma take_line_split (s : pystr) :
  (CH_NEWLINE ∉ take_line s) /\
  (exists post, s = take_line s ++ post /\
                (post = [] \/ exists post', post = CH_NEWLINE :: post')).
Proof.
  induction s as [|c r [IHn (post & Hr & Hpost)]]; simpl.
  { split; [apply not_elem_of_nil|]. exists []. auto. }
  case_decide as Hc.
  - split; [apply not_elem_of_nil|]. exists (c :: r). subst. eauto.
  - split.
    + rewrite elem_of_cons. intros [Heq|H]; [by apply Hc|by apply IHn].
    + exists post. split; [simpl; by f_equal|done].
Qed.

Lemma contains_spec (p s : pystr) :
  contains p s = true <-> exists a b, s = a ++ p ++ b.
Proof.
  induction s as [|c r IH]; simpl.
  - rewrite bool_decide_eq_true. split.
    + intros ->. by exists [], [].
    + intros ([|? a] & b & H); simpl in H; [|done].
      symmetry in H. by apply app_eq_nil in H as [-> _].
  - rewrite orb_true_iff, bool_decide_eq_true, IH. split.
    + intros [[t Ht]|(a & b & ->)].
      * apply strip_prefix_Some in Ht. by exists [], t.
      * by exists (c :: a), b.
    + intros ([|c' a] & b & H); simpl in H.
      * left. exists b. by apply strip_prefix_Some.
      * injection H as -> ->. right. by exists a, b.
Qed.

(** ** Properties of the query extraction *)

(** C16: round trip.  A message composed of the prefix [search:], any run
    of whitespace, and a query that has no newline and does not start with
    whitespace, yields exactly that query. *)
Theorem match_search_roundtrip (ws q : pystr) :
  Forall (fun c => is_py_space c = true) ws ->
  CH_NEWLINE ∉ q ->
  (forall c q', q = c :: q' -> is_py_space c = false) ->
  match_search (SEARCH_PREFIX ++ ws ++ q) = Some q.
Proof.
  intros Hws Hnl Hhd. unfold match_search.
  rewrite (proj2 (strip_prefix_Some _ _ (ws ++ q)) eq_refl).
  by rewrite skip_spaces_app, take_line_id.
Qed.

Lemma match_search_roundtrip_witness :
  match_search (SEARCH_PREFIX ++ py " " ++ py "weather in Tokyo") =
  Some (py "weather in Tokyo").
Proof.
  apply match_search_roundtrip.
  - repeat constructor.
  - apply not_elem_of_by_eval. vm_compute. reflexivity.
  - intros c q' [= <- _]. reflexivity.
Defined.

(** C17: what the pattern captures.  When the text matches, it is the
    prefix [search:], a run of whitespace, the captured query (which has
    no newline), and a rest that is empty or starts with a newline. *)
Theorem match_search_sound (text q : pystr) :
  match_search text = Some q ->
  exists pre post,
    text = SEARCH_PREFIX ++ pre ++ q ++ post /\
    Forall (fun c => is_py_space c = true) pre /\
    (CH_NEWLINE ∉ q) /\
    (post = [] \/ exists post', post = CH_NEWLINE :: post').
Proof.
  unfold match_search. destruct (strip_prefix SEARCH_PREFIX text) as [rest|] eqn:E;
    [|done].
  intros [= <-]. apply strip_prefix_Some in E as ->.
  destruct (skip_spaces_split rest) as (pre & Hrest & Hpre & _).
  destruct (take_line_split (skip_spaces rest)) as [Hnl (post & Hpost & Hp)].
  exists pre, post. split; [|done].
  by rewrite Hrest at 1; rewrite Hpost at 1.
Qed.

Lemma match_search_sound_witness :
  match_search (py "search:") = Some [] /\
  exists pre post,
    py "search:" = SEARCH_PREFIX ++ pre ++ [] ++ post /\
    Forall (fun c => is_py_space c = true) pre /\
    (CH_NEWLINE ∉ ([] : pystr)) /\
    (post = [] \/ exists post', post = CH_NEWLINE :: post').
Proof.
  assert (match_search (py "search:") = Some []) as H by reflexivity.
  split; [exact H|]. exact (match_search_sound _ _ H).
Defined.

(** The text matches exactly when it starts with [search:] (case
    sensitive, anchored at the start). *)
Theorem match_search_None (text : pystr) :
  match_search text = None <-> ~ exists rest, text = SEARCH_PREFIX ++ rest.
Proof.
  unfold match_search. rewrite <- strip_prefix_None.
  destruct (strip_prefix SEARCH_PREFIX text); split; congruence.
Qed.

Lemma take_line_app (q r : pystr) :
  CH_NEWLINE ∉ q -> take_line (q ++ CH_NEWLINE :: r) = q.
Proof.
  induction q as [|c q IH]; intros Hn; cbn; [by rewrite decide_True|].
  rewrite decide_False by (intros ->; apply Hn; constructor).
  f_equal. apply IH. intros Hin. apply Hn. by constructor.
Qed.

(** C33: the query stops at the first newline: a message made of the
    prefix, whitespace, a non-empty first line [q] and further lines gives
    [q] alone, not the whole remainder the spec describes. *)
Theorem match_search_first_line (ws q rest : pystr) :
  Forall (fun c => is_py_space c = true) ws ->
  CH_NEWLINE ∉ q ->
  (exists c q', q = c :: q' /\ is_py_space c = false) ->
  match_search (SEARCH_PREFIX ++ ws ++ q ++ CH_NEWLINE :: rest) = Some q.
Proof.
  intros Hws Hnl (c & q' & -> & Hc). unfold match_search.
  rewrite (proj2 (strip_prefix_Some _ _ _) eq_refl), skip_spaces_app by naive_solver.
  by rewrite take_line_app.
Qed.

Lemma match_search_first_line_witness :
  match_search (SEARCH_PREFIX ++ py " " ++ py "a" ++ CH_NEWLINE :: py "b") = Some (py "a").
Proof.
  apply match_search_first_line.
  - repeat constructor.
  - apply not_elem_of_by_eval. vm_compute. reflexivity.
  - by exists 97%Z, [].
Defined.
