(* ===== verification/Regex.v ===== *)
(** * Python's [re] on the patterns of the bot

    The bot hands three patterns to Python's [re] module: [r"^search:\s*(.*)"]
    ([_search_message_handler] and the route of [_setup_routes]),
    [r'\*{2,}'] (the [re.sub] of both search handlers) and ["ping"] (the
    keyword of [app.message], which Bolt passes to [re.findall]).  This
    file gives the subset of the pattern syntax they use a parser
    ([parse_regex]) and a backtracking matcher ([mtch]) that works the way
    CPython's [sre] engine does for these constructs: a greedy repeat of a
    single-character class ([\s*], [.*], [\*{2,}], compiled by [sre] to
    [REPEAT_ONE]) first takes the longest run and then gives characters
    back one at a time until the rest of the pattern matches.

    On top of the matcher: [re.match] and [match.group(1)], [re.findall]
    as a test that some position matches, and the scan of [re.sub].  The
    matcher is proved sound and complete for a declarative semantics of
    patterns ([dmatch]), and on the three literals of the source the
    engine computes what [SearchPattern.v] and [Markdown.v] define
    directly. *)

From S2P Require Import Prelude Markdown SearchPattern.

(** ** Syntax *)

(** Single-character classes: a literal, [\s], [.] (no [DOTALL]). *)
Inductive cclass := CLit (c : pychar) | CSpace | CDot.

Inductive regex :=
| REmpty
| RBol                              (** [^] without [MULTILINE] *)
| RChar (k : cclass)
| RRepeat (min : nat) (k : cclass)  (** greedy [k{min,}]; [k*] is [min = 0] *)
| RCat (r1 r2 : regex)
| RGroup (r : regex).               (** the capturing group (group 1) *)

Definition cclass_test (k : cclass) (c : pychar) : bool :=
  match k with
  | CLit d => bool_decide (c = d)
  | CSpace => is_py_space c
  | CDot => negb (bool_decide (c = CH_NEWLINE))
  end.

(** ** Parser of the pattern subset *)

(** Characters with a meaning in a pattern; those outside the subset
    ([+], [?], [[]], [|], [$]) make the parser fail. *)
Definition is_special (c : pychar) : bool :=
  bool_decide (c ∈ [94; 46; 92; 40; 41; 42; 123; 125; 43; 63; 91; 93; 124; 36]%Z).

Fixpoint take_digits (s : pystr) : pystr * pystr :=
  match s with
  | c :: r =>
      if bool_decide (48 <= c <= 57)%Z then
        let '(ds, r') := take_digits r in (c :: ds, r')
      else ([], s)
  | [] => ([], [])
  end.

Definition digits_value (ds : pystr) : nat :=
  fold_left (fun acc d => acc * 10 + Z.to_nat (d - 48)) ds 0.

(** A quantifier after an atom: none, [*], or [{n,}]. *)
Definition parse_quant (s : pystr) : option (option nat * pystr) :=
  match s with
  | c :: r =>
      if bool_decide (c = 42%Z) then Some (Some 0, r)
      else if bool_decide (c = 123%Z) then
        match take_digits r with
        | (d :: ds, c1 :: c2 :: r') =>
            if bool_decide (c1 = 44%Z) && bool_decide (c2 = 125%Z)
            then Some (Some (digits_value (d :: ds)), r') else None
        | _ => None
        end
      else Some (None, s)
  | [] => Some (None, [])
  end.

Inductive atom := AClass (k : cclass) | ABol | AGroup (r : regex).

(** A quantified atom. *)
Definition piece (a : atom) (q : option nat) : option regex :=
  match a, q with
  | AClass k, None => Some (RChar k)
  | AClass k, Some n => Some (RRepeat n k)
  | ABol, None => Some RBol
  | AGroup g, None => Some (RGroup g)
  | _, Some _ => None
  end.

(** A sequence of pieces, up to the end of the pattern or a [)]; each
    call consumes a character, so [length p + 1] is enough fuel. *)
Fixpoint parse_seq (fuel : nat) (s : pystr) : option (regex * pystr) :=
  match fuel with
  | 0 => None
  | S fuel =>
      match s with
      | [] => Some (REmpty, [])
      | c :: r =>
          if bool_decide (c = 41%Z) then Some (REmpty, s) else
          let atm :=
            if bool_decide (c = 94%Z) then Some (ABol, r)
            else if bool_decide (c = 46%Z) then Some (AClass CDot, r)
            else if bool_decide (c = 92%Z) then
              match r with
              | d :: r' =>
                  if bool_decide (d = 115%Z) then Some (AClass CSpace, r')
                  else if is_special d then Some (AClass (CLit d), r') else None
              | [] => None
              end
            else if bool_decide (c = 40%Z) then
              match parse_seq fuel r with
              | Some (g, d :: r') =>
                  if bool_decide (d = 41%Z) then Some (AGroup g, r') else None
              | _ => None
              end
            else if is_special c then None
            else Some (AClass (CLit c), r) in
          match atm with
          | None => None
          | Some (a, r1) =>
              match parse_quant r1 with
              | None => None
              | Some (q, r2) =>
                  match piece a q, parse_seq fuel r2 with
                  | Some p, Some (rest, r3) => Some (RCat p rest, r3)
                  | _, _ => None
                  end
              end
          end
      end
  end.

Definition parse_regex (p : pystr) : option regex :=
  match parse_seq (S (length p)) p with
  | Some (r, []) => Some r
  | _ => None
  end.

Definition regex_of (p : pystr) : regex :=
  match parse_regex p with Some r => r | None => REmpty end.

(** ** The matcher *)

(** Position in the subject, the rest of the subject, and the span of
    group 1 once the group has matched. *)
Record mstate := {
  ms_pos : nat;
  ms_rest : pystr;
  ms_group : option (nat * nat);
}.

Definition advance (i : nat) (st : mstate) : mstate := {|
  ms_pos := ms_pos st + i; ms_rest := drop i (ms_rest st); ms_group := ms_group st;
|}.

(** Length of the run of characters of class [k] that starts [s]. *)
Fixpoint class_run (k : cclass) (s : pystr) : nat :=
  match s with
  | c :: r => if cclass_test k c then S (class_run k r) else 0
  | [] => 0
  end.

(** [REPEAT_ONE]: try the rest of the pattern after [i] characters, then
    after [i - 1], ..., down to [min]. *)
Fixpoint repeat_back (i min : nat) (st : mstate) (k : mstate -> option mstate)
    : option mstate :=
  if decide (i < min) then None else
  match k (advance i st) with
  | Some st' => Some st'
  | None => match i with 0 => None | S i' => repeat_back i' min st k end
  end.

(** Leaving the group entered at [st]: its span ends at [st']. *)
Definition set_group (st st' : mstate) : mstate :=
  {| ms_pos := ms_pos st'; ms_rest := ms_rest st'; ms_group := Some (ms_pos st, ms_pos st') |}.

(** Match [r] at [st], then the continuation [k] (the rest of the
    pattern); the first success in the engine's order wins. *)
Fixpoint mtch (r : regex) (st : mstate) (k : mstate -> option mstate) : option mstate :=
  match r with
  | REmpty => k st
  | RBol => if decide (ms_pos st = 0) then k st else None
  | RChar c =>
      match ms_rest st with
      | d :: _ => if cclass_test c d then k (advance 1 st) else None
      | [] => None
      end
  | RRepeat n c => repeat_back (class_run c (ms_rest st)) n st k
  | RCat r1 r2 => mtch r1 st (fun st' => mtch r2 st' k)
  | RGroup r => mtch r st (fun st' => k (set_group st st'))
  end.

Definition start_at (i : nat) (s : pystr) : mstate :=
  {| ms_pos := i; ms_rest := s; ms_group := None |}.

(** [re.match(r, s)]: the final state of a match at position 0. *)
Definition re_match (r : regex) (s : pystr) : option mstate :=
  mtch r (start_at 0 s) Some.

(** [m.group(1)]: the text of the span of the group. *)
Definition group1 (s : pystr) (st : mstate) : option pystr :=
  match ms_group st with
  | Some (a, b) => Some (take (b - a) (drop a s))
  | None => None
  end.

(** [m = re.match(r, s); if m: ... m.group(1)] as in
    [_search_message_handler]. *)
Definition py_match_group1 (r : regex) (s : pystr) : option pystr :=
  match re_match r s with
  | Some st => group1 s st
  | None => None
  end.

(** Length of the match tried at position [i], [s] being the subject
    from [i] on. *)
Definition match_len_at (r : regex) (i : nat) (s : pystr) : option nat :=
  option_map (fun st => ms_pos st - i) (mtch r (start_at i s) Some).

(** [re.findall(r, s) != []]: the pattern matches at some position. *)
Fixpoint search_from (r : regex) (i : nat) (s : pystr) : bool :=
  bool_decide (is_Some (match_len_at r i s)) ||
  match s with [] => false | _ :: t => search_from r (S i) t end.

Definition py_findall_nonempty (r : regex) (s : pystr) : bool := search_from r 0 s.

(** The scan of [re.sub(r, repl, s)]: at each position try the pattern;
    a non-empty match is replaced and skipped, an empty one is replaced
    and the next character copied; at the end of the subject the pattern
    is tried once more (it could match the empty string there). *)
Fixpoint py_re_sub_scan (r : regex) (repl : pystr) (fuel i : nat) (s : pystr) : pystr :=
  match fuel with
  | 0 => s
  | S fuel =>
      match s with
      | [] => match match_len_at r i [] with Some _ => repl | None => [] end
      | c :: t =>
          match match_len_at r i s with
          | Some 0 => repl ++ c :: py_re_sub_scan r repl fuel (S i) t
          | Some (S n) => repl ++ py_re_sub_scan r repl fuel (i + S n) (drop (S n) s)
          | None => c :: py_re_sub_scan r repl fuel (S i) t
          end
      end
  end.

Definition py_re_sub (r : regex) (repl s : pystr) : pystr :=
  py_re_sub_scan r repl (S (length s)) 0 s.

(** ** Declarative semantics *)

(** [dmatch r st st'] : [r] can match the text between [st] and [st']. *)
Inductive dmatch : regex -> mstate -> mstate -> Prop :=
| DEmpty st : dmatch REmpty st st
| DBol st : ms_pos st = 0 -> dmatch RBol st st
| DChar k st c t :
    ms_rest st = c :: t -> cclass_test k c = true -> dmatch (RChar k) st (advance 1 st)
| DRepeat n k st j :
    n <= j -> j <= length (ms_rest st) ->
    Forall (fun c => cclass_test k c = true) (take j (ms_rest st)) ->
    dmatch (RRepeat n k) st (advance j st)
| DCat r1 r2 st st1 st2 : dmatch r1 st st1 -> dmatch r2 st1 st2 -> dmatch (RCat r1 r2) st st2
| DGroup r st st1 : dmatch r st st1 -> dmatch (RGroup r) st (set_group st st1).

(** ** Well-formed states *)

(** A state of a match of the subject [s]: the position is within [s],
    the rest is what follows it, and the span of the group, once set, ends
    before the position. *)
Definition wf_mstate (s : pystr) (st : mstate) : Prop :=
  ms_pos st <= length s /\ ms_rest st = drop (ms_pos st) s /\
  (forall a b, ms_group st = Some (a, b) -> a <= b <= ms_pos st).

(** ** The patterns of the source *)

Definition SEARCH_PATTERN : pystr := py "^search:\s*(.*)".
Definition STARS_PATTERN : pystr := py "\*{2,}".
Definition PING_PATTERN : pystr := py "ping".

(** A literal string followed by [tail]. *)
Definition lits (l : pystr) (tail : regex) : regex :=
  foldr (fun c r => RCat (RChar (CLit c)) r) tail l.

(** The state after the search pattern matched: [a] characters of
    whitespace after the prefix, then the group of [b] characters. *)
Definition search_final (rest : pystr) : mstate :=
  let a := class_run CSpace rest in
  let b := class_run CDot (drop a rest) in
  {| ms_pos := length SEARCH_PREFIX + a + b; ms_rest := drop b (drop a rest);
     ms_group := Some (length SEARCH_PREFIX + a, length SEARCH_PREFIX + a + b) |}.

(** ** Lemmas on the engine *)

Lemma mtch_lits (l : pystr) (tail : regex) (st : mstate) (k : mstate -> option mstate) :
  mtch (lits l tail) st k =
  match strip_prefix l (ms_rest st) with
  | Some r => mtch tail {| ms_pos := ms_pos st + length l; ms_rest := r;
                           ms_group := ms_group st |} k
  | None => None
  end.
Proof.
  revert st. induction l as [|c l IH]; intros [pos rest g]; cbn [lits foldr strip_prefix].
  - cbn. by rewrite Nat.add_0_r.
  - cbn [mtch ms_rest]. destruct rest as [|d rest]; [done|]. cbn [cclass_test strip_prefix].
    fold (lits l tail). case_bool_decide as Hd; case_decide; subst; try congruence.
    rewrite IH. cbn. by rewrite <- Nat.add_assoc.
Qed.

(** A repeat whose continuation always succeeds keeps the whole run. *)
Lemma repeat_back_some (i min : nat) (st : mstate) (g : mstate -> mstate) :
  repeat_back i min st (fun x => Some (g x)) =
  if decide (i < min) then None else Some (g (advance i st)).
Proof. by destruct i. Qed.

Lemma repeat_back_total (i min : nat) (st : mstate) (k : mstate -> option mstate)
    (g : mstate -> mstate) :
  (forall x, k x = Some (g x)) -> min <= i -> repeat_back i min st k = Some (g (advance i st)).
Proof. intros Hk Hi. destruct i; cbn; rewrite decide_False by lia; by rewrite Hk. Qed.

Lemma class_run_space (s : pystr) : drop (class_run CSpace s) s = skip_spaces s.
Proof. induction s as [|c s IH]; [done|]. cbn. by destruct (is_py_space c). Qed.

Lemma class_run_dot (s : pystr) : take (class_run CDot s) s = take_line s.
Proof.
  induction s as [|c s IH]; [done|]. cbn.
  case_bool_decide; case_decide; try congruence; cbn; by rewrite ?IH.
Qed.

Lemma class_run_star (s : pystr) : class_run (CLit CH_STAR) s = star_run s.
Proof.
  induction s as [|c s IH]; [done|]. cbn.
  case_bool_decide; case_decide; try congruence; by rewrite ?IH.
Qed.

#[export] Hint Rewrite class_run_space class_run_dot class_run_star : pybot_rw.

(** ** The three patterns, parsed *)

Lemma search_pattern_parse :
  regex_of SEARCH_PATTERN =
  RCat RBol (lits SEARCH_PREFIX
    (RCat (RRepeat 0 CSpace) (RCat (RGroup (RCat (RRepeat 0 CDot) REmpty)) REmpty))).
Proof. vm_compute. reflexivity. Qed.

Lemma stars_pattern_parse : regex_of STARS_PATTERN = RCat (RRepeat 2 (CLit CH_STAR)) REmpty.
Proof. vm_compute. reflexivity. Qed.

Lemma ping_pattern_parse : regex_of PING_PATTERN = lits PING_PATTERN REmpty.
Proof. vm_compute. reflexivity. Qed.

(** [re.match] of the search pattern: the prefix, then the longest run of
    whitespace, then the group takes the longest run without newline. *)
Lemma search_re_match (s : pystr) :
  re_match (regex_of SEARCH_PATTERN) s = option_map search_final (strip_prefix SEARCH_PREFIX s).
Proof.
  rewrite search_pattern_parse. unfold re_match. cbn [mtch start_at ms_pos].
  rewrite decide_True by done. rewrite mtch_lits. unfold start_at. cbn [ms_rest ms_pos ms_group].
  destruct (strip_prefix SEARCH_PREFIX s) as [rest|]; [|done]. cbn.
  erewrite repeat_back_total; [|intros x; rewrite repeat_back_some, decide_False by lia;
    reflexivity|lia].
  unfold search_final. cbn. done.
Qed.

Lemma match_len_lits (l : pystr) (i : nat) (s : pystr) :
  match_len_at (lits l REmpty) i s = option_map (fun _ => length l) (strip_prefix l s).
Proof.
  unfold match_len_at. rewrite mtch_lits. cbn [start_at ms_rest ms_pos ms_group].
  destruct (strip_prefix l s); cbn; [f_equal; lia|done].
Qed.

Lemma search_from_lits (l : pystr) (i : nat) (s : pystr) :
  search_from (lits l REmpty) i s = contains l s.
Proof.
  revert i. induction s as [|c s IH]; intros i; cbn [search_from contains];
    rewrite match_len_lits, ?IH.
  - rewrite orb_false_r. by destruct l.
  - f_equal. apply bool_decide_ext. destruct (strip_prefix _ _); cbn; split; by intros [].
Qed.

(** [^] only matches at position 0, so [re.findall] finds nothing later. *)
Lemma search_from_bol_late (x : regex) (i : nat) (s : pystr) :
  search_from (RCat RBol x) (S i) s = false.
Proof.
  revert i. induction s as [|c s IH]; intros i; cbn [search_from]; rewrite ?IH;
    unfold match_len_at; cbn [mtch start_at ms_pos]; by rewrite decide_False.
Qed.

Lemma match_len_stars (i : nat) (s : pystr) :
  match_len_at (regex_of STARS_PATTERN) i s = match_stars2 s.
Proof.
  rewrite stars_pattern_parse. unfold match_len_at, match_stars2. cbn [mtch start_at ms_rest].
  rewrite repeat_back_some, class_run_star.
  destruct (decide (star_run s < 2)), (decide (2 <= star_run s)); try lia; [done|].
  cbn. f_equal. lia.
Qed.

(** ** [re.sub] with a pattern that never matches the empty string *)

Section Sub.
Variable r : regex.
Variable m : pystr -> option nat.
Variable repl : pystr.
Hypothesis r_m : forall i s, match_len_at r i s = m s.
Hypothesis m_not_empty : forall s, m s <> Some 0.
Hypothesis m_nil : m [] = None.

Lemma py_re_sub_scan_cons (fuel i : nat) (c : pychar) (t : pystr) :
  py_re_sub_scan r repl (S fuel) i (c :: t) =
  match match_len_at r i (c :: t) with
  | Some 0 => repl ++ c :: py_re_sub_scan r repl fuel (S i) t
  | Some (S n) => repl ++ py_re_sub_scan r repl fuel (i + S n) (drop (S n) (c :: t))
  | None => c :: py_re_sub_scan r repl fuel (S i) t
  end.
Proof. done. Qed.

Lemma py_re_sub_scan_re_sub (fuel i : nat) (s : pystr) :
  length s <= fuel -> py_re_sub_scan r repl (S fuel) i s = re_sub_scan m repl fuel s.
Proof.
  revert i s. induction fuel as [|fuel IH]; intros i s Hl.
  - destruct s; cbn in *; [by rewrite r_m, m_nil|lia].
  - destruct s as [|c s]; [cbn; by rewrite r_m, m_nil|].
    rewrite py_re_sub_scan_cons, r_m. cbn [length re_sub_scan] in Hl |- *.
    destruct (m (c :: s)) as [[|n]|] eqn:Hm; [by destruct (m_not_empty (c :: s))| |].
    + rewrite IH; [done|]. rewrite length_drop. cbn. lia.
    + rewrite IH; [done|lia].
Qed.
End Sub.

(** ** The source's patterns compute the direct models *)

(** C18: [re.match(r"^search:\s*(.*)", text)] followed by
    [match.group(1)], with the pattern text of the source parsed and run
    by the engine, is exactly [match_search]. *)
Theorem search_pattern_group1 (text : pystr) :
  py_match_group1 (regex_of SEARCH_PATTERN) text = match_search text.
Proof.
  unfold py_match_group1. rewrite search_re_match. unfold match_search.
  destruct (strip_prefix SEARCH_PREFIX text) as [rest|] eqn:E; [|done]. cbn.
  apply strip_prefix_Some in E as ->. unfold group1, search_final. cbn [ms_group].
  rewrite drop_app_add, class_run_space, <- class_run_dot. do 2 f_equal. lia.
Qed.

(** C19: [re.sub(r'\*{2,}', '*', s)], with the pattern text of the source
    parsed and run by the engine, is [normalize_markdown]. *)
Theorem stars_pattern_sub (s : pystr) :
  py_re_sub (regex_of STARS_PATTERN) [CH_STAR] s = normalize_markdown s.
Proof.
  unfold py_re_sub, normalize_markdown, re_sub.
  apply (py_re_sub_scan_re_sub _ match_stars2); [exact match_len_stars| |done|lia].
  intros t H. apply match_stars2_nonempty in H. lia.
Qed.

(** C20: Bolt's test for [app.message("ping")], [re.findall("ping",
    text)] non-empty, is [contains (py "ping")]: the keyword occurs
    somewhere in the text. *)
Theorem ping_pattern_findall (text : pystr) :
  py_findall_nonempty (regex_of PING_PATTERN) text = contains (py "ping") text.
Proof. unfold py_findall_nonempty. rewrite ping_pattern_parse. apply search_from_lits. Qed.

(** C21: Bolt's test for the route registered with
    [re.compile(r"^search:\s*(.*)")] holds exactly when
    [_search_message_handler]'s [re.match] succeeds: the anchor [^]
    rules out every later position. *)
Theorem search_route_findall (text : pystr) :
  py_findall_nonempty (regex_of SEARCH_PATTERN) text = bool_decide (is_Some (match_search text)).
Proof.
  unfold py_findall_nonempty. destruct text as [|c t].
  - by vm_compute.
  - cbn [search_from]. rewrite search_pattern_parse, search_from_bol_late, orb_false_r.
    rewrite <- search_pattern_parse. apply bool_decide_ext.
    unfold match_len_at. fold (re_match (regex_of SEARCH_PATTERN) (c :: t)).
    rewrite search_re_match. unfold match_search.
    destruct (strip_prefix SEARCH_PREFIX (c :: t)); cbn; split; by intros [].
Qed.

(** ** The matcher decides the declarative semantics *)

Lemma class_run_le (k : cclass) (s : pystr) : class_run k s <= length s.
Proof. induction s as [|c s IH]; cbn; [lia|]. destruct (cclass_test k c); lia. Qed.

Lemma class_run_Forall (k : cclass) (s : pystr) :
  Forall (fun c => cclass_test k c = true) (take (class_run k s) s).
Proof.
  induction s as [|c s IH]; cbn; [constructor|].
  destruct (cclass_test k c) eqn:Hc; cbn; by constructor.
Qed.

(** A run of characters of the class is within the longest one. *)
Lemma class_run_max (k : cclass) (s : pystr) (j : nat) :
  j <= length s -> Forall (fun c => cclass_test k c = true) (take j s) -> j <= class_run k s.
Proof.
  revert j. induction s as [|c s IH]; intros [|j]; cbn; try lia.
  intros Hj Hf. inversion Hf as [|? ? Hc Hf']; subst. rewrite Hc.
  specialize (IH j ltac:(lia) Hf'). lia.
Qed.

Lemma repeat_back_sound (i n : nat) (st x : mstate) (k : mstate -> option mstate) :
  repeat_back i n st k = Some x -> exists j, n <= j <= i /\ k (advance j st) = Some x.
Proof.
  induction i as [|i IH]; cbn; case_decide; try done.
  - destruct (k (advance 0 st)) eqn:E; intros; simplify_eq. exists 0. split; [lia|done].
  - destruct (k (advance (S i) st)) eqn:E; intros H'.
    + simplify_eq. exists (S i). split; [lia|done].
    + destruct (IH H') as (j & ? & ?). exists j. split; [lia|done].
Qed.

Lemma repeat_back_complete (i n j : nat) (st x : mstate) (k : mstate -> option mstate) :
  n <= j <= i -> k (advance j st) = Some x -> exists y, repeat_back i n st k = Some y.
Proof.
  induction i as [|i IH]; intros Hj Hk; cbn; rewrite decide_False by lia.
  - replace j with 0 in Hk by lia. rewrite Hk. by eexists.
  - destruct (k (advance (S i) st)) eqn:E; [by eexists|].
    destruct (decide (j = S i)) as [->|]; [congruence|]. apply IH; [lia|done].
Qed.

Lemma mtch_sound (r : regex) (st x : mstate) (k : mstate -> option mstate) :
  mtch r st k = Some x -> exists st1, dmatch r st st1 /\ k st1 = Some x.
Proof.
  revert st x k. induction r as [| |c|n c|r1 IH1 r2 IH2|r IH]; intros st x k; cbn.
  - intros H. exists st. split; [constructor|done].
  - case_decide as Hp; [|done]. intros H. exists st. split; [by constructor|done].
  - destruct (ms_rest st) as [|d t] eqn:Hr; [done|].
    destruct (cclass_test c d) eqn:Hc; [|done]. intros H.
    exists (advance 1 st). split; [by econstructor|done].
  - intros (j & Hj & Hk)%repeat_back_sound. exists (advance j st). split; [|done].
    pose proof (class_run_le c (ms_rest st)).
    constructor; [lia|lia|].
    replace j with (min j (class_run c (ms_rest st))) by lia. rewrite <- take_take.
    apply Forall_take, class_run_Forall.
  - intros (st1 & H1 & (st2 & H2 & Hk)%IH2)%IH1. exists st2. split; [by econstructor|done].
  - intros (st1 & H1 & Hk)%IH. exists (set_group st st1). split; [by constructor|done].
Qed.

Lemma mtch_complete (r : regex) (st st1 x : mstate) (k : mstate -> option mstate) :
  dmatch r st st1 -> k st1 = Some x -> exists y, mtch r st k = Some y.
Proof.
  intros Hd. revert k x. induction Hd as [st|st Hp|c st d t Hr Hc|n c st j Hn Hl Hf|
    r1 r2 st st1 st2 H1 IH1 H2 IH2|r st st1 H IH]; intros k x Hk; cbn.
  - by eexists.
  - rewrite decide_True by done. by eexists.
  - rewrite Hr, Hc. by eexists.
  - apply (repeat_back_complete _ _ j _ x); [|done]. split; [done|]. by apply class_run_max.
  - destruct (IH2 k x Hk) as [y Hy]. by apply (IH1 _ y).
  - by apply (IH (fun st' => k (set_group st st')) x).
Qed.

(** The backtracking matcher is correct with respect to the
    declarative semantics: every match [re.match] returns is a match of
    the pattern, [re.match] succeeds exactly when the pattern can match a
    prefix of the subject, and the [group(1)] the handler reads comes
    from such a match. *)
Theorem re_match_correct (r : regex) (s : pystr) :
  (forall st1, re_match r s = Some st1 -> dmatch r (start_at 0 s) st1) /\
  (is_Some (re_match r s) <-> exists st1, dmatch r (start_at 0 s) st1) /\
  (forall g, py_match_group1 r s = Some g ->
     exists st1, dmatch r (start_at 0 s) st1 /\ group1 s st1 = Some g).
Proof.
  unfold py_match_group1, re_match. split_and!.
  - intros st1 (st2 & Hd & [= <-])%mtch_sound. done.
  - split.
    + intros [x (st2 & Hd & [= <-])%mtch_sound]. by eexists.
    + intros [st1 Hd]. destruct (mtch_complete r _ st1 st1 Some Hd eq_refl) as [y Hy].
      by exists y.
  - intros g. destruct (mtch r (start_at 0 s) Some) as [x|] eqn:E; [|done].
    intros Hg. apply mtch_sound in E as (st2 & Hd & [= <-]). by exists st2.
Qed.

(** ** Every state the matcher reaches is well formed *)

Lemma wf_start (s : pystr) : wf_mstate s (start_at 0 s).
Proof. unfold wf_mstate. split_and!; cbn; [lia|done|done]. Qed.

Lemma wf_advance (s : pystr) (st : mstate) (j : nat) :
  wf_mstate s st -> j <= length (ms_rest st) ->
  wf_mstate s (advance j st) /\ ms_pos st <= ms_pos (advance j st).
Proof.
  intros (Hp & Hr & Hg) Hj. rewrite Hr, length_drop in Hj. unfold wf_mstate.
  split_and!; cbn; [lia| |intros a b Hab; specialize (Hg a b Hab); lia|lia].
  by rewrite Hr, drop_drop.
Qed.

(** A match only moves forward, from a well-formed state to one. *)
Lemma dmatch_wf (s : pystr) (r : regex) (st st1 : mstate) :
  dmatch r st st1 -> wf_mstate s st -> wf_mstate s st1 /\ ms_pos st <= ms_pos st1.
Proof.
  induction 1 as [st|st _|k st c t Hr _|n k st j _ Hj _|r1 r2 st st1 st2 _ IH1 _ IH2|
                  r st st1 _ IH]; intros Hw.
  - split; [done|lia].
  - split; [done|lia].
  - apply wf_advance; [done|]. rewrite Hr. cbn. lia.
  - by apply wf_advance.
  - destruct (IH1 Hw) as [Hw1 ?]. destruct (IH2 Hw1). split; [done|lia].
  - destruct (IH Hw) as [(Hp & Hr & _) Hle]. unfold wf_mstate. split_and!; cbn; try done; try lia.
    intros a b [= <- <-]. lia.
Qed.

Lemma group1_span (s : pystr) (st : mstate) (g : pystr) :
  wf_mstate s st -> group1 s st = Some g ->
  exists pre post, s = pre ++ g ++ post /\ length pre + length g <= ms_pos st.
Proof.
  intros (Hp & _ & Hg). unfold group1. destruct (ms_group st) as [[a b]|] eqn:E; [|done].
  intros [= <-]. destruct (Hg a b eq_refl) as [Hab Hb].
  exists (take a s), (drop (b - a) (drop a s)). split.
  - by rewrite take_drop, take_drop.
  - rewrite length_take, length_take, length_drop. lia.
Qed.

(** The states [re.match] ends in are well formed: the end of the
    match lies within the subject, the rest of the subject is what follows
    it, and [group(1)] is a piece of the subject that ends at or before the
    end of the match. *)
Theorem re_match_wf (r : regex) (s : pystr) (st : mstate) :
  re_match r s = Some st ->
  wf_mstate s st /\
  (forall g, group1 s st = Some g ->
     exists pre post, s = pre ++ g ++ post /\ length pre + length g <= ms_pos st).
Proof.
  unfold re_match. intros (st1 & Hd & [= <-])%mtch_sound.
  destruct (dmatch_wf s r _ _ Hd (wf_start s)) as [Hw _].
  split; [done|]. intros g. by apply group1_span.
Qed.

