(* ===== verification/Effects.v ===== *)
(** * Calls to the outside world, handler programs and their runs

    Everything the handlers of [src/tools/slack.py] do that is observable
    is a call: [web_client.users_info], [web_client.chat_postMessage],
    Bolt's [say] and [ack], [graph.invoke], [print], and the socket-mode
    loop of [start].  A handler is a program of type [prog A]: a finite
    tree whose nodes are calls and whose leaves are a returned value or a
    raised Python exception.  [run] executes a program against a [world],
    which answers every call, and returns the trace of calls made and the
    outcome.  [catch_slack] is Python's [try ... except SlackApiError]. *)

From S2P Require Import Prelude.

(** ** Data exchanged with Slack and with the agent *)

(** The exceptions that can leave a handler. *)
Inductive exc : Type :=
| TypeError                   (** subscripting [None] *)
| KeyError (key : pystr)      (** [d["key"]] on a missing key *)
| IndexError                  (** [l[-1]] on an empty list *)
| SlackApiError (error : pystr) (** the Web API answered [ok: false] *)
| AgentError (what : pystr).  (** anything [graph.invoke] raises *)

(** The [profile] object of a Slack user. *)
Record profile := { profile_email : option pystr }.

(** The [user] object of [users.info]; every field may be absent. *)
Record slack_user := {
  user_id : option pystr;
  user_name : option pystr;
  user_real_name : option pystr;
  user_profile : option profile;
}.

(** The answer of [users_info]: the SDK raises [SlackApiError] for an
    error response; a successful response carries the [user] key, which
    [info["user"]] reads. *)
Inductive users_info_resp :=
| UsersInfoError (error : pystr)
| UsersInfoOk (user : option slack_user).

(** The answer of a call that posts a message ([chat_postMessage], and
    [say], which Bolt implements with it). *)
Inductive post_resp :=
| PostOk
| PostError (error : pystr).

(** The argument of [graph.invoke]. *)
Record agent_message := { msg_role : pystr; msg_content : pystr }.
Record agent_input := {
  in_messages : list agent_message;
  in_max_research_loops : Z;
  in_initial_search_query_count : Z;
}.

(** The result of [graph.invoke]: the state's [messages] key (absent or a
    list of messages, given by their [.content]), or an exception. *)
Inductive agent_resp :=
| AgentState (messages : option (list pystr))
| AgentRaised (what : pystr).

(** ** Calls *)

(** The Web API calls carry the token of the [AsyncWebClient] that makes
    them; [say] posts with the client of the [AsyncApp] into the
    conversation it was bound to; the socket-mode start carries the bot
    token of the [AsyncApp] it serves and the app-level token it connects
    with. *)
Inductive call : Type :=
| CallUsersInfo (token user : pystr)
| CallPostMessage (token channel text : pystr)
| CallSay (token channel text : pystr)
| CallAck
| CallGraphInvoke (input : agent_input)
| CallPrint (line : pystr)
| CallStartSocketMode (bot_token : pystr) (app_token : option pystr).

(** What each call answers.  The socket-mode loop never returns. *)
Definition answer (c : call) : Type :=
  match c with
  | CallUsersInfo _ _ => users_info_resp
  | CallPostMessage _ _ _ => post_resp
  | CallSay _ _ _ => post_resp
  | CallAck => unit
  | CallGraphInvoke _ => agent_resp
  | CallPrint _ => unit
  | CallStartSocketMode _ _ => Empty_set
  end.

(** ** Programs *)

Inductive prog (A : Type) : Type :=
| Ret (a : A)
| Raise (e : exc)
| Vis (c : call) (k : answer c -> prog A).
Arguments Ret {A} a.
Arguments Raise {A} e.
Arguments Vis {A} c k.

Fixpoint prog_bind {A B} (f : A -> prog B) (p : prog A) : prog B :=
  match p with
  | Ret a => f a
  | Raise e => Raise e
  | Vis c k => Vis c (fun x => prog_bind f (k x))
  end.

Declare Scope prog_scope.
Delimit Scope prog_scope with prog.
Notation "x ← y ; z" := (prog_bind (fun x : _ => z) y)
  (at level 20, y at level 100, z at level 200, only parsing) : prog_scope.
Notation "x ;; z" := (prog_bind (fun _ => z) x)
  (at level 100, z at level 200, only parsing, right associativity) : prog_scope.
Open Scope prog_scope.

(** Perform one call and return its answer. *)
Definition trigger (c : call) : prog (answer c) := Vis c Ret.

(** [try: p except SlackApiError as e: h(e.response["error"])]. *)
Fixpoint catch_slack {A} (p : prog A) (h : pystr -> prog A) : prog A :=
  match p with
  | Ret a => Ret a
  | Raise (SlackApiError err) => h err
  | Raise e => Raise e
  | Vis c k => Vis c (fun x => catch_slack (k x) h)
  end.

(** The SDK raises [SlackApiError] when the Web API answers an error. *)
Definition raise_on_error (r : post_resp) : prog unit :=
  match r with
  | PostOk => Ret tt
  | PostError err => Raise (SlackApiError err)
  end.

(** The [say] function Bolt passes to a listener: a closure over the
    app's Web API client and the conversation of the event, given here by
    what it captures. *)
Record say_fn := {
  say_token : pystr;
  say_channel : pystr;
}.

(** [await say(text)]: Bolt posts [text] into the conversation [say] was
    bound to, with [chat_postMessage] of the app's client. *)
Definition say (sf : say_fn) (text : pystr) : prog unit :=
  Vis (CallSay (say_token sf) (say_channel sf) text) raise_on_error.

(** [print(line)]. *)
Definition print (line : pystr) : prog unit := Vis (CallPrint line) (fun _ => Ret tt).

(** [await ack()]. *)
Definition ack : prog unit := Vis CallAck (fun _ => Ret tt).

(** [d["key"]] on a dict whose value for [key] may be absent. *)
Definition py_getitem {A} (key : pystr) (o : option A) : prog A :=
  match o with
  | Some v => Ret v
  | None => Raise (KeyError key)
  end.

(** [state = graph.invoke({...})]: the state's [messages], or the
    exception of the agent. *)
Definition graph_invoke (input : agent_input) : prog (option (list pystr)) :=
  Vis (CallGraphInvoke input) (fun r : agent_resp =>
    match r with
    | AgentState msgs => Ret msgs
    | AgentRaised what => Raise (AgentError what)
    end).

(** [l[-1]]. *)
Definition py_last {A} (l : list A) : prog A :=
  match last l with
  | Some x => Ret x
  | None => Raise IndexError
  end.

(** ** Running a program *)

(** How the outside world answers each call. *)
Record world := {
  w_users_info : pystr -> pystr -> users_info_resp;   (** token, user *)
  w_post_message : pystr -> pystr -> pystr -> post_resp; (** token, channel, text *)
  w_say : pystr -> pystr -> pystr -> post_resp;         (** token, channel, text *)
  w_agent : agent_input -> agent_resp;
}.

Definition world_answer (w : world) (c : call) : option (answer c) :=
  match c return option (answer c) with
  | CallUsersInfo tok u => Some (w_users_info w tok u)
  | CallPostMessage tok ch t => Some (w_post_message w tok ch t)
  | CallSay tok ch t => Some (w_say w tok ch t)
  | CallAck => Some tt
  | CallGraphInvoke i => Some (w_agent w i)
  | CallPrint _ => Some tt
  | CallStartSocketMode _ _ => None
  end.

(** How a run ends: a value, an exception that escaped, or blocked in the
    socket-mode loop. *)
Inductive outcome (A : Type) : Type :=
| Done (a : A)
| Failed (e : exc)
| Listening.
Arguments Done {A} a.
Arguments Failed {A} e.
Arguments Listening {A}.

Fixpoint run {A} (w : world) (p : prog A) : list call * outcome A :=
  match p with
  | Ret a => ([], Done a)
  | Raise e => ([], Failed e)
  | Vis c k =>
      match world_answer w c with
      | Some x => let '(t, o) := run w (k x) in (c :: t, o)
      | None => ([c], Listening)
      end
  end.

(** Sequencing two runs: the second starts only when the first returned. *)
Definition run_then {A B} (r : list call * outcome A)
    (g : A -> list call * outcome B) : list call * outcome B :=
  let '(t1, o1) := r in
  match o1 with
  | Done a => let '(t2, o2) := g a in (t1 ++ t2, o2)
  | Failed e => (t1, Failed e)
  | Listening => (t1, Listening)
  end.

(** The handler of [except SlackApiError] runs after the calls of the
    body, when the body raised [SlackApiError]. *)
Definition run_catch {A} (r : list call * outcome A)
    (h : pystr -> list call * outcome A) : list call * outcome A :=
  let '(t1, o1) := r in
  match o1 with
  | Failed (SlackApiError err) => let '(t2, o2) := h err in (t1 ++ t2, o2)
  | _ => (t1, o1)
  end.

(** ** Kinds of calls in a trace *)

Definition is_users_info (c : call) : bool :=
  match c with CallUsersInfo _ _ => true | _ => false end.
Definition is_graph_invoke (c : call) : bool :=
  match c with CallGraphInvoke _ => true | _ => false end.
Definition is_post_message (c : call) : bool :=
  match c with CallPostMessage _ _ _ => true | _ => false end.
Definition is_say (c : call) : bool :=
  match c with CallSay _ _ _ => true | _ => false end.

(** The token a call is authenticated with, if it carries one. *)
Definition call_token (c : call) : option pystr :=
  match c with
  | CallUsersInfo tok _ | CallPostMessage tok _ _ | CallSay tok _ _
  | CallStartSocketMode tok _ => Some tok
  | _ => None
  end.

(** A call that carries no token, or carries [tok]. *)
Definition authenticated_by (tok : pystr) (c : call) : bool :=
  match call_token c with
  | Some t => bool_decide (t = tok)
  | None => true
  end.

(** A call other than [say], or a [say] into the conversation [ch]. *)
Definition says_only_to (ch : pystr) (c : call) : bool :=
  match c with
  | CallSay _ ch' _ => bool_decide (ch' = ch)
  | _ => true
  end.

(** A call other than [say], or a [say] made through [sf]: with its token,
    into its conversation. *)
Definition said_with (sf : say_fn) (c : call) : bool :=
  match c with
  | CallSay tok ch _ => bool_decide (tok = say_token sf) && bool_decide (ch = say_channel sf)
  | _ => true
  end.

(** A [say], or a call that carries no token or carries [tok]. *)
Definition client_authenticated (tok : pystr) (c : call) : bool :=
  is_say c || authenticated_by tok c.

(** Number of calls of a kind in a trace. *)
Fixpoint count_calls (P : call -> bool) (t : list call) : nat :=
  match t with
  | [] => 0
  | c :: t' => (if P c then 1 else 0) + count_calls P t'
  end.

(** ** Equations of [run] *)

Lemma run_bind {A B} (w : world) (p : prog A) (f : A -> prog B) :
  run w (prog_bind f p) = run_then (run w p) (fun a => run w (f a)).
Proof.
  induction p as [a|e|c k IH]; simpl.
  - by destruct (run w (f a)).
  - done.
  - destruct (world_answer w c) as [x|]; [|done].
    rewrite IH.
    destruct (run w (k x)) as [t1 [a|e|]]; simpl; [|done|done].
    by destruct (run w (f a)).
Qed.

Lemma run_catch_slack {A} (w : world) (p : prog A) (h : pystr -> prog A) :
  run w (catch_slack p h) = run_catch (run w p) (fun err => run w (h err)).
Proof.
  induction p as [a|e|c k IH]; simpl.
  - done.
  - destruct e; simpl; try done. by destruct (run w (h error)).
  - destruct (world_answer w c) as [x|]; [|done].
    rewrite IH. destruct (run w (k x)) as [t1 [a|e|]]; simpl; try done.
    destruct e; try done. by destruct (run w (h error)).
Qed.

Lemma run_then_assoc {A B C} (r : list call * outcome A)
    (g : A -> list call * outcome B) (g' : B -> list call * outcome C) :
  run_then (run_then r g) g' = run_then r (fun a => run_then (g a) g').
Proof.
  destruct r as [t1 [a| |]]; simpl; try done.
  destruct (g a) as [t2 [b| |]]; simpl; try (by rewrite ?app_assoc).
  destruct (g' b) as [t3 o3]. by rewrite app_assoc.
Qed.

Lemma count_calls_app (P : call -> bool) (t1 t2 : list call) :
  count_calls P (t1 ++ t2) = count_calls P t1 + count_calls P t2.
Proof. induction t1 as [|c t1 IH]; simpl; [done|]. rewrite IH. lia. Qed.

#[export] Hint Rewrite @run_bind @run_catch_slack count_calls_app : pybot_rw.

(** ** Bounds on the calls of a sequenced run *)

Lemma run_then_count {A B} (P : call -> bool) (r : list call * outcome A)
    (g : A -> list call * outcome B) (n m : nat) :
  count_calls P r.1 <= n -> (forall a, count_calls P (g a).1 <= m) ->
  count_calls P (run_then r g).1 <= n + m.
Proof.
  destruct r as [t1 [a| |]]; simpl; intros H1 H2; try lia.
  specialize (H2 a). destruct (g a) as [t2 o2]; simpl in *.
  rewrite count_calls_app. lia.
Qed.

Lemma run_then_Forall {A B} (Q : call -> Prop) (r : list call * outcome A)
    (g : A -> list call * outcome B) :
  Forall Q r.1 -> (forall a, Forall Q (g a).1) -> Forall Q (run_then r g).1.
Proof.
  destruct r as [t1 [a| |]]; simpl; intros H1 H2; try done.
  specialize (H2 a). destruct (g a) as [t2 o2]; simpl in *.
  by apply Forall_app.
Qed.


(** How a [say] ends in a world. *)
Definition say_outcome (w : world) (sf : say_fn) (text : pystr) : outcome unit :=
  match w_say w (say_token sf) (say_channel sf) text with
  | PostOk => Done tt
  | PostError err => Failed (SlackApiError err)
  end.

(** ** Symbolic runs

    [run_simpl] executes a run against an unknown world: it computes and
    splits on each answer of the world as the run reaches it.  A call to
    an operation given only by an interface stays as the run of that
    operation, split on its outcome, with the equation [E] naming its
    trace. *)
(** The operations known only through an interface; later files extend
    this hook with [Ltac is_stuck_op ::= ...]. *)
Ltac is_stuck_op p := fail.

Ltac run_simpl :=
  repeat (cbn;
    match goal with
    | H : forall t, w_say ?w ?k ?c t = _ |- context [w_say ?w ?k ?c ?t] => rewrite H
    | H : w_say ?w ?k ?c ?t = _ |- context [w_say ?w ?k ?c ?t] => rewrite H
    | H : w_users_info ?w ?k ?u = _ |- context [w_users_info ?w ?k ?u] => rewrite H
    | H : w_agent ?w ?i = _ |- context [w_agent ?w ?i] => rewrite H
    | H : w_post_message ?w ?k ?c ?t = _ |- context [w_post_message ?w ?k ?c ?t] =>
        rewrite H
    | |- context [w_say ?w ?k ?c ?t] =>
        let E := fresh "Hw" in destruct (w_say w k c t) eqn:E
    | |- context [w_agent ?w ?i] =>
        let E := fresh "Hw" in destruct (w_agent w i) as [[?|]|?] eqn:E
    | |- context [w_users_info ?w ?k ?u] =>
        let E := fresh "Hw" in destruct (w_users_info w k u) as [?|[?|]] eqn:E
    | |- context [w_post_message ?w ?k ?c ?t] =>
        let E := fresh "Hw" in destruct (w_post_message w k c t) eqn:E
    | |- context [py_last ?l] =>
        unfold py_last; let E := fresh "Hw" in destruct (last l) eqn:E
    | |- context [run ?w (prog_bind ?f ?p)] =>
        is_stuck_op p; rewrite (run_bind w p f);
        let E := fresh "E" in destruct (run w p) as [?t [?|?|]] eqn:E
    | |- context [run ?w ?p] =>
        is_stuck_op p;
        let E := fresh "E" in destruct (run w p) as [?t ?o] eqn:E
    end); cbn.

(** Close the goals [run_simpl] leaves on counts and on [Forall] over a
    trace. *)
Ltac trace_solve :=
  rewrite ?app_nil_r, ?count_calls_app; cbn;
  try split_and!; try lia; repeat constructor; try assumption.

(** ** Facts on the kinds of calls *)

Lemma said_with_says_only_to (sf : say_fn) (t : list call) :
  Forall (fun c => said_with sf c = true) t ->
  Forall (fun c => says_only_to (say_channel sf) c = true) t.
Proof.
  intros H. eapply Forall_impl; [exact H|]. intros [] ?; cbn in *; try done.
  apply andb_prop in H0 as [_ ?]. done.
Qed.

(** When [say] uses the client's token, every call is authenticated with it. *)
Lemma said_with_authenticated (sf : say_fn) (tok : pystr) (t : list call) :
  say_token sf = tok ->
  Forall (fun c => client_authenticated tok c = true) t ->
  Forall (fun c => said_with sf c = true) t ->
  Forall (fun c => authenticated_by tok c = true) t.
Proof.
  intros Htok H1 H2. apply Forall_forall. intros c Hc.
  apply (proj1 (Forall_forall _ _) H1) in Hc as Hc1. apply (proj1 (Forall_forall _ _) H2) in Hc as Hc2.
  destruct c; cbn in *; try done.
  apply andb_prop in Hc2 as [Hk _]. apply bool_decide_eq_true_1 in Hk. subst. by apply bool_decide_eq_true_2.
Qed.

Lemma authenticated_client_authenticated (tok : pystr) (t : list call) :
  Forall (fun c => authenticated_by tok c = true) t ->
  Forall (fun c => client_authenticated tok c = true) t.
Proof.
  intros H. eapply Forall_impl; [exact H|]. intros c Hc.
  unfold client_authenticated. rewrite Hc. apply orb_true_r.
Qed.

#[export] Hint Resolve authenticated_client_authenticated : pybot.
