(* ===== verification/SlackClient.v ===== *)
(** * The Slack Web API client ([class SlackClient])

    [get_user_info] makes one [users_info] call; an error answer is raised
    by the SDK as [SlackApiError], caught, logged with [print] and turned
    into [None].  [send_message] makes one [chat_postMessage] call; an
    error is caught, logged, and turned into [False].

    The file opens with the interface the command handler relies on
    ([SlackClientOps] and its laws [SlackClientLaws]): the handlers'
    theorems are proved against it, and the [SlackClient] module below
    provides, for each [SlackClient] object, the instance and discharges
    the laws.  An object is its [bot_token] and the token of the
    [AsyncWebClient] its constructor builds; every Web API call carries
    the latter. *)

From S2P Require Import Prelude Effects.

(** ** What [get_user_info] returns *)

(** The dict built at lines 18-23: its four keys are always present, their
    values may be [None]. *)
Record user_info := {
  ui_id : option pystr;
  ui_name : option pystr;
  ui_real_name : option pystr;
  ui_email : option pystr;
}.

(** ** Interface *)

Class SlackClientOps := {
  client_token : pystr;  (** the token the client's Web API calls carry *)
  client_get_user_info : pystr -> prog (option user_info);
  client_send_message : pystr -> pystr -> prog bool;
}.

(** A call other than [chat_postMessage], or a [chat_postMessage] to
    [ch]. *)
Definition posts_only_to (ch : pystr) (c : call) : bool :=
  match c with
  | CallPostMessage _ ch' _ => bool_decide (ch' = ch)
  | _ => true
  end.

(** What the handlers need of a client: looking a user up makes at most
    one directory call and nothing else that the handler counts; sending
    makes no lookup, no agent call, and posts only to the channel it was
    given; both authenticate with the client's token. *)
Class SlackClientLaws `{SlackClientOps} := {
  get_user_info_lookups w uid :
    count_calls is_users_info (run w (client_get_user_info uid)).1 <= 1;
  get_user_info_no_agent w uid :
    count_calls is_graph_invoke (run w (client_get_user_info uid)).1 = 0;
  get_user_info_no_post w uid :
    Forall (fun c => is_post_message c = false) (run w (client_get_user_info uid)).1;
  send_message_no_lookup w ch t :
    count_calls is_users_info (run w (client_send_message ch t)).1 = 0;
  send_message_no_agent w ch t :
    count_calls is_graph_invoke (run w (client_send_message ch t)).1 = 0;
  send_message_channel w ch t :
    Forall (fun c => posts_only_to ch c = true) (run w (client_send_message ch t)).1;
  get_user_info_token w uid :
    Forall (fun c => authenticated_by client_token c = true) (run w (client_get_user_info uid)).1;
  send_message_token w ch t :
    Forall (fun c => authenticated_by client_token c = true) (run w (client_send_message ch t)).1;
  get_user_info_no_say w uid :
    Forall (fun c => is_say c = false) (run w (client_get_user_info uid)).1;
  send_message_no_say w ch t :
    Forall (fun c => is_say c = false) (run w (client_send_message ch t)).1;
}.

(** A trace without [say] says only to any conversation. *)
Lemma no_say_says_only_to (ch : pystr) (t : list call) :
  Forall (fun c => is_say c = false) t ->
  Forall (fun c => says_only_to ch c = true) t.
Proof. intros H. eapply Forall_impl; [exact H|]. by intros [] ?. Qed.

#[export] Hint Resolve no_say_says_only_to : pybot.

(** A trace without [chat_postMessage] posts only to any channel. *)
Lemma no_post_posts_only_to (ch : pystr) (t : list call) :
  Forall (fun c => is_post_message c = false) t ->
  Forall (fun c => posts_only_to ch c = true) t.
Proof. intros H. eapply Forall_impl; [exact H|]. by intros [] ?. Qed.

#[export] Hint Resolve no_post_posts_only_to : pybot.

Ltac is_stuck_op p ::=
  lazymatch p with
  | client_get_user_info _ => idtac
  | client_send_message _ _ => idtac
  end.

(** Replace the run of an abstract client call by what the laws say of
    its trace. *)
Ltac client_laws :=
  repeat match goal with
  | E : run ?w (client_send_message ?ch ?x) = (?t, _) |- _ =>
      let L1 := fresh "L" in let L2 := fresh "L" in let L3 := fresh "L" in
      let L4 := fresh "L" in let L5 := fresh "L" in
      pose proof (send_message_no_lookup w ch x) as L1;
      pose proof (send_message_no_agent w ch x) as L2;
      pose proof (send_message_channel w ch x) as L3;
      pose proof (send_message_token w ch x) as L4;
      pose proof (send_message_no_say w ch x) as L5;
      rewrite E in L1, L2, L3, L4, L5; cbn in L1, L2, L3, L4, L5; clear E
  | E : run ?w (client_get_user_info ?u) = (?t, _) |- _ =>
      let L1 := fresh "L" in let L2 := fresh "L" in let L3 := fresh "L" in
      let L4 := fresh "L" in let L5 := fresh "L" in
      pose proof (get_user_info_lookups w u) as L1;
      pose proof (get_user_info_no_agent w u) as L2;
      pose proof (get_user_info_no_post w u) as L3;
      pose proof (get_user_info_token w u) as L4;
      pose proof (get_user_info_no_say w u) as L5;
      rewrite E in L1, L2, L3, L4, L5; cbn in L1, L2, L3, L4, L5; clear E
  end.

(** ** Implementation *)

Module SlackClient.

(** A [SlackClient] object: its [bot_token] attribute and its
    [web_client], an [AsyncWebClient] given by the token it was built
    with. *)
Record slack_client := {
  sc_bot_token : pystr;
  sc_web_client_token : pystr;
}.

(** [SlackClient(bot_token)]: [__init__] stores the token and builds the
    Web API client with it. *)
Definition new_slack_client (bot_token : pystr) : slack_client := {|
  sc_bot_token := bot_token;
  sc_web_client_token := bot_token;
|}.

Section Methods.
Variable self : slack_client.

(** [info = await self.web_client.users_info(user=user_id)]. *)
Definition users_info (uid : pystr) : prog (option slack_user) :=
  Vis (CallUsersInfo (sc_web_client_token self) uid) (fun r : users_info_resp =>
    match r with
    | UsersInfoError err => Raise (SlackApiError err)
    | UsersInfoOk u => Ret u
    end).

(** [user.get("profile", {}).get("email")]. *)
Definition profile_email_of (p : option profile) : option pystr :=
  match p with
  | Some p => profile_email p
  | None => None
  end.

Definition user_info_of (u : slack_user) : user_info := {|
  ui_id := user_id u;
  ui_name := user_name u;
  ui_real_name := user_real_name u;
  ui_email := profile_email_of (user_profile u);
|}.

(** [print("[SLACK] user_info failed: %s", e.response["error"])]: two
    arguments, so Python prints them separated by a space and the [%s]
    stays in the line. *)
Definition user_info_failed_line (err : pystr) : pystr :=
  py "[SLACK] user_info failed: %s" ++ py " " ++ err.

Definition get_user_info (uid : pystr) : prog (option user_info) :=
  catch_slack
    (info ← users_info uid;
     match info with
     | None => Raise (KeyError (py "user"))
     | Some user => Ret (Some (user_info_of user))
     end)
    (fun err => print (user_info_failed_line err);; Ret None).

Definition send_message_failed_line (err : pystr) : pystr :=
  py "[SLACK] send_message failed: " ++ err.

(** [await self.web_client.chat_postMessage(channel=channel, text=text,
    mrkdwn=True, parse_mode="mrkdwn")]. *)
Definition send_message (channel text : pystr) : prog bool :=
  catch_slack
    (Vis (CallPostMessage (sc_web_client_token self) channel text) raise_on_error;; Ret true)
    (fun err => print (send_message_failed_line err);; Ret false).
End Methods.

#[export] Instance slack_client_ops (self : slack_client) : SlackClientOps := {|
  client_token := sc_web_client_token self;
  client_get_user_info := get_user_info self;
  client_send_message := send_message self;
|}.

(** ** Behaviour of the client on every answer of the Web API *)

#[export] Instance slack_client_laws (self : slack_client) :
  SlackClientLaws (H := slack_client_ops self).
Proof.
  split; cbn [client_token client_get_user_info client_send_message slack_client_ops];
    intros; unfold get_user_info, send_message; run_simpl; trace_solve.
  all: by apply bool_decide_eq_true_2.
Qed.


(** C27: [get_user_info] on each answer of [users_info]: an error is
    logged and gives [None]; a user gives the four fields (the email read
    through the optional profile); a response without [user] raises
    [KeyError].  In every case exactly one directory call is made. *)
Theorem get_user_info_run (w : world) (self : slack_client) (uid : pystr) :
  let tok := sc_web_client_token self in
  run w (get_user_info self uid) =
  match w_users_info w tok uid with
  | UsersInfoError err =>
      ([CallUsersInfo tok uid; CallPrint (user_info_failed_line err)], Done None)
  | UsersInfoOk (Some u) => ([CallUsersInfo tok uid], Done (Some (user_info_of u)))
  | UsersInfoOk None => ([CallUsersInfo tok uid], Failed (KeyError (py "user")))
  end.
Proof. unfold get_user_info. cbn zeta. run_simpl; reflexivity. Qed.

(** C28: [send_message] never lets a Web API error escape: it returns
    [True] after a successful post, and [False] after logging the error
    code otherwise. *)
Theorem send_message_run (w : world) (self : slack_client) (channel text : pystr) :
  let tok := sc_web_client_token self in
  run w (send_message self channel text) =
  match w_post_message w tok channel text with
  | PostOk => ([CallPostMessage tok channel text], Done true)
  | PostError err =>
      ([CallPostMessage tok channel text; CallPrint (send_message_failed_line err)],
       Done false)
  end.
Proof. unfold send_message. cbn zeta. run_simpl; reflexivity. Qed.

End SlackClient.
