(* ===== verification/CommandHandler.v ===== *)
(** * The command handlers ([class CommandHandler])

    [handle_ping] answers [Pong!] with the user's real name.
    [handle_search] (a [search:] message) and [handle_deep_search] (the
    [/deep-search] command, which acknowledges first) share one block,
    modelled once as [submit_query]: greet the user with their real name
    and the query, announce the start, call the agent synchronously,
    announce the end, and post the normalised last message of the agent to
    the fixed channel [ai-powered-services].

    The handlers take the [say] Bolt passes them ([say_fn]) and are
    written against the client interface [SlackClientOps] ([self.client]
    in the source); the generic theorems
    assume only [SlackClientLaws], the concrete ones are stated for a
    [CommandHandler] object whose client is a [SlackClient] object. *)

From S2P Require Import Prelude Markdown Effects SlackClient.

(** ** Events *)

(** The fields of a message event the handlers and the router read. *)
Record message_event := {
  ev_subtype : option pystr;
  ev_channel : pystr;
  ev_user : option pystr;
  ev_text : option pystr;
}.

(** The fields of a slash-command payload ([body]). *)
Record command_body := {
  body_command : pystr;
  body_channel_id : pystr;
  body_user_id : option pystr;
  body_text : option pystr;
}.

(** ** Constants of the handlers *)

Definition RESULT_CHANNEL : pystr := py "ai-powered-services".

Definition STARTING_TEXT : pystr :=
  py "Starting deep research... This may take a few minutes. Please wait.".

Definition COMPLETED_TEXT : pystr :=
  py "Research completed. Preparing the summary...".

(** The argument of [graph.invoke]. *)
Definition agent_input_of (query : pystr) : agent_input := {|
  in_messages := [{| msg_role := py "user"; msg_content := query |}];
  in_max_research_loops := 2;
  in_initial_search_query_count := 3;
|}.

(** [f"Pong! Hello {user['real_name']} 👋" if user else "Pong! 🤖"]. *)
Definition ping_text (user : option user_info) : pystr :=
  match user with
  | Some u => py "Pong! Hello " ++ py_str_opt (ui_real_name u) ++ py " " ++ [CH_WAVE]
  | None => py "Pong! " ++ [CH_ROBOT]
  end.

(** The greeting of the search handlers, for a real name already read. *)
Definition submitted_text (real_name : option pystr) (query : pystr) : pystr :=
  py_str_opt real_name ++ py " just submitted a new Query:" ++ [CH_NEWLINE] ++
  py "Query: " ++ [CH_QUOTE] ++ query ++ [CH_QUOTE] ++ [CH_NEWLINE] ++
  py "Thanks for reaching out! We'll get back to you soon.".

Section Handlers.
Context `{SlackClientOps}.

(** The block shared by [handle_search] and [handle_deep_search], from
    the greeting to the final [send_message].  [user['real_name']] on
    [None] raises [TypeError] before anything is said. *)
Definition submit_query (user : option user_info) (say_ : say_fn) (query : pystr) : prog unit :=
  match user with
  | None => Raise TypeError
  | Some u =>
      say say_ (submitted_text (ui_real_name u) query);;
      say say_ STARTING_TEXT;;
      st ← graph_invoke (agent_input_of query);
      say say_ COMPLETED_TEXT;;
      msgs ← py_getitem (py "messages") st;
      content ← py_last msgs;
      client_send_message RESULT_CHANNEL (normalize_markdown content);;
      Ret tt
  end.

Definition handle_ping (event : message_event) (say_ : say_fn) : prog unit :=
  uid ← py_getitem (py "user") (ev_user event);
  user ← client_get_user_info uid;
  say say_ (ping_text user).

Definition handle_search (event : message_event) (say_ : say_fn) (query : pystr) : prog unit :=
  uid ← py_getitem (py "user") (ev_user event);
  user ← client_get_user_info uid;
  submit_query user say_ query.

Definition handle_deep_search (body : command_body) (say_ : say_fn) : prog unit :=
  ack;;
  uid ← py_getitem (py "user_id") (body_user_id body);
  user ← client_get_user_info uid;
  submit_query user say_ (py_get_default (body_text body) []).
End Handlers.

(** ** Sample inputs for the witnesses *)

Definition demo_user : slack_user := {|
  user_id := Some (py "U1");
  user_name := Some (py "ada");
  user_real_name := Some (py "Ada Lovelace");
  user_profile := Some {| profile_email := Some (py "ada@example.com") |};
|}.

(** A world where every post succeeds, the directory answers [lookup] and
    the agent answers [agent]. *)
Definition demo_world (lookup : users_info_resp) (agent : agent_resp) : world := {|
  w_users_info := fun _ _ => lookup;
  w_post_message := fun _ _ _ => PostOk;
  w_say := fun _ _ _ => PostOk;
  w_agent := fun _ => agent;
|}.

Definition demo_event (text : pystr) : message_event := {|
  ev_subtype := None;
  ev_channel := py "C1";
  ev_user := Some (py "U1");
  ev_text := Some text;
|}.

Definition demo_command (text : pystr) : command_body := {|
  body_command := py "/deep-search";
  body_channel_id := py "C1";
  body_user_id := Some (py "U1");
  body_text := Some text;
|}.

(** The agent's answer of the spec's scenario, [**Sunny**, 25°C]. *)
Definition demo_answer : pystr := py "**Sunny**, 25" ++ [176%Z] ++ py "C".

(** ** Generic properties, from the client's laws *)

Section Generic.
Context `{SlackClientLaws}.

Lemma submit_query_counts (w : world) (user : option user_info) (sf : say_fn) (query : pystr) :
  count_calls is_users_info (run w (submit_query user sf query)).1 = 0 /\
  count_calls is_graph_invoke (run w (submit_query user sf query)).1 <= 1.
Proof.
  destruct user as [u|]; simpl; [|split_and!; auto].
  run_simpl; client_laws; trace_solve.
Qed.

Ltac is_stuck_op p ::=
  lazymatch p with
  | client_get_user_info _ => idtac
  | client_send_message _ _ => idtac
  | submit_query _ _ _ => idtac
  end.

(** Replace the run of [submit_query] by its bounds. *)
Ltac submit_facts :=
  repeat match goal with
  | E : run ?w (submit_query ?u ?sf ?q) = _ |- _ =>
      let L := fresh "L" in
      pose proof (submit_query_counts w u sf q) as L; rewrite E in L; cbn in L;
      destruct L as [? ?]; clear E
  end.

(** Add what the lemma [lem] says of the run of [submit_query]. *)
Ltac submit_fact lem :=
  match goal with
  | E : run ?w (submit_query ?u ?sf ?q) = _ |- _ =>
      let P := fresh "P" in pose proof (lem w u sf q) as P; rewrite E in P; cbn in P
  end.

(** C1: the slash-command handler acknowledges before anything else:
    whatever Slack, the client or the agent answer, the first call of
    [handle_deep_search] is [ack()]. *)
Theorem handle_deep_search_ack_first (w : world) (body : command_body) (sf : say_fn) :
  exists t, (run w (handle_deep_search body sf)).1 = CallAck :: t.
Proof. unfold handle_deep_search. cbn. destruct (run _ _). by eexists. Qed.

(** What a handler's trace may contain: at most one directory lookup, at
    most one agent call, posts only to [ai-powered-services], calls of the
    client authenticated with its token [tok], and replies made only
    through the [say] it was given. *)
Definition handler_ok (tok : pystr) (sf : say_fn) (t : list call) : Prop :=
  count_calls is_users_info t <= 1 /\ count_calls is_graph_invoke t <= 1 /\
  Forall (fun c => posts_only_to RESULT_CHANNEL c = true) t /\
  Forall (fun c => client_authenticated tok c = true) t /\
  Forall (fun c => said_with sf c = true) t.

(** A [say] through [sf] is said with [sf]. *)
Lemma said_with_say (sf : say_fn) (text : pystr) :
  said_with sf (CallSay (say_token sf) (say_channel sf) text) = true.
Proof. cbn. by rewrite !bool_decide_eq_true_2. Qed.

(** The client's calls make no [say]. *)
Lemma no_say_said_with (sf : say_fn) (t : list call) :
  Forall (fun c => is_say c = false) t -> Forall (fun c => said_with sf c = true) t.
Proof. intros Ht. eapply Forall_impl; [exact Ht|]. by intros [] ?. Qed.

#[local] Hint Resolve said_with_say no_say_said_with : pybot.

Lemma submit_query_posts (w : world) (u : option user_info) (sf : say_fn) (q : pystr) :
  Forall (fun c => posts_only_to RESULT_CHANNEL c = true) (run w (submit_query u sf q)).1.
Proof. destruct u as [u|]; cbn; [|constructor]. run_simpl; client_laws; trace_solve. Qed.

Lemma submit_query_token (w : world) (u : option user_info) (sf : say_fn) (q : pystr) :
  Forall (fun c => client_authenticated client_token c = true) (run w (submit_query u sf q)).1.
Proof.
  destruct u as [u|]; cbn; [|constructor]. run_simpl; client_laws; trace_solve;
    auto with pybot.
Qed.

Lemma submit_query_says (w : world) (u : option user_info) (sf : say_fn) (q : pystr) :
  Forall (fun c => said_with sf c = true) (run w (submit_query u sf q)).1.
Proof.
  destruct u as [u|]; cbn; [|constructor]. run_simpl; client_laws; trace_solve;
    rewrite ?Forall_app; try split; auto with pybot.
Qed.

(** Close a goal on a handler's trace from the client's laws and the
    facts [l1], [l2], [l3] on [submit_query]. *)
Ltac handler_solve l1 l2 l3 :=
  run_simpl; client_laws; try submit_fact l1; try submit_fact l2; try submit_fact l3;
  submit_facts; trace_solve; rewrite ?Forall_app; try split; auto with pybot.

Lemma handle_ping_ok (w : world) (ev : message_event) (sf : say_fn) :
  handler_ok client_token sf (run w (handle_ping ev sf)).1 /\
  count_calls is_graph_invoke (run w (handle_ping ev sf)).1 = 0.
Proof. unfold handler_ok, handle_ping. destruct (ev_user ev); split_and!;
  handler_solve submit_query_posts submit_query_token submit_query_says. Qed.

Lemma handle_search_ok (w : world) (ev : message_event) (sf : say_fn) (query : pystr) :
  handler_ok client_token sf (run w (handle_search ev sf query)).1.
Proof. unfold handler_ok, handle_search. destruct (ev_user ev); split_and!;
  handler_solve submit_query_posts submit_query_token submit_query_says. Qed.

Lemma handle_deep_search_ok (w : world) (body : command_body) (sf : say_fn) :
  handler_ok client_token sf (run w (handle_deep_search body sf)).1.
Proof.
  unfold handler_ok, handle_deep_search. destruct (body_user_id body); split_and!;
  handler_solve submit_query_posts submit_query_token submit_query_says.
Qed.

(** C9: at most one directory lookup and at most one agent call per
    event (spec, section 3), for the three handlers; [handle_ping] never
    calls the agent. *)
Theorem handlers_call_bounds (w : world) (ev : message_event) (sf : say_fn) (query : pystr)
    (body : command_body) :
  ((count_calls is_users_info (run w (handle_ping ev sf)).1 <= 1) /\
   (count_calls is_graph_invoke (run w (handle_ping ev sf)).1 = 0)) /\
  ((count_calls is_users_info (run w (handle_search ev sf query)).1 <= 1) /\
   (count_calls is_graph_invoke (run w (handle_search ev sf query)).1 <= 1)) /\
  ((count_calls is_users_info (run w (handle_deep_search body sf)).1 <= 1) /\
   (count_calls is_graph_invoke (run w (handle_deep_search body sf)).1 <= 1)).
Proof.
  destruct (handle_ping_ok w ev sf) as [[? _] ?], (handle_search_ok w ev sf query) as (? & ? & _),
    (handle_deep_search_ok w body sf) as (? & ? & _).
  split_and!; done.
Qed.

(** C11: the search handlers post with [chat_postMessage] only to the
    fixed channel [ai-powered-services], never to the channel of the
    event, and reply only through the [say] Bolt gave them (spec, section
    4.3: replies into the invoking conversation, results into the fixed
    channel). *)
Theorem handlers_post_only_to_result_channel (w : world) (ev : message_event) (sf : say_fn)
    (query : pystr) (body : command_body) :
  Forall (fun c => posts_only_to RESULT_CHANNEL c = true /\ said_with sf c = true)
         (run w (handle_search ev sf query)).1 /\
  Forall (fun c => posts_only_to RESULT_CHANNEL c = true /\ said_with sf c = true)
         (run w (handle_deep_search body sf)).1.
Proof.
  destruct (handle_search_ok w ev sf query) as (_ & _ & ? & _ & ?),
    (handle_deep_search_ok w body sf) as (_ & _ & ? & _ & ?).
  split; by apply Forall_and.
Qed.
End Generic.

(** ** The handlers with the [SlackClient] implementation *)

Import SlackClient.

(** A [CommandHandler] object: the client given to its constructor. *)
Record command_handler := {
  ch_client : slack_client;
}.

(** [CommandHandler(client)]: [__init__] stores the client. *)
Definition new_command_handler (client : slack_client) : command_handler := {|
  ch_client := client;
|}.

(** The token of the Web API client the handler's client holds. *)
Definition handler_token (self : command_handler) : pystr :=
  sc_web_client_token (ch_client self).

Section Concrete.
Context (self : command_handler).

(** [self.client] of the handler. *)
#[local] Instance handler_client_ops : SlackClientOps := slack_client_ops (ch_client self).

(** C10: no retries and no loops: whatever Slack and the agent answer,
    [handle_ping] makes at most 3 external calls (lookup, log, reply),
    [handle_search] at most 7 and [handle_deep_search] at most 8 (its
    [ack] and the 7 of the search flow, the last being the log of a
    failed post). *)
Theorem handlers_trace_length (w : world) (ev : message_event) (sf : say_fn) (query : pystr)
    (body : command_body) :
  length (run w (handle_ping ev sf)).1 <= 3 /\
  length (run w (handle_search ev sf query)).1 <= 7 /\
  length (run w (handle_deep_search body sf)).1 <= 8.
Proof.
  unfold handle_ping, handle_search, handle_deep_search.
  destruct (ev_user ev), (body_user_id body); split_and!; run_simpl; lia.
Qed.

(** C15: [handle_ping] replies [Pong! 🤖] exactly when the lookup fails
    (after logging it), and [Pong! Hello {real_name} 👋] with the name
    substituted verbatim (Python's [None] when the profile has none)
    when it succeeds; a response without [user] raises [KeyError]. *)
Theorem handle_ping_run (w : world) (ev : message_event) (sf : say_fn) (uid : pystr) :
  ev_user ev = Some uid ->
  run w (handle_ping ev sf) =
  match w_users_info w (handler_token self) uid with
  | UsersInfoError err =>
      ([CallUsersInfo (handler_token self) uid; CallPrint (user_info_failed_line err);
        CallSay (say_token sf) (say_channel sf) (py "Pong! " ++ [CH_ROBOT])],
       say_outcome w sf (py "Pong! " ++ [CH_ROBOT]))
  | UsersInfoOk (Some u) =>
      let txt := py "Pong! Hello " ++ py_str_opt (user_real_name u) ++ py " " ++ [CH_WAVE] in
      ([CallUsersInfo (handler_token self) uid; CallSay (say_token sf) (say_channel sf) txt], say_outcome w sf txt)
  | UsersInfoOk None => ([CallUsersInfo (handler_token self) uid], Failed (KeyError (py "user")))
  end.
Proof.
  intros Hev. unfold handle_ping, handler_token. rewrite Hev.
  run_simpl; unfold say_outcome; run_simpl; reflexivity.
Qed.

(** C2: when the directory lookup fails, both search handlers raise
    [TypeError] (the code reads [user['real_name']] with [user = None])
    right after logging the failure: the user gets no acknowledgement and
    the agent is not called.  The spec asks for a fallback greeting. *)
Theorem search_handlers_lookup_failure (w : world) (ev : message_event)
    (body : command_body) (sf : say_fn) (query uid err : pystr) :
  w_users_info w (handler_token self) uid = UsersInfoError err ->
  (ev_user ev = Some uid ->
   run w (handle_search ev sf query) =
   ([CallUsersInfo (handler_token self) uid; CallPrint (user_info_failed_line err)],
    Failed TypeError)) /\
  (body_user_id body = Some uid ->
   run w (handle_deep_search body sf) =
   ([CallAck; CallUsersInfo (handler_token self) uid; CallPrint (user_info_failed_line err)],
    Failed TypeError)).
Proof.
  intros Hw. unfold handler_token in Hw. split; intros Hu;
    unfold handle_search, handle_deep_search; rewrite Hu; run_simpl; reflexivity.
Qed.

(** C3: the flow both search handlers share, after a successful lookup,
    on every answer of Slack and of the agent: the user is greeted with
    the query, told that research started; a [say] that fails raises
    [SlackApiError] at once and nothing after it runs; the agent is then
    called once with the fixed configuration (2 research loops, 3 initial
    queries) and an exception of the agent escapes; otherwise the end is
    announced, [state["messages"][-1]] is read ([KeyError], [IndexError])
    and its normalised content is sent to [ai-powered-services], whose
    failure is only logged. *)
Theorem submit_query_run (w : world) (sf : say_fn) (u : user_info) (query : pystr) :
  let said t := w_say w (say_token sf) (say_channel sf) t in
  let sayc t := CallSay (say_token sf) (say_channel sf) t in
  let greet := submitted_text (ui_real_name u) query in
  run w (submit_query (Some u) sf query) =
  match said greet with
  | PostError e => ([sayc greet], Failed (SlackApiError e))
  | PostOk =>
      match said STARTING_TEXT with
      | PostError e => ([sayc greet; sayc STARTING_TEXT], Failed (SlackApiError e))
      | PostOk =>
          let pre := [sayc greet; sayc STARTING_TEXT; CallGraphInvoke (agent_input_of query)] in
          match w_agent w (agent_input_of query) with
          | AgentRaised what => (pre, Failed (AgentError what))
          | AgentState st =>
              match said COMPLETED_TEXT with
              | PostError e => (pre ++ [sayc COMPLETED_TEXT], Failed (SlackApiError e))
              | PostOk =>
                  match st with
                  | None => (pre ++ [sayc COMPLETED_TEXT], Failed (KeyError (py "messages")))
                  | Some msgs =>
                      match last msgs with
                      | None => (pre ++ [sayc COMPLETED_TEXT], Failed IndexError)
                      | Some content =>
                          (pre ++ [sayc COMPLETED_TEXT] ++
                           (run w (send_message (ch_client self) RESULT_CHANNEL
                                     (normalize_markdown content))).1, Done tt)
                      end
                  end
              end
          end
      end
  end.
Proof. cbn zeta. unfold submit_query. run_simpl; reflexivity. Qed.

(** C4: how the two search handlers reach that flow: [handle_search]
    looks the author of the message up and runs it with the captured
    query; [handle_deep_search] first acknowledges, then looks the
    invoking user up and runs it with [body.get("text", "")]; a lookup
    that answers a user gives the four fields of [get_user_info]. *)
Theorem search_handlers_run (w : world) (ev : message_event) (body : command_body)
    (sf : say_fn) (query uid : pystr) (u : slack_user) :
  w_users_info w (handler_token self) uid = UsersInfoOk (Some u) ->
  (ev_user ev = Some uid ->
   run w (handle_search ev sf query) =
   let r := run w (submit_query (Some (user_info_of u)) sf query) in
   (CallUsersInfo (handler_token self) uid :: r.1, r.2)) /\
  (body_user_id body = Some uid ->
   run w (handle_deep_search body sf) =
   let r := run w (submit_query (Some (user_info_of u)) sf (py_get_default (body_text body) [])) in
   (CallAck :: CallUsersInfo (handler_token self) uid :: r.1, r.2)).
Proof.
  intros Hu. unfold handler_token in Hu.
  split; intros He; unfold handle_search, handle_deep_search; rewrite He; cbn zeta;
    run_simpl; try reflexivity; by destruct (run w _).
Qed.

(** C5: an event without its user raises [KeyError] before any reply:
    [event["user"]] in [handle_ping] and [handle_search] with no call at
    all, [body["user_id"]] in [handle_deep_search] right after [ack()]. *)
Theorem handlers_missing_user (w : world) (ev : message_event) (body : command_body)
    (sf : say_fn) (query : pystr) :
  (ev_user ev = None ->
   run w (handle_ping ev sf) = ([], Failed (KeyError (py "user"))) /\
   run w (handle_search ev sf query) = ([], Failed (KeyError (py "user")))) /\
  (body_user_id body = None ->
   run w (handle_deep_search body sf) = ([CallAck], Failed (KeyError (py "user_id")))).
Proof.
  split; [intros He; split|intros Hb];
    unfold handle_ping, handle_search, handle_deep_search; rewrite ?He, ?Hb; reflexivity.
Qed.
End Concrete.

(** ** Witnesses: a handler whose client holds the token [xoxb] *)

Definition demo_handler : command_handler := new_command_handler (new_slack_client (py "xoxb")).

#[local] Instance demo_ops : SlackClientOps := handler_client_ops demo_handler.
#[local] Instance demo_laws : SlackClientLaws (H := demo_ops) := slack_client_laws _.

(** The [say] Bolt passes for an event of the conversation [C1]. *)
Definition demo_say : say_fn := {| say_token := py "xoxb"; say_channel := py "C1" |}.

Lemma handle_ping_run_witness :
  ev_user (demo_event (py "ping")) = Some (py "U1") /\
  run (demo_world (UsersInfoError (py "user_not_found")) (AgentState None))
      (handle_ping (demo_event (py "ping")) demo_say) =
  ([CallUsersInfo (py "xoxb") (py "U1");
    CallPrint (user_info_failed_line (py "user_not_found"));
    CallSay (py "xoxb") (py "C1") (py "Pong! " ++ [CH_ROBOT])], Done tt).
Proof.
  split; [reflexivity|].
  rewrite (handle_ping_run demo_handler _ _ _ (py "U1")) by reflexivity. reflexivity.
Defined.

Lemma search_handlers_lookup_failure_witness :
  run (demo_world (UsersInfoError (py "user_not_found")) (AgentState None))
      (handle_deep_search (demo_command (py "deep dive on X")) demo_say) =
  ([CallAck; CallUsersInfo (py "xoxb") (py "U1");
    CallPrint (user_info_failed_line (py "user_not_found"))], Failed TypeError).
Proof.
  apply (search_handlers_lookup_failure demo_handler _ (demo_event []) _ _ (py "deep dive on X")
           (py "U1") (py "user_not_found")); reflexivity.
Defined.

Lemma search_handlers_run_witness :
  let w := demo_world (UsersInfoOk (Some demo_user)) (AgentState (Some [demo_answer])) in
  run w (handle_search (demo_event (py "search: weather in Tokyo")) demo_say (py "weather in Tokyo")) =
  let r := run w (submit_query (Some (user_info_of demo_user)) demo_say (py "weather in Tokyo")) in
  (CallUsersInfo (py "xoxb") (py "U1") :: r.1, r.2).
Proof.
  intros w. apply (proj1 (search_handlers_run demo_handler w (demo_event (py "search: weather in Tokyo"))
                      (demo_command []) demo_say (py "weather in Tokyo") (py "U1") demo_user
                      eq_refl)).
  reflexivity.
Defined.

Lemma handlers_missing_user_witness :
  let ev := {| ev_subtype := Some (py "bot_message"); ev_channel := py "C1";
               ev_user := None; ev_text := Some (py "ping") |} in
  run (demo_world (UsersInfoOk None) (AgentState None)) (handle_ping ev demo_say) =
  ([], Failed (KeyError (py "user"))).
Proof.
  intros ev. apply (proj1 (handlers_missing_user demo_handler _ ev (demo_command []) demo_say [])
                      eq_refl).
Defined.

Lemma handlers_call_bounds_witness :
  let w := demo_world (UsersInfoOk (Some demo_user)) (AgentState (Some [demo_answer])) in
  ((count_calls is_users_info (run w (handle_ping (demo_event (py "ping")) demo_say)).1 <= 1) /\
   (count_calls is_graph_invoke (run w (handle_ping (demo_event (py "ping")) demo_say)).1 = 0)) /\
  ((count_calls is_users_info (run w (handle_search (demo_event (py "search: x")) demo_say (py "x"))).1 <= 1) /\
   (count_calls is_graph_invoke (run w (handle_search (demo_event (py "search: x")) demo_say (py "x"))).1 <= 1)) /\
  ((count_calls is_users_info (run w (handle_deep_search (demo_command (py "x")) demo_say)).1 <= 1) /\
   (count_calls is_graph_invoke (run w (handle_deep_search (demo_command (py "x")) demo_say)).1 <= 1)).
Proof. intros w. exact (handlers_call_bounds w _ _ _ _). Defined.

Lemma handlers_post_only_to_result_channel_witness :
  let w := demo_world (UsersInfoOk (Some demo_user)) (AgentState (Some [demo_answer])) in
  Forall (fun c => posts_only_to RESULT_CHANNEL c = true /\ said_with demo_say c = true)
         (run w (handle_search (demo_event (py "search: x")) demo_say (py "x"))).1 /\
  Forall (fun c => posts_only_to RESULT_CHANNEL c = true /\ said_with demo_say c = true)
         (run w (handle_deep_search (demo_command (py "x")) demo_say)).1.
Proof. intros w. exact (handlers_post_only_to_result_channel w _ _ _ _). Defined.
