(* ===== verification/SlackBot.v ===== *)
(** * The bot ([class SlackBot]) and the process ([main.py])

    [_setup_routes] registers three listeners with Slack Bolt, in this
    order: [app.message("ping")], [app.command("/deep-search")] and
    [app.message(re.compile(...search pattern...))].  Bolt tries the
    listeners in registration order and runs the first one that matches
    (library behaviour, modelled here as [dispatch]):
    - a message listener matches a [message] event whose subtype is none,
      [bot_message], [thread_broadcast] or [file_share], whose text is not
      empty, and on which [re.findall(keyword, text)] is not empty;
    - a command listener matches the command of that name.
    Bolt runs the listener with the event and the [say] it builds for it
    ([bolt_say]: the app's client, bound to the event's conversation).
    [_search_message_handler] matches the text again and calls
    [handle_search] with the captured group.

    The constructor builds [AsyncApp(token=bot_token)],
    [SlackClient(bot_token)] and [CommandHandler(self.client)]
    ([new_slack_bot]); the routes of a bot run the handlers of its
    [CommandHandler], whose client is [bot_ops].

    [main] formats the time with [strftime("%H:%M:%S on %A")], announces
    the bot in its channel with [send_to_channel] and calls [start], which
    logs and then blocks in the socket-mode loop. *)

From S2P Require Import Prelude Markdown SearchPattern Effects SlackClient CommandHandler.

Import SlackClient.

(** ** The bot object *)

(** The [AsyncApp] object, by the token its own Web API client holds
    (used by [say] and by the socket-mode handler). *)
Record bolt_app := {
  app_bot_token : pystr;
}.

(** A [SlackBot] object: the three values given to the constructor and
    the three objects it builds. *)
Record slack_bot := {
  bot_app_token : pystr;
  bot_bot_token : pystr;
  bot_channel : pystr;
  bot_app : bolt_app;
  bot_client : slack_client;
  bot_handler : command_handler;
}.

(** [SlackBot(app_token, bot_token, channel)]: [__init__] stores the
    three values, builds [AsyncApp(token=bot_token)],
    [SlackClient(bot_token)] and [CommandHandler(self.client)]; the
    routes it then registers are [setup_routes] below. *)
Definition new_slack_bot (app_token bot_token channel : pystr) : slack_bot :=
  let client := new_slack_client bot_token in {|
  bot_app_token := app_token;
  bot_bot_token := bot_token;
  bot_channel := channel;
  bot_app := {| app_bot_token := bot_token |};
  bot_client := client;
  bot_handler := new_command_handler client;
|}.

(** The client the handlers of the bot use: [self.handler.client]. *)
Definition bot_ops (self : slack_bot) : SlackClientOps := handler_client_ops (bot_handler self).

(** ** Routing *)

(** What Bolt delivers to the app. *)
Inductive inbound :=
| InMessage (ev : message_event)
| InCommand (body : command_body).

(** A registered listener: the keyword test of a message listener (the
    text test of [re.findall]) or the name of a command, and the handler. *)
Inductive listener :=
| MessageListener (text_matches : pystr -> bool) (handler : message_event -> say_fn -> prog unit)
| CommandListener (name : pystr) (handler : command_body -> say_fn -> prog unit).

(** The subtypes [app.message] accepts. *)
Definition message_subtype_ok (st : option pystr) : bool :=
  match st with
  | None => true
  | Some s => bool_decide (s ∈ [py "bot_message"; py "thread_broadcast"; py "file_share"])
  end.

Definition listener_matches (l : listener) (i : inbound) : bool :=
  match l, i with
  | MessageListener m _, InMessage ev =>
      let text := py_get_default (ev_text ev) [] in
      message_subtype_ok (ev_subtype ev) && negb (bool_decide (text = [])) && m text
  | CommandListener n _, InCommand b => bool_decide (body_command b = n)
  | _, _ => false
  end.

(** The conversation of an event: [event["channel"]] of a message,
    [body["channel_id"]] of a command. *)
Definition inbound_channel (i : inbound) : pystr :=
  match i with
  | InMessage ev => ev_channel ev
  | InCommand b => body_channel_id b
  end.

(** The [say] Bolt builds for an event: the app's client, bound to the
    event's conversation. *)
Definition bolt_say (app : bolt_app) (i : inbound) : say_fn := {|
  say_token := app_bot_token app;
  say_channel := inbound_channel i;
|}.

(** Bolt runs the listener with the event and its [say]. *)
Definition listener_run (app : bolt_app) (l : listener) (i : inbound) : prog unit :=
  match l, i with
  | MessageListener _ h, InMessage ev => h ev (bolt_say app i)
  | CommandListener _ h, InCommand b => h b (bolt_say app i)
  | _, _ => Ret tt
  end.

(** The first listener that matches handles the event. *)
Fixpoint dispatch (app : bolt_app) (ls : list listener) (i : inbound) : option (prog unit) :=
  match ls with
  | [] => None
  | l :: ls' => if listener_matches l i then Some (listener_run app l i) else dispatch app ls' i
  end.

(** [_search_message_handler(self, message, say)]. *)
Definition search_message_handler (self : slack_bot) (message : message_event) (say_ : say_fn) :
    prog unit :=
  text ← py_getitem (py "text") (ev_text message);
  match match_search text with
  | Some content => handle_search (H := bot_ops self) message say_ content
  | None => Ret tt
  end.

(** [_setup_routes]: [app.message("ping")] tests [re.findall("ping",
    text)], the search listener tests [re.findall] of the anchored
    pattern, which is not empty exactly when [re.match] matches. *)
Definition setup_routes (self : slack_bot) : list listener := [
  MessageListener (contains (py "ping")) (handle_ping (H := bot_ops self));
  CommandListener (py "/deep-search") (handle_deep_search (H := bot_ops self));
  MessageListener (fun text => bool_decide (is_Some (match_search text)))
    (search_message_handler self)
].

(** [send_to_channel(self, text)]. *)
Definition send_to_channel (bot : slack_bot) (text : pystr) : prog bool :=
  send_message (bot_client bot) (bot_channel bot) text.

(** [print(f"[SLACK] Starting Socket‑Mode for channel {self.channel}")]:
    the hyphen of the source is U+2011. *)
Definition starting_line (channel : pystr) : pystr :=
  py "[SLACK] Starting Socket" ++ [CH_NB_HYPHEN] ++ py "Mode for channel " ++ channel.

(** [start(self)]: log, then [await socket_handler.start_async()], which
    does not return. *)
Definition start (bot : slack_bot) : prog unit :=
  print (starting_line (bot_channel bot));;
  Vis (CallStartSocketMode (app_bot_token (bot_app bot)) (Some (bot_app_token bot)))
      (fun e : Empty_set => match e with end).

(** The local time [main] reads with [datetime.now()]. *)
Record datetime := {
  dt_hour : Z;
  dt_minute : Z;
  dt_second : Z;
  dt_weekday : nat;  (** Monday is 0, as [datetime.weekday()] *)
}.

Definition digit (d : Z) : pychar := (48 + d)%Z.

(** [%H], [%M], [%S]: two decimal digits. *)
Definition pad2 (n : Z) : pystr := [digit (n / 10); digit (n mod 10)].

(** [%A] in the C locale. *)
Definition weekday_name (d : nat) : pystr :=
  match d with
  | 0 => py "Monday" | 1 => py "Tuesday" | 2 => py "Wednesday"
  | 3 => py "Thursday" | 4 => py "Friday" | 5 => py "Saturday"
  | _ => py "Sunday"
  end.

(** [current_datetime.strftime("%H:%M:%S on %A")]. *)
Definition format_time (now : datetime) : pystr :=
  pad2 (dt_hour now) ++ py ":" ++ pad2 (dt_minute now) ++ py ":" ++
  pad2 (dt_second now) ++ py " on " ++ weekday_name (dt_weekday now).

Definition online_text (now : datetime) : pystr :=
  format_time now ++ py " | Hello everyone! Praxi is online and ready to help. " ++ [CH_SMILE].

(** [main()]: the bot is built from the settings (its constructor only
    stores them and registers the routes), announces itself, starts. *)
Definition main (bot : slack_bot) (now : datetime) : prog unit :=
  send_to_channel bot (online_text now);;
  start bot.

(** ** Routing: which handler runs *)

Lemma dispatch_cons (app : bolt_app) (l : listener) (ls : list listener) (i : inbound) :
  dispatch app (l :: ls) i =
  if listener_matches l i then Some (listener_run app l i) else dispatch app ls i.
Proof. reflexivity. Qed.

(** C23: the ping listener fires on every accepted message whose text
    contains [ping] anywhere (Bolt's [re.findall]), not only on the text
    [ping], and it takes precedence over the search listener. *)
Theorem dispatch_ping (bot : slack_bot) (ev : message_event) (text : pystr) :
  message_subtype_ok (ev_subtype ev) = true ->
  ev_text ev = Some text ->
  (exists a b, text = a ++ py "ping" ++ b) ->
  dispatch (bot_app bot) (setup_routes bot) (InMessage ev) =
  Some (handle_ping (H := bot_ops bot) ev (bolt_say (bot_app bot) (InMessage ev))).
Proof.
  intros Hst Htext Hping. apply contains_spec in Hping.
  assert (text <> []) as Hne by (intros ->; vm_compute in Hping; discriminate).
  unfold setup_routes. rewrite dispatch_cons.
  cbn [listener_matches listener_run]. rewrite Hst, Htext. cbn [py_get_default].
  by rewrite Hping, bool_decide_eq_false_2.
Qed.

(** The bot [main] builds from the tokens [xapp], [xoxb] and the channel
    [general]. *)
Definition demo_bot : slack_bot := new_slack_bot (py "xapp") (py "xoxb") (py "general").

Lemma dispatch_ping_witness :
  dispatch (bot_app demo_bot) (setup_routes demo_bot) (InMessage (demo_event (py "search: ping pong"))) =
  Some (handle_ping (H := bot_ops demo_bot) (demo_event (py "search: ping pong"))
          (bolt_say (bot_app demo_bot) (InMessage (demo_event (py "search: ping pong"))))).
Proof.
  apply (dispatch_ping _ _ (py "search: ping pong")); [reflexivity|reflexivity|].
  exists (py "search: "), (py " pong"). reflexivity.
Defined.

(** C24: a message that starts with [search:] and does not mention
    [ping] reaches [_search_message_handler], which runs [handle_search]
    with the group captured by the pattern. *)
Theorem dispatch_search (bot : slack_bot) (ev : message_event) (text query : pystr) :
  message_subtype_ok (ev_subtype ev) = true ->
  ev_text ev = Some text ->
  match_search text = Some query ->
  contains (py "ping") text = false ->
  dispatch (bot_app bot) (setup_routes bot) (InMessage ev) =
  Some (search_message_handler bot ev (bolt_say (bot_app bot) (InMessage ev))) /\
  forall sf, search_message_handler bot ev sf = handle_search (H := bot_ops bot) ev sf query.
Proof.
  intros Hst Htext Hm Hping. split.
  - unfold setup_routes. rewrite !dispatch_cons. cbn [listener_matches listener_run].
    assert (text <> []) as Hne by (intros ->; discriminate).
    cbn [listener_matches listener_run]. rewrite Hst, Htext. cbn [py_get_default].
    by rewrite Hping, Hm, bool_decide_eq_false_2.
  - intros sf. unfold search_message_handler. rewrite Htext. cbn. by rewrite Hm.
Qed.

Lemma dispatch_search_witness :
  dispatch (bot_app demo_bot) (setup_routes demo_bot) (InMessage (demo_event (py "search: weather in Tokyo"))) =
  Some (search_message_handler demo_bot (demo_event (py "search: weather in Tokyo"))
          (bolt_say (bot_app demo_bot) (InMessage (demo_event (py "search: weather in Tokyo"))))) /\
  forall sf, search_message_handler demo_bot (demo_event (py "search: weather in Tokyo")) sf =
  handle_search (H := bot_ops demo_bot) (demo_event (py "search: weather in Tokyo")) sf
    (py "weather in Tokyo").
Proof. apply (dispatch_search _ _ (py "search: weather in Tokyo")); reflexivity. Defined.

(** C25: a slash command is handled by [handle_deep_search] exactly when
    it is [/deep-search], with the [say] of that command; no other command
    has a listener, so Bolt handles it as unmatched. *)
Theorem dispatch_command (bot : slack_bot) (body : command_body) :
  dispatch (bot_app bot) (setup_routes bot) (InCommand body) =
  if bool_decide (body_command body = py "/deep-search")
  then Some (handle_deep_search (H := bot_ops bot) body (bolt_say (bot_app bot) (InCommand body)))
  else None.
Proof. unfold setup_routes. cbn. by case_bool_decide. Qed.

(** C26: a message of another bot ([subtype] [bot_message], which the
    [app.message] listeners accept and which carries no [user]) whose text
    mentions [ping] is routed to [handle_ping], and [event["user"]] raises
    [KeyError] there before any call: the bot never answers it. *)
Theorem dispatch_bot_message_ping (w : world) (bot : slack_bot) (ev : message_event)
    (text : pystr) :
  ev_subtype ev = Some (py "bot_message") ->
  ev_user ev = None ->
  ev_text ev = Some text ->
  (exists a b, text = a ++ py "ping" ++ b) ->
  exists p, dispatch (bot_app bot) (setup_routes bot) (InMessage ev) = Some p /\
  run w p = ([], Failed (KeyError (py "user"))).
Proof.
  intros Hst Huser Htext Hping. apply contains_spec in Hping.
  assert (text <> []) as Hne by (intros ->; vm_compute in Hping; discriminate).
  eexists. split.
  - unfold setup_routes. rewrite dispatch_cons. cbn [listener_matches listener_run].
    rewrite Hst, Htext. cbn [py_get_default message_subtype_ok].
    rewrite (bool_decide_eq_true_2 (py "bot_message" ∈ _)) by (left; reflexivity).
    by rewrite Hping, bool_decide_eq_false_2.
  - unfold handle_ping. by rewrite Huser.
Qed.

Lemma dispatch_bot_message_ping_witness :
  let ev := {| ev_subtype := Some (py "bot_message"); ev_channel := py "C1";
               ev_user := None; ev_text := Some (py "ping from a bot") |} in
  exists p, dispatch (bot_app demo_bot) (setup_routes demo_bot) (InMessage ev) = Some p /\
  run (demo_world (UsersInfoOk None) (AgentState None)) p = ([], Failed (KeyError (py "user"))).
Proof.
  intros ev. apply (dispatch_bot_message_ping _ demo_bot ev (py "ping from a bot"));
    [reflexivity|reflexivity|reflexivity|].
  exists [], (py " from a bot"). reflexivity.
Defined.

(** Every handler a route runs keeps to [handler_ok]: at most one lookup,
    at most one agent call, posts only to [ai-powered-services], replies
    only through the [say] Bolt built for the event. *)
Lemma dispatch_handler_ok (w : world) (bot : slack_bot) (i : inbound) (p : prog unit) :
  dispatch (bot_app bot) (setup_routes bot) i = Some p ->
  handler_ok (handler_token (bot_handler bot)) (bolt_say (bot_app bot) i) (run w p).1.
Proof.
  unfold setup_routes. cbn [dispatch]. destruct i as [ev|body]; cbn [listener_matches listener_run].
  - destruct (_ && contains _ _); [intros [= <-]; apply (handle_ping_ok (H := bot_ops bot))|].
    destruct (_ && bool_decide _); [|done]. intros [= <-].
    unfold search_message_handler. destruct (ev_text ev) as [text|]; cbn;
      [|unfold handler_ok; cbn; split_and!; [lia|lia|constructor..]].
    destruct (match_search text); [apply (handle_search_ok (H := bot_ops bot))|].
    unfold handler_ok; cbn; split_and!; [lia|lia|constructor..].
  - destruct (bool_decide _); [intros [= <-]; apply (handle_deep_search_ok (H := bot_ops bot))|done].
Qed.

(** C12: replies go where the spec puts them (section 4.3): whatever
    Slack and the agent answer, every [say] of the handler a route runs
    goes into the conversation of its event (the channel of the message,
    or the channel the command was invoked in), and every
    [chat_postMessage] goes to [ai-powered-services]. *)
Theorem dispatch_replies_in_context (w : world) (bot : slack_bot) (i : inbound) (p : prog unit) :
  dispatch (bot_app bot) (setup_routes bot) i = Some p ->
  Forall (fun c => says_only_to (inbound_channel i) c = true /\
                   posts_only_to RESULT_CHANNEL c = true) (run w p).1.
Proof.
  intros Hd. destruct (dispatch_handler_ok w bot i p Hd) as (_ & _ & Hpost & _ & Hsay).
  apply Forall_and. split; [|done]. by apply (said_with_says_only_to (bolt_say (bot_app bot) i)).
Qed.

Lemma dispatch_replies_in_context_witness :
  let i := InCommand (demo_command (py "weather in Tokyo")) in
  let w := demo_world (UsersInfoOk (Some demo_user)) (AgentState (Some [demo_answer])) in
  dispatch (bot_app demo_bot) (setup_routes demo_bot) i =
    Some (handle_deep_search (H := bot_ops demo_bot) (demo_command (py "weather in Tokyo"))
            (bolt_say (bot_app demo_bot) i)) /\
  Forall (fun c => says_only_to (inbound_channel i) c = true /\
                   posts_only_to RESULT_CHANNEL c = true)
    (run w (handle_deep_search (H := bot_ops demo_bot) (demo_command (py "weather in Tokyo"))
              (bolt_say (bot_app demo_bot) i))).1.
Proof.
  intros i w. assert (Hd : dispatch (bot_app demo_bot) (setup_routes demo_bot) i =
    Some (handle_deep_search (H := bot_ops demo_bot) (demo_command (py "weather in Tokyo"))
            (bolt_say (bot_app demo_bot) i))) by reflexivity.
  split; [exact Hd|]. exact (dispatch_replies_in_context w demo_bot i _ Hd).
Defined.

(** C14: the constructor wires the tokens the way the Slack platform
    expects: for a bot built by [SlackBot(app_token, bot_token, channel)],
    every Web API call of [main] and of every handler a route runs is
    authenticated with [bot_token] (the client of [CommandHandler] is the
    [SlackClient] built from it), the socket-mode handler serves the
    [AsyncApp] built with [bot_token], and it connects with [app_token]. *)
Theorem new_slack_bot_authenticated (w : world) (a b c : pystr) (now : datetime) :
  let bot := new_slack_bot a b c in
  Forall (fun x => authenticated_by b x = true) (run w (main bot now)).1 /\
  (forall i p, dispatch (bot_app bot) (setup_routes bot) i = Some p ->
     Forall (fun x => authenticated_by b x = true) (run w p).1) /\
  (forall tok a', CallStartSocketMode tok a' ∈ (run w (main bot now)).1 -> a' = Some a).
Proof.
  intros bot. subst bot. split_and!.
  - unfold main, send_to_channel, start. cbn. run_simpl;
      repeat constructor; cbn; by apply bool_decide_eq_true_2.
  - intros i p Hd. destruct (dispatch_handler_ok w _ i p Hd) as (_ & _ & _ & H1 & H2).
    by apply (said_with_authenticated (bolt_say (bot_app (new_slack_bot a b c)) i)).
  - unfold main, send_to_channel, start. cbn. run_simpl; intros tok a' Hin;
      repeat (apply elem_of_cons in Hin as [Hin|Hin]; [by simplify_eq|]);
      by apply elem_of_nil in Hin.
Qed.

Lemma new_slack_bot_authenticated_witness :
  let bot := new_slack_bot (py "xapp") (py "xoxb") (py "general") in
  let now := {| dt_hour := 9; dt_minute := 5; dt_second := 30; dt_weekday := 4 |} in
  let w := demo_world (UsersInfoOk (Some demo_user)) (AgentState (Some [demo_answer])) in
  Forall (fun x => authenticated_by (py "xoxb") x = true) (run w (main bot now)).1 /\
  (forall i p, dispatch (bot_app bot) (setup_routes bot) i = Some p ->
     Forall (fun x => authenticated_by (py "xoxb") x = true) (run w p).1) /\
  (forall tok a', CallStartSocketMode tok a' ∈ (run w (main bot now)).1 -> a' = Some (py "xapp")).
Proof. intros bot now w. exact (new_slack_bot_authenticated w _ _ _ now). Defined.

(** ** End-to-end scenarios of the spec *)

(** C22: the scenario of the spec (section 8), for every bot built by
    the constructor and every conversation, user and world in which Slack
    accepts the replies: the message [search: weather in Tokyo], with an
    agent whose last message is [**Sunny**, 25°C], is routed to the search
    handler; the user is greeted with the query, told that research
    started and ended (in the message's conversation, with the bot token),
    the agent is called once, and [*Sunny*, 25°C] is posted to
    [ai-powered-services] (a failure of that post being logged). *)
Theorem scenario_weather (w : world) (a b c : pystr) (ev : message_event) (uid : pystr)
    (u : slack_user) (msgs : list pystr) :
  ev_subtype ev = None ->
  ev_user ev = Some uid ->
  ev_text ev = Some (py "search: weather in Tokyo") ->
  w_users_info w b uid = UsersInfoOk (Some u) ->
  (forall t, w_say w b (ev_channel ev) t = PostOk) ->
  w_agent w (agent_input_of (py "weather in Tokyo")) = AgentState (Some msgs) ->
  last msgs = Some (py "**Sunny**, 25" ++ [176%Z] ++ py "C") ->
  exists p, dispatch (bot_app (new_slack_bot a b c)) (setup_routes (new_slack_bot a b c))
              (InMessage ev) = Some p /\
  run w p =
  ([CallUsersInfo b uid;
    CallSay b (ev_channel ev) (submitted_text (user_real_name u) (py "weather in Tokyo"));
    CallSay b (ev_channel ev) STARTING_TEXT; CallGraphInvoke (agent_input_of (py "weather in Tokyo"));
    CallSay b (ev_channel ev) COMPLETED_TEXT;
    CallPostMessage b RESULT_CHANNEL (py "*Sunny*, 25" ++ [176%Z] ++ py "C")] ++
   match w_post_message w b RESULT_CHANNEL (py "*Sunny*, 25" ++ [176%Z] ++ py "C") with
   | PostOk => []
   | PostError err => [CallPrint (send_message_failed_line err)]
   end, Done tt).
Proof.
  intros Hst Hu Ht Hw Hs Ha Hl.
  assert (Hne : py "search: weather in Tokyo" <> []) by (vm_compute; discriminate).
  assert (Hp : contains (py "ping") (py "search: weather in Tokyo") = false) by (vm_compute; reflexivity).
  assert (Hm : match_search (py "search: weather in Tokyo") = Some (py "weather in Tokyo"))
    by (vm_compute; reflexivity).
  assert (Hn : normalize_markdown (py "**Sunny**, 25" ++ [176%Z] ++ py "C") =
               py "*Sunny*, 25" ++ [176%Z] ++ py "C") by (vm_compute; reflexivity).
  revert Hl Hn. generalize (py "**Sunny**, 25" ++ [176%Z] ++ py "C") as ans.
  generalize (py "*Sunny*, 25" ++ [176%Z] ++ py "C") as nans. intros nans ans Hl Hn.
  eexists. split.
  - unfold setup_routes. cbn [dispatch listener_matches]. rewrite Hst, Ht. cbn [py_get_default].
    rewrite Hp, (bool_decide_eq_false_2 _ Hne), Hm. reflexivity.
  - cbn [listener_run search_message_handler]. unfold search_message_handler, handle_search.
    rewrite Ht. cbn. rewrite Hm. rewrite Hu. run_simpl.
    all: simplify_eq; rewrite ?Hn in *; cbn [app] in *; try congruence; reflexivity.
Qed.

Lemma scenario_weather_witness :
  let w := demo_world (UsersInfoOk (Some demo_user)) (AgentState (Some [demo_answer])) in
  exists p, dispatch (bot_app (new_slack_bot (py "xapp") (py "xoxb") (py "general")))
              (setup_routes (new_slack_bot (py "xapp") (py "xoxb") (py "general")))
              (InMessage (demo_event (py "search: weather in Tokyo"))) = Some p /\
  run w p =
  ([CallUsersInfo (py "xoxb") (py "U1");
    CallSay (py "xoxb") (py "C1") (submitted_text (user_real_name demo_user) (py "weather in Tokyo"));
    CallSay (py "xoxb") (py "C1") STARTING_TEXT;
    CallGraphInvoke (agent_input_of (py "weather in Tokyo"));
    CallSay (py "xoxb") (py "C1") COMPLETED_TEXT;
    CallPostMessage (py "xoxb") RESULT_CHANNEL (py "*Sunny*, 25" ++ [176%Z] ++ py "C")] ++
   match w_post_message w (py "xoxb") RESULT_CHANNEL (py "*Sunny*, 25" ++ [176%Z] ++ py "C") with
   | PostOk => []
   | PostError err => [CallPrint (send_message_failed_line err)]
   end, Done tt).
Proof.
  intros w. apply (scenario_weather w (py "xapp") (py "xoxb") (py "general")
    (demo_event (py "search: weather in Tokyo")) (py "U1") demo_user [demo_answer]); reflexivity.
Defined.

(** The message [search:] gives the empty query; the greeting quotes
    it as [Query: ""] and the flow goes on unchanged. *)
Example scenario_empty_query :
  match dispatch (bot_app demo_bot) (setup_routes demo_bot) (InMessage (demo_event (py "search:"))) with
  | Some p => (run (demo_world (UsersInfoOk (Some demo_user)) (AgentState (Some [py "ok"]))) p).1
  | None => []
  end =
  [CallUsersInfo (py "xoxb") (py "U1");
   CallSay (py "xoxb") (py "C1") (py "Ada Lovelace just submitted a new Query:" ++ [CH_NEWLINE] ++
            py "Query: " ++ [CH_QUOTE; CH_QUOTE] ++ [CH_NEWLINE] ++
            py "Thanks for reaching out! We'll get back to you soon.");
   CallSay (py "xoxb") (py "C1") STARTING_TEXT; CallGraphInvoke (agent_input_of []);
   CallSay (py "xoxb") (py "C1") COMPLETED_TEXT; CallPostMessage (py "xoxb") RESULT_CHANNEL (py "ok")].
Proof. vm_compute. reflexivity. Qed.

(** ** The process *)

(** C29: [main] announces the bot in its channel, logs the start and then
    blocks in the socket-mode loop, whatever Slack answers: a failed
    announcement is only logged and never stops the start. *)
Theorem main_run (w : world) (bot : slack_bot) (now : datetime) :
  run w (main bot now) =
  let tok := sc_web_client_token (bot_client bot) in
  ([CallPostMessage tok (bot_channel bot) (online_text now)] ++
   match w_post_message w tok (bot_channel bot) (online_text now) with
   | PostOk => []
   | PostError err => [CallPrint (send_message_failed_line err)]
   end ++
   [CallPrint (starting_line (bot_channel bot));
    CallStartSocketMode (app_bot_token (bot_app bot)) (Some (bot_app_token bot))],
   Listening).
Proof. unfold main, send_to_channel, start. cbn zeta. run_simpl; reflexivity. Qed.

(** ** Reading the time stamp back *)

Definition undigit (c : pychar) : option Z :=
  if bool_decide (48 <= c <= 57)%Z then Some (c - 48)%Z else None.

(** Two decimal digits. *)
Definition read2 (s : pystr) : option (Z * pystr) :=
  match s with
  | a :: b :: r =>
      match undigit a, undigit b with
      | Some x, Some y => Some (10 * x + y, r)%Z
      | _, _ => None
      end
  | _ => None
  end.

Definition weekday_of (s : pystr) : option nat :=
  head (filter (fun d => bool_decide (weekday_name d = s)) (seq 0 7)).

(** A reader of ["%H:%M:%S on %A"]. *)
Definition parse_time (s : pystr) : option datetime :=
  read2 s ≫= fun '(h, r) => strip_prefix (py ":") r ≫= fun r =>
  read2 r ≫= fun '(m, r) => strip_prefix (py ":") r ≫= fun r =>
  read2 r ≫= fun '(sec, r) => strip_prefix (py " on ") r ≫= fun r =>
  weekday_of r ≫= fun d =>
  Some {| dt_hour := h; dt_minute := m; dt_second := sec; dt_weekday := d |}.

(** The values a [datetime] holds. *)
Definition datetime_ok (now : datetime) : Prop :=
  (0 <= dt_hour now < 24)%Z /\ (0 <= dt_minute now < 60)%Z /\
  (0 <= dt_second now < 60)%Z /\ dt_weekday now < 7.

Lemma read2_pad2 (n : Z) (r : pystr) :
  (0 <= n < 100)%Z -> read2 (pad2 n ++ r) = Some (n, r).
Proof.
  intros Hn. unfold pad2, read2, undigit, digit. cbn [app].
  rewrite !bool_decide_eq_true_2 by (Z.to_euclidean_division_equations; lia).
  do 2 f_equal. Z.to_euclidean_division_equations. lia.
Qed.

Lemma weekday_of_name (d : nat) : d < 7 -> weekday_of (weekday_name d) = Some d.
Proof. intros Hd. do 7 (destruct d as [|d]; [vm_compute; reflexivity|]). lia. Qed.

Lemma strip_prefix_app (p r : pystr) : strip_prefix p (p ++ r) = Some r.
Proof. by apply strip_prefix_Some. Qed.

(** C35: the time stamp of the announcement ([strftime("%H:%M:%S on %A")])
    reads back as the time it was made from, for every value a
    [datetime] holds: the format loses nothing. *)
Theorem format_time_roundtrip (now : datetime) :
  datetime_ok now -> parse_time (format_time now) = Some now.
Proof.
  destruct now as [h m sec d]. unfold datetime_ok, format_time, parse_time.
  cbn [dt_hour dt_minute dt_second dt_weekday]. intros (Hh & Hm & Hs & Hd).
  repeat (first [rewrite read2_pad2 by lia | rewrite strip_prefix_app];
          cbn [mbind option_bind]).
  by rewrite weekday_of_name.
Qed.

Lemma format_time_roundtrip_witness :
  let now := {| dt_hour := 9; dt_minute := 5; dt_second := 30; dt_weekday := 4 |} in
  datetime_ok now /\ parse_time (format_time now) = Some now.
Proof.
  cbn. assert (H : datetime_ok {| dt_hour := 9; dt_minute := 5; dt_second := 30; dt_weekday := 4 |})
    by (unfold datetime_ok; cbn; lia).
  split; [exact H|]. exact (format_time_roundtrip _ H).
Defined.
