(* ===== verification/Settings.v ===== *)
(** * Configuration ([settings.py])

    [load_dotenv()] adds the variables of the [.env] file to the process
    environment without overriding the variables already set (the default
    [override=False] of python-dotenv); the dataclass [SlackSettings] then
    reads three variables with [os.getenv], which gives [None] for a
    missing one, and fixes [mode] to [Socket]. *)

From stdpp Require Import gmap strings.
From S2P Require Import Prelude.

(** [os.environ]: variable names to values. *)
Abbreviation environ := (gmap string pystr).

(** [load_dotenv()]: the union keeps the value of the process environment
    when both define a variable. *)
Definition load_dotenv (dotenv : environ) (env : environ) : environ := env ∪ dotenv.

(** [os.getenv(key)]. *)
Definition getenv (env : environ) (key : string) : option pystr := env !! key.

Record SlackSettings := {
  app_token : option pystr;
  bot_token : option pystr;
  channel : option pystr;
  mode : pystr;
}.

(** The class attributes, evaluated when [settings.py] is imported. *)
Definition slack_settings (env : environ) : SlackSettings := {|
  app_token := getenv env "SLACK_APP_TOKEN";
  bot_token := getenv env "SLACK_BOT_TOKEN";
  channel := getenv env "SLACK_CHANNEL";
  mode := py "Socket";
|}.

(** Importing [settings.py]: [load_dotenv()] runs first. *)
Definition settings_at_import (dotenv env : environ) : SlackSettings :=
  slack_settings (load_dotenv dotenv env).

(** A variable set in the process environment wins over the [.env] file;
    the file only fills in variables that are not set. *)
Lemma getenv_load_dotenv (dotenv env : environ) (key : string) :
  getenv (load_dotenv dotenv env) key =
  match getenv env key with
  | Some v => Some v
  | None => getenv dotenv key
  end.
Proof.
  unfold getenv, load_dotenv. rewrite lookup_union.
  by destruct (env !! key), (dotenv !! key).
Qed.

(** The value a variable has after [load_dotenv()]. *)
Definition env_or_file (dotenv env : environ) (key : string) : option pystr :=
  match env !! key with
  | Some v => Some v
  | None => dotenv !! key
  end.

(** C34: the settings the bot starts with: each of [SLACK_APP_TOKEN],
    [SLACK_BOT_TOKEN] and [SLACK_CHANNEL] is taken from the process
    environment when it is set there, from the [.env] file otherwise, and
    is [None] when neither sets it; [mode] is always [Socket]. *)
Theorem settings_at_import_fields (dotenv env : environ) :
  settings_at_import dotenv env = {|
    app_token := env_or_file dotenv env "SLACK_APP_TOKEN";
    bot_token := env_or_file dotenv env "SLACK_BOT_TOKEN";
    channel := env_or_file dotenv env "SLACK_CHANNEL";
    mode := py "Socket";
  |}.
Proof.
  unfold settings_at_import, slack_settings, env_or_file.
  by rewrite !getenv_load_dotenv.
Qed.

Example settings_env_wins :
  channel (settings_at_import {[ "SLACK_CHANNEL" := py "from-file" ]}
                              {[ "SLACK_CHANNEL" := py "general" ]}) = Some (py "general").
Proof. reflexivity. Qed.
