(* ===== verification/EventLoop.v ===== *)
(** * Concurrent handling of events ([asyncio] and Bolt's dispatch)

    [main] runs under [asyncio.run]; Bolt delivers each event by creating
    a task that runs the handler [dispatch] chose.  A task runs until it
    [await]s a call that goes to the network ([users_info],
    [chat_postMessage], [say]): the request is sent and the task is
    suspended until its answer comes back, while the loop runs other
    tasks.  [await ack()] completes without yielding (Bolt's [AsyncAck]
    only records the response).  [print] and [graph.invoke] are plain
    calls, not awaited: the agent call blocks the whole loop, and no other
    task runs until the handler reaches its next [await].

    [slice] is what a task does from one resumption to its next
    suspension; [step] is the loop of a bot: deliver the next event
    (start a task running the handler the bot's routes choose), or resume
    one task for one slice.  The trace records each slice: the
    task that ran, the calls it made, and whether the task is suspended
    or has ended.  [ls_spawned] records the program each task started
    with.  [exec_choice] is the same loop as a function of an explicit
    scheduling choice.

    The invariant [loop_inv] relates the trace to the sequential
    semantics [run] of [Effects.v]: the calls of each task, gathered from
    its interleaved slices, are a prefix of the run of its handler.  From
    it the handlers' guarantees (posts to [ai-powered-services] only, one
    lookup and one agent call per event, Web API calls with the bot
    token) carry over to the whole concurrent system. *)

From S2P Require Import Prelude Effects SlackClient CommandHandler SlackBot.
From stdpp Require Import sets relations.

Import SlackClient.

(** ** Suspension points *)

(** The calls at which a task gives control back to the loop: the Web
    API requests the code [await]s ([users_info], [chat_postMessage],
    [say]).  [await ack()] does not: Bolt's [AsyncAck.__call__] only
    records the response and returns without awaiting anything, so the
    task goes on at once.  [graph.invoke] and [print] are not awaited. *)
Definition is_await (c : call) : bool :=
  match c with
  | CallUsersInfo _ _ | CallPostMessage _ _ _ | CallSay _ _ _ => true
  | CallAck | CallGraphInvoke _ | CallPrint _ | CallStartSocketMode _ _ => false
  end.

(** Run a task up to and including its next awaited call: the calls made,
    and either the rest of the task (resumed with the answer of the
    awaited call) or how it ended. *)
Fixpoint slice {A} (w : world) (p : prog A) : list call * (prog A + outcome A) :=
  match p with
  | Ret a => ([], inr (Done a))
  | Raise e => ([], inr (Failed e))
  | Vis c k =>
      match world_answer w c with
      | None => ([c], inr Listening)
      | Some x =>
          if is_await c then ([c], inl (k x))
          else let '(t, r) := slice w (k x) in (c :: t, r)
      end
  end.

(** ** The loop *)

(** One slice of the schedule: the task that ran, the calls it made, and
    whether it is suspended at an awaited call (or has ended). *)
Record slice_rec := {
  sl_task : nat;
  sl_calls : list call;
  sl_suspended : bool;
}.

Record loop_state := {
  ls_inbox : list inbound;             (** events not delivered yet *)
  ls_tasks : list (nat * prog unit);   (** suspended tasks, by id *)
  ls_next : nat;                       (** id of the next task *)
  ls_spawned : list (nat * prog unit); (** every task started, with its handler *)
  ls_trace : list slice_rec;           (** the slices run so far, in order *)
}.

Definition init_state (inbox : list inbound) : loop_state := {|
  ls_inbox := inbox; ls_tasks := []; ls_next := 0; ls_spawned := []; ls_trace := [];
|}.

(** The task that continues after a slice, if any. *)
Definition resumed (j : nat) (r : prog unit + outcome unit) : list (nat * prog unit) :=
  match r with
  | inl p' => [(j, p')]
  | inr _ => []
  end.

Definition goes_on {A B} (r : A + B) : bool :=
  match r with inl _ => true | inr _ => false end.

Inductive step (w : world) (bot : slack_bot) : loop_state -> loop_state -> Prop :=
| step_deliver ev inbox tasks n sp tr p :
    dispatch (bot_app bot) (setup_routes bot) ev = Some p ->
    step w bot {| ls_inbox := ev :: inbox; ls_tasks := tasks; ls_next := n;
              ls_spawned := sp; ls_trace := tr |}
           {| ls_inbox := inbox; ls_tasks := tasks ++ [(n, p)]; ls_next := S n;
              ls_spawned := sp ++ [(n, p)]; ls_trace := tr |}
| step_ignore ev inbox tasks n sp tr :
    dispatch (bot_app bot) (setup_routes bot) ev = None ->
    step w bot {| ls_inbox := ev :: inbox; ls_tasks := tasks; ls_next := n;
              ls_spawned := sp; ls_trace := tr |}
           {| ls_inbox := inbox; ls_tasks := tasks; ls_next := n;
              ls_spawned := sp; ls_trace := tr |}
| step_resume inbox pre post j p n sp tr t r :
    slice w p = (t, r) ->
    step w bot {| ls_inbox := inbox; ls_tasks := pre ++ (j, p) :: post; ls_next := n;
              ls_spawned := sp; ls_trace := tr |}
           {| ls_inbox := inbox; ls_tasks := pre ++ resumed j r ++ post; ls_next := n;
              ls_spawned := sp;
              ls_trace := tr ++ [{| sl_task := j; sl_calls := t; sl_suspended := goes_on r |}] |}.

(** The calls of task [j], in the order it made them. *)
Definition proj (j : nat) (tr : list slice_rec) : list call :=
  concat (map sl_calls (filter (fun e => sl_task e = j) tr)).

(** ** An executable loop *)

(** What the loop does next: deliver the next event, or resume the task at
    position [i] of the task list. *)
Inductive choice := Deliver | Resume (i : nat).

Definition exec_choice (w : world) (bot : slack_bot) (ch : choice) (s : loop_state) : option loop_state :=
  match ch with
  | Deliver =>
      match ls_inbox s with
      | [] => None
      | ev :: inbox =>
          match dispatch (bot_app bot) (setup_routes bot) ev with
          | Some p =>
              Some {| ls_inbox := inbox; ls_tasks := ls_tasks s ++ [(ls_next s, p)];
                      ls_next := S (ls_next s);
                      ls_spawned := ls_spawned s ++ [(ls_next s, p)];
                      ls_trace := ls_trace s |}
          | None =>
              Some {| ls_inbox := inbox; ls_tasks := ls_tasks s; ls_next := ls_next s;
                      ls_spawned := ls_spawned s; ls_trace := ls_trace s |}
          end
      end
  | Resume i =>
      match ls_tasks s !! i with
      | None => None
      | Some (j, p) =>
          let '(t, r) := slice w p in
          Some {| ls_inbox := ls_inbox s;
                  ls_tasks := take i (ls_tasks s) ++ resumed j r ++ drop (S i) (ls_tasks s);
                  ls_next := ls_next s; ls_spawned := ls_spawned s;
                  ls_trace := ls_trace s ++
                    [{| sl_task := j; sl_calls := t; sl_suspended := goes_on r |}] |}
      end
  end.

(** Run a schedule: a list of choices. *)
Fixpoint exec (w : world) (bot : slack_bot) (chs : list choice) (s : loop_state) : option loop_state :=
  match chs with
  | [] => Some s
  | ch :: chs =>
      match exec_choice w bot ch s with
      | Some s' => exec w bot chs s'
      | None => None
      end
  end.

(** ** A concrete run: a search and a ping delivered together *)

Definition demo_loop_world : world :=
  demo_world (UsersInfoOk (Some demo_user)) (AgentState (Some [demo_answer])).

Definition demo_inbox : list inbound :=
  [InMessage (demo_event (py "search: weather in Tokyo")); InMessage (demo_event (py "ping"))].

(** The two tasks alternate at each awaited call. *)
Definition demo_schedule : list choice :=
  [Deliver; Deliver; Resume 0; Resume 1; Resume 0; Resume 0; Resume 1; Resume 0;
   Resume 0; Resume 1; Resume 0].

Definition exec_from (chs : list choice) (inbox : list inbound) : loop_state :=
  match exec demo_loop_world demo_bot chs (init_state inbox) with
  | Some s => s
  | None => init_state []
  end.

Definition demo_final : loop_state := exec_from demo_schedule demo_inbox.

(** ** Slices and sequential runs *)

Section Slices.
Variable w : world.

(** A slice followed by the run of the rest of the task is the run of the
    whole task. *)
Lemma slice_run {A} (p : prog A) :
  run w p =
  match slice w p with
  | (t, inl p') => (t ++ (run w p').1, (run w p').2)
  | (t, inr o) => (t, o)
  end.
Proof.
  induction p as [a|e|c k IH]; [done|done|]. cbn.
  destruct (world_answer w c) as [x|]; [|done].
  destruct (is_await c).
  - by destruct (run w (k x)).
  - rewrite (IH x). by destruct (slice w (k x)) as [t [p'|o]].
Qed.

(** A slice after which the task goes on ends with an awaited call. *)
Lemma slice_last {A} (p : prog A) (t : list call) (p' : prog A) :
  slice w p = (t, inl p') -> exists c, last t = Some c /\ is_await c = true.
Proof.
  revert t p'. induction p as [a|e|c k IH]; intros t p'; cbn; [congruence|congruence|].
  destruct (world_answer w c) as [x|]; [|congruence].
  destruct (is_await c) eqn:Ha.
  - intros [= <- _]. by exists c.
  - destruct (slice w (k x)) as [t' r] eqn:E. intros [= <- ->].
    destruct (IH x t' p' E) as (c' & Hl & Hc').
    exists c'. split; [|done]. destruct t'; [done|]. by rewrite last_cons, Hl.
Qed.

Lemma singleton_split {A} (x c : A) (t1 t2 : list A) :
  [x] = t1 ++ c :: t2 -> t2 = [].
Proof. destruct t1 as [|? [|]]; cbn; congruence. Qed.

(** Only the last call of a slice can be an awaited one. *)
Lemma slice_no_inner_await {A} (p : prog A) (t t1 t2 : list call) c r :
  slice w p = (t, r) -> t = t1 ++ c :: t2 -> t2 <> [] -> is_await c = false.
Proof.
  revert t t1 r. induction p as [a|e|c0 k IH]; intros t t1 r; cbn;
    [intros [= <- _]; by destruct t1|intros [= <- _]; by destruct t1|].
  destruct (world_answer w c0) as [x|];
    [|intros [= <- _] Ht; by rewrite (singleton_split _ _ _ _ Ht)].
  destruct (is_await c0) eqn:Ha.
  - intros [= <- _] Ht. by rewrite (singleton_split _ _ _ _ Ht).
  - destruct (slice w (k x)) as [t' r'] eqn:E. intros [= <- _] Ht.
    destruct t1 as [|c1 t1]; simplify_eq/=; first [done | by eapply IH].
Qed.
End Slices.

(** ** Projections of the trace on one task *)

Lemma proj_app (j : nat) (tr1 tr2 : list slice_rec) :
  proj j (tr1 ++ tr2) = proj j tr1 ++ proj j tr2.
Proof. unfold proj. by rewrite filter_app, map_app, concat_app. Qed.

Lemma proj_one (j : nat) (e : slice_rec) :
  proj j [e] = if decide (sl_task e = j) then sl_calls e else [].
Proof. unfold proj. rewrite filter_cons. case_decide; cbn; by rewrite ?app_nil_r. Qed.

#[export] Hint Rewrite proj_app proj_one : pybot_rw.

(** The unique handler of a task. *)
Lemma NoDup_fst_inj {A B} (l : list (A * B)) (a : A) (b1 b2 : B) :
  NoDup l.*1 -> (a, b1) ∈ l -> (a, b2) ∈ l -> b1 = b2.
Proof.
  induction l as [|[a' b'] l IH]; [set_solver|]. cbn. rewrite NoDup_cons.
  intros [Hn Hd]. rewrite !elem_of_cons.
  intros [[= -> ->]|H1] [[= ->]|H2]; try done; last by apply IH.
  - destruct Hn. apply (list_elem_of_fmap_2 fst _ (_, _) H2).
  - destruct Hn. apply (list_elem_of_fmap_2 fst _ (_, _) H1).
Qed.

Lemma proj_absent (j : nat) (tr : list slice_rec) :
  (forall e, e ∈ tr -> sl_task e <> j) -> proj j tr = [].
Proof.
  induction tr as [|e tr IH]; intros H; [done|].
  change (e :: tr) with ([e] ++ tr). rewrite proj_app, proj_one, IH by set_solver.
  rewrite decide_False; [done|]. apply H. set_solver.
Qed.

(** ** Resuming one task of the task list *)

Ltac fst_simpl := rewrite ?fmap_app in *; cbn [resumed fmap list_fmap fst app] in *.

Section Resume.
Context (pre post : list (nat * prog unit)) (j : nat) (p : prog unit).
Context (r : prog unit + outcome unit).
Hypothesis Hnd : NoDup (pre ++ (j, p) :: post).*1.

Lemma resume_not_around : j ∉ (pre ++ post).*1.
Proof.
  revert Hnd. rewrite !fmap_app. cbn [fmap list_fmap fst].
  rewrite NoDup_app, NoDup_cons. set_solver.
Qed.

Lemma resume_tasks_sub (k : nat) :
  k ∈ (pre ++ resumed j r ++ post).*1 -> k ∈ (pre ++ (j, p) :: post).*1.
Proof. destruct r; fst_simpl; set_solver. Qed.

Lemma resume_nodup : NoDup (pre ++ resumed j r ++ post).*1.
Proof.
  revert Hnd. rewrite !fmap_app. destruct r; cbn [resumed fmap list_fmap fst app]; [done|].
  rewrite !NoDup_app, NoDup_cons. set_solver.
Qed.

Lemma resume_other (k : nat) (q : prog unit) : k <> j ->
  (k, q) ∈ pre ++ resumed j r ++ post <-> (k, q) ∈ pre ++ (j, p) :: post.
Proof.
  intros Hk. destruct r; fst_simpl;
    rewrite !elem_of_app, ?elem_of_cons, ?elem_of_nil; naive_solver.
Qed.

Lemma resume_other_fst (k : nat) : k <> j ->
  k ∈ (pre ++ resumed j r ++ post).*1 <-> k ∈ (pre ++ (j, p) :: post).*1.
Proof. destruct r; fst_simpl; set_solver. Qed.

Lemma resume_self (q : prog unit) : (j, q) ∈ pre ++ resumed j r ++ post -> r = inl q.
Proof.
  pose proof resume_not_around as Hj. intros H.
  destruct r as [p'|o]; fst_simpl; rewrite !elem_of_app, ?elem_of_cons, ?elem_of_nil in H.
  - destruct H as [H|[Hq|H]]; [| by simplify_eq |];
      apply (list_elem_of_fmap_2 fst) in H; cbn in H; set_solver.
  - destruct H as [H|H]; apply (list_elem_of_fmap_2 fst) in H; cbn in H; set_solver.
Qed.

Lemma resume_gone : goes_on r = false -> j ∉ (pre ++ resumed j r ++ post).*1.
Proof. pose proof resume_not_around. destruct r; fst_simpl; [done|]. set_solver. Qed.
End Resume.

Ltac ls_simpl := cbn [ls_inbox ls_tasks ls_next ls_spawned ls_trace] in *.

(** ** The loop invariant *)

(** What the trace says of one slice: only its last call can be awaited,
    and a suspended task stopped at an awaited call. *)
Definition slice_ok (e : slice_rec) : Prop :=
  (forall t1 c t2, sl_calls e = t1 ++ c :: t2 -> t2 <> [] -> is_await c = false) /\
  (sl_suspended e = true -> exists c, last (sl_calls e) = Some c /\ is_await c = true).

Section Loop.
Variable w : world.
Variable bot : slack_bot.

Record loop_inv (s : loop_state) : Prop := {
  inv_tasks_nodup : NoDup (ls_tasks s).*1;
  inv_spawned_nodup : NoDup (ls_spawned s).*1;
  inv_spawned_lt : forall j, j ∈ (ls_spawned s).*1 -> j < ls_next s;
  inv_tasks_spawned : forall j, j ∈ (ls_tasks s).*1 -> j ∈ (ls_spawned s).*1;
  inv_trace_spawned : forall e, e ∈ ls_trace s -> sl_task e ∈ (ls_spawned s).*1;
  inv_handler : forall j p0, (j, p0) ∈ ls_spawned s ->
    exists ev, dispatch (bot_app bot) (setup_routes bot) ev = Some p0;
  inv_running : forall j p0 p, (j, p0) ∈ ls_spawned s -> (j, p) ∈ ls_tasks s ->
    proj j (ls_trace s) ++ (run w p).1 = (run w p0).1;
  inv_finished : forall j p0, (j, p0) ∈ ls_spawned s -> j ∉ (ls_tasks s).*1 ->
    proj j (ls_trace s) = (run w p0).1;
  inv_slices : forall e, e ∈ ls_trace s -> slice_ok e;
  inv_ended : forall i e, ls_trace s !! i = Some e -> sl_suspended e = false ->
    (sl_task e ∉ (ls_tasks s).*1) /\
    forall i' e', i < i' -> ls_trace s !! i' = Some e' -> sl_task e' <> sl_task e;
}.

Lemma loop_inv_init (inbox : list inbound) : loop_inv (init_state inbox).
Proof. split; cbn; intros *; rewrite ?lookup_nil in *; try set_solver; constructor. Qed.

Lemma loop_inv_ignore ev inbox tasks n sp tr :
  loop_inv {| ls_inbox := ev :: inbox; ls_tasks := tasks; ls_next := n;
              ls_spawned := sp; ls_trace := tr |} ->
  loop_inv {| ls_inbox := inbox; ls_tasks := tasks; ls_next := n;
              ls_spawned := sp; ls_trace := tr |}.
Proof. intros []; by split. Qed.

Lemma loop_inv_deliver ev inbox tasks n sp tr p :
  dispatch (bot_app bot) (setup_routes bot) ev = Some p ->
  loop_inv {| ls_inbox := ev :: inbox; ls_tasks := tasks; ls_next := n;
              ls_spawned := sp; ls_trace := tr |} ->
  loop_inv {| ls_inbox := inbox; ls_tasks := tasks ++ [(n, p)]; ls_next := S n;
              ls_spawned := sp ++ [(n, p)]; ls_trace := tr |}.
Proof.
  intros Hd []; ls_simpl.
  assert (Hsp : n ∉ sp.*1) by (intros Hn; specialize (inv_spawned_lt0 n Hn); lia).
  assert (Htk : n ∉ tasks.*1) by naive_solver.
  assert (Htr : forall e, e ∈ tr -> sl_task e <> n) by (intros e He Heq; apply Hsp; rewrite <- Heq; auto).
  assert (Hin : forall j q, (j, q) ∈ sp ++ [(n, p)] -> j <> n -> (j, q) ∈ sp)
    by (intros j q; rewrite elem_of_app, list_elem_of_singleton; naive_solver).
  assert (Hnew : forall q, (n, q) ∈ sp ++ [(n, p)] -> q = p).
  { intros q. rewrite elem_of_app, list_elem_of_singleton.
    intros [H|H]; [|congruence]. destruct Hsp. apply (list_elem_of_fmap_2 fst _ _ H). }
  split; ls_simpl; rewrite ?fmap_app; cbn [fmap list_fmap fst].
  - apply NoDup_app. split_and!; [done| |by apply NoDup_singleton]. set_solver.
  - apply NoDup_app. split_and!; [done| |by apply NoDup_singleton]. set_solver.
  - intros j. rewrite elem_of_app, list_elem_of_singleton.
    intros [H| ->]; [specialize (inv_spawned_lt0 j H)|]; lia.
  - set_solver.
  - set_solver.
  - intros j p0. rewrite elem_of_app, list_elem_of_singleton.
    intros [H|[= -> ->]]; [by eapply inv_handler0|by exists ev].
  - intros j p0 q Hs Ht. destruct (decide (j = n)) as [->|Hj].
    + rewrite (Hnew _ Hs), proj_absent by done.
      rewrite elem_of_app, list_elem_of_singleton in Ht.
      destruct Ht as [Ht|[= ->]]; [|done].
      destruct Htk. apply (list_elem_of_fmap_2 fst _ _ Ht).
    + apply inv_running0; [by apply Hin|].
      rewrite elem_of_app, list_elem_of_singleton in Ht. naive_solver.
  - intros j p0 Hs Ht. apply inv_finished0; [apply Hin; set_solver|set_solver].
  - done.
  - intros i e Hi Hs. destruct (inv_ended0 i e Hi Hs) as [H1 H2]. split; [|done].
    apply list_elem_of_lookup_2 in Hi. specialize (Htr e Hi). set_solver.
Qed.

(** The slice a task runs satisfies [slice_ok]. *)
Lemma slice_rec_ok (j : nat) (p : prog unit) t r :
  slice w p = (t, r) ->
  slice_ok {| sl_task := j; sl_calls := t; sl_suspended := goes_on r |}.
Proof.
  intros Hs. split; cbn.
  - intros t1 c t2 Ht Hne. by eapply slice_no_inner_await.
  - destruct r; cbn; [|done]. intros _. by eapply slice_last.
Qed.

Lemma loop_inv_resume inbox pre post j p n sp tr t r :
  slice w p = (t, r) ->
  loop_inv {| ls_inbox := inbox; ls_tasks := pre ++ (j, p) :: post; ls_next := n;
              ls_spawned := sp; ls_trace := tr |} ->
  loop_inv {| ls_inbox := inbox; ls_tasks := pre ++ resumed j r ++ post; ls_next := n;
              ls_spawned := sp;
              ls_trace := tr ++ [{| sl_task := j; sl_calls := t; sl_suspended := goes_on r |}] |}.
Proof.
  intros Hs []; ls_simpl.
  assert (Hp : (j, p) ∈ pre ++ (j, p) :: post) by set_solver.
  assert (Hj : j ∈ (pre ++ (j, p) :: post).*1) by apply (list_elem_of_fmap_2 fst _ _ Hp).
  pose proof (slice_run w p) as Hrun. rewrite Hs in Hrun.
  split; ls_simpl.
  - by apply (resume_nodup pre post j p r).
  - done.
  - done.
  - intros k Hk. apply inv_tasks_spawned0. by eapply resume_tasks_sub.
  - intros e. rewrite elem_of_app, list_elem_of_singleton. intros [He| ->]; auto.
  - done.
  - intros k p0 q Hsp Hq. rewrite proj_app, proj_one. cbn [sl_task sl_calls].
    destruct (decide (j = k)) as [<-|Hk].
    + rewrite (resume_self _ _ _ _ _ inv_tasks_nodup0 _ Hq) in Hrun.
      rewrite <- app_assoc, <- (inv_running0 j p0 p Hsp Hp), Hrun. done.
    + rewrite app_nil_r. apply inv_running0; [done|].
      by apply (resume_other pre post j p r).
  - intros k p0 Hsp Hk. rewrite proj_app, proj_one. cbn [sl_task sl_calls].
    destruct (decide (j = k)) as [<-|Hjk].
    + destruct r as [q|o]; [destruct Hk; fst_simpl; set_solver|].
      by rewrite <- (inv_running0 j p0 p Hsp Hp), Hrun.
    + rewrite app_nil_r. apply inv_finished0; [done|].
      intros H. apply Hk. by apply (resume_other_fst pre post j p r).
  - intros e. rewrite elem_of_app, list_elem_of_singleton.
    intros [He| ->]; [auto|]. by apply (slice_rec_ok j p).
  - intros i e. rewrite lookup_snoc_Some. intros [[Hi He]|[-> <-]] Hsus.
    + destruct (inv_ended0 i e He Hsus) as [Hg Hl]. split.
      * intros Hin. apply Hg. by eapply resume_tasks_sub.
      * intros i' e'' Hii'. rewrite lookup_snoc_Some.
        intros [[_ He']|[_ <-]]; [by eapply Hl|]. cbn. congruence.
    + cbn in Hsus |- *. split; [by apply (resume_gone pre post j p r)|].
      intros i' e' Hlt He'. apply lookup_lt_Some in He'.
      rewrite length_app in He'. cbn in He'. lia.
Qed.

(** Every reachable state satisfies the invariant. *)
Lemma loop_inv_step (s s' : loop_state) : step w bot s s' -> loop_inv s -> loop_inv s'.
Proof.
  destruct 1; eauto using loop_inv_deliver, loop_inv_ignore, loop_inv_resume.
Qed.

Lemma loop_inv_reachable (inbox : list inbound) (s : loop_state) :
  rtc (step w bot) (init_state inbox) s -> loop_inv s.
Proof.
  intros Hr. generalize (loop_inv_init inbox). induction Hr; eauto using loop_inv_step.
Qed.

End Loop.

(** ** The executable loop and the step relation *)

Lemma exec_choice_sound (w : world) (bot : slack_bot) (ch : choice) (s s' : loop_state) :
  exec_choice w bot ch s = Some s' -> step w bot s s'.
Proof.
  destruct s as [inbox tasks n sp tr], ch as [|i]; cbn [exec_choice ls_inbox ls_tasks ls_next ls_spawned ls_trace].
  - destruct inbox as [|ev inbox]; [done|].
    destruct (dispatch (bot_app bot) (setup_routes bot) ev) eqn:Hd; intros H; simplify_eq; by constructor.
  - destruct (tasks !! i) as [[j p]|] eqn:Hi; [|done].
    destruct (slice w p) as [t r] eqn:Hs. intros H; simplify_eq.
    rewrite <- (take_drop_middle tasks i (j, p)) at 1 by done. by constructor.
Qed.

Lemma exec_sound (w : world) (bot : slack_bot) (chs : list choice) (s s' : loop_state) :
  exec w bot chs s = Some s' -> rtc (step w bot) s s'.
Proof.
  revert s. induction chs as [|ch chs IH]; intros s; cbn; [intros [= <-]; done|].
  destruct (exec_choice w bot ch s) as [s1|] eqn:E; [|done].
  intros H. eapply rtc_l; [by apply (exec_choice_sound w bot ch)|by apply IH].
Qed.

(** A task's calls so far are a prefix of its handler's run. *)
Lemma loop_inv_prefix (w : world) (bot : slack_bot) (s : loop_state) (j : nat) (p0 : prog unit) :
  loop_inv w bot s -> (j, p0) ∈ ls_spawned s -> proj j (ls_trace s) `prefix_of` (run w p0).1.
Proof.
  intros [????? _ Hrun Hfin ??] Hsp.
  destruct (decide (j ∈ (ls_tasks s).*1)) as [Hj|Hj]; [|by rewrite (Hfin j p0)].
  apply list_elem_of_fmap_1 in Hj as [[j' p] [-> Hp]]. cbn.
  rewrite <- (Hrun j' p0 p Hsp Hp). by apply prefix_app_r.
Qed.

(** The calls of a slice are among the calls of its task. *)
Lemma Forall_proj (P : call -> Prop) (tr : list slice_rec) (e : slice_rec) :
  Forall P (proj (sl_task e) tr) -> e ∈ tr -> Forall P (sl_calls e).
Proof.
  induction tr as [|e' tr IH]; [set_solver|].
  change (e' :: tr) with ([e'] ++ tr). rewrite proj_app, proj_one, Forall_app, elem_of_app.
  intros [H1 H2] [He| He]; [|by apply IH].
  apply list_elem_of_singleton in He as ->. by rewrite decide_True in H1.
Qed.

Lemma count_calls_prefix (f : call -> bool) (l1 l2 : list call) :
  l1 `prefix_of` l2 -> count_calls f l1 <= count_calls f l2.
Proof. intros [k ->]. rewrite count_calls_app. lia. Qed.

Lemma Forall_prefix {A} (P : A -> Prop) (l1 l2 : list A) :
  l1 `prefix_of` l2 -> Forall P l2 -> Forall P l1.
Proof. intros [k ->]. rewrite Forall_app. by intros []. Qed.

(** The calls of a task that never started. *)
Lemma proj_not_spawned (w : world) (bot : slack_bot) (s : loop_state) (j : nat) :
  loop_inv w bot s -> j ∉ (ls_spawned s).*1 -> proj j (ls_trace s) = [].
Proof.
  intros Hinv Hj. apply proj_absent. intros e He <-. apply Hj. by apply (inv_trace_spawned w bot s Hinv).
Qed.

(** ** What the loop guarantees *)

(** Every task's calls so far are a prefix of a run of a handler the
    routing chose, or it has made none. *)
Lemma loop_task_calls (w : world) (bot : slack_bot) (inbox : list inbound) (s : loop_state) (j : nat) :
  rtc (step w bot) (init_state inbox) s ->
  (exists (p0 : prog unit) (ev : inbound),
     handler_ok (handler_token (bot_handler bot)) (bolt_say (bot_app bot) ev) (run w p0).1 /\
     proj j (ls_trace s) `prefix_of` (run w p0).1) \/
  proj j (ls_trace s) = [].
Proof.
  intros Hr. pose proof (loop_inv_reachable w bot inbox s Hr) as Hinv.
  destruct (decide (j ∈ (ls_spawned s).*1)) as [Hsp|Hsp];
    [left|right; by apply (proj_not_spawned w bot)].
  apply list_elem_of_fmap_1 in Hsp as [[j' p0] [-> Hp]].
  destruct (inv_handler w bot s Hinv j' p0 Hp) as [ev Hev]. exists p0, ev.
  split; [by eapply dispatch_handler_ok|by apply (loop_inv_prefix w bot)].
Qed.

(** Every [chat_postMessage] of every slice goes to [ai-powered-services]. *)
Lemma loop_slices_post_result (w : world) (bot : slack_bot) (inbox : list inbound) (s : loop_state) :
  rtc (step w bot) (init_state inbox) s ->
  forall e, e ∈ ls_trace s ->
    Forall (fun c => posts_only_to RESULT_CHANNEL c = true) (sl_calls e).
Proof.
  intros Hr e He. apply Forall_proj with (ls_trace s); [|done].
  destruct (loop_task_calls w bot inbox s (sl_task e) Hr) as [(p0 & ev & (_ & _ & Hp & _) & Hpre)| ->];
    [|constructor].
  by apply Forall_prefix with (run w p0).1.
Qed.

(** When the app's client and the handler's client hold the same token,
    every Web API call of every slice is authenticated with it. *)
Lemma loop_slices_authenticated (w : world) (bot : slack_bot) (inbox : list inbound)
    (s : loop_state) :
  app_bot_token (bot_app bot) = handler_token (bot_handler bot) ->
  rtc (step w bot) (init_state inbox) s ->
  forall e, e ∈ ls_trace s ->
    Forall (fun c => authenticated_by (handler_token (bot_handler bot)) c = true) (sl_calls e).
Proof.
  intros Htok Hr e He. apply Forall_proj with (ls_trace s); [|done].
  destruct (loop_task_calls w bot inbox s (sl_task e) Hr) as
    [(p0 & ev & (_ & _ & _ & Ha & Hs) & Hpre)| ->]; [|constructor].
  apply Forall_prefix with (run w p0).1; [done|].
  by apply (said_with_authenticated (bolt_say (bot_app bot) ev)).
Qed.

(** C6: the handlers' guarantees hold of the whole concurrent system:
    in every state reachable from a queue of Slack events, whatever the
    interleaving, every [chat_postMessage] of every slice goes to
    [ai-powered-services], and each task has made at most one directory
    lookup and at most one agent call. *)
Theorem loop_handler_safety (w : world) (bot : slack_bot) (inbox : list inbound) (s : loop_state) :
  rtc (step w bot) (init_state inbox) s ->
  (forall e, e ∈ ls_trace s ->
     Forall (fun c => posts_only_to RESULT_CHANNEL c = true) (sl_calls e)) /\
  (forall j, count_calls is_users_info (proj j (ls_trace s)) <= 1 /\
             count_calls is_graph_invoke (proj j (ls_trace s)) <= 1).
Proof.
  intros Hr. split; [by apply (loop_slices_post_result w bot inbox)|].
  intros j. destruct (loop_task_calls w bot inbox s j Hr) as [(p0 & ev & (H1 & H2 & _) & Hpre)| ->];
    [|cbn; lia].
  pose proof (count_calls_prefix is_users_info _ _ Hpre).
  pose proof (count_calls_prefix is_graph_invoke _ _ Hpre). lia.
Qed.

(** ** Witnesses on the concrete run *)

Lemma demo_final_reachable :
  rtc (step demo_loop_world demo_bot) (init_state demo_inbox) demo_final.
Proof. apply (exec_sound _ _ demo_schedule). vm_compute. reflexivity. Qed.

Lemma loop_handler_safety_witness :
  (forall e, e ∈ ls_trace demo_final ->
     Forall (fun c => posts_only_to RESULT_CHANNEL c = true) (sl_calls e)) /\
  (forall j, count_calls is_users_info (proj j (ls_trace demo_final)) <= 1 /\
             count_calls is_graph_invoke (proj j (ls_trace demo_final)) <= 1).
Proof. apply (loop_handler_safety demo_loop_world demo_bot demo_inbox demo_final). apply demo_final_reachable. Defined.

