(* ===== verification/Entry.v ===== *)
(** * The entry point: [main.py] run as a script

    [python main.py] imports [settings.py] (line 4), which runs
    [load_dotenv()] and evaluates the attributes of [SlackSettings]; the
    [if __name__ == "__main__"] block then runs [asyncio.run(main())],
    and [main] builds the [SlackBot] from the three settings (lines 9-13)
    before announcing it and starting the socket-mode loop.

    [bot_of_settings] is the constructor call; [program] is the whole
    start-up, from the two environments ([.env] and the process
    environment) to the program [main] runs.  The model covers settings
    whose three variables are set: with one missing, Python passes [None]
    on to [SlackBot] and the Slack SDK, whose behaviour on it the model
    does not describe ([program] is then [None]). *)

From stdpp Require Import gmap strings.
From S2P Require Import Prelude Effects SlackClient CommandHandler SlackBot Settings.

Import SlackClient.

(** [SlackBot(app_token=SlackSettings.app_token,
    bot_token=SlackSettings.bot_token, channel=SlackSettings.channel)]:
    the constructor stores the three values. *)
Definition bot_of_settings (st : SlackSettings) : option slack_bot :=
  match app_token st, bot_token st, channel st with
  | Some a, Some b, Some c => Some (new_slack_bot a b c)
  | _, _, _ => None
  end.

(** [asyncio.run(main())] after the import of [settings.py]. *)
Definition program (dotenv env : environ) (now : datetime) : option (prog unit) :=
  option_map (fun bot => main bot now) (bot_of_settings (settings_at_import dotenv env)).

(** The bot built from the settings, when the three variables are set. *)
Lemma bot_of_settings_at_import (dotenv env : environ) (a b c : pystr) :
  env_or_file dotenv env "SLACK_APP_TOKEN" = Some a ->
  env_or_file dotenv env "SLACK_BOT_TOKEN" = Some b ->
  env_or_file dotenv env "SLACK_CHANNEL" = Some c ->
  bot_of_settings (settings_at_import dotenv env) = Some (new_slack_bot a b c).
Proof.
  intros Ha Hb Hc. unfold bot_of_settings, settings_at_import, slack_settings.
  cbn [app_token bot_token channel]. unfold env_or_file in *.
  by rewrite !getenv_load_dotenv; unfold getenv; rewrite Ha, Hb, Hc.
Qed.

(** C30: start-up as a whole: with the three variables set (each taken
    from the process environment, else from [.env]), the program posts the
    announcement to the channel of [SLACK_CHANNEL] with the token of
    [SLACK_BOT_TOKEN], logs a failed post without stopping, logs the start
    and opens the socket-mode connection for the app built with
    [SLACK_BOT_TOKEN], with the token of [SLACK_APP_TOKEN], where it
    stays. *)
Theorem program_run (w : world) (dotenv env : environ) (now : datetime) (a b c : pystr) :
  env_or_file dotenv env "SLACK_APP_TOKEN" = Some a ->
  env_or_file dotenv env "SLACK_BOT_TOKEN" = Some b ->
  env_or_file dotenv env "SLACK_CHANNEL" = Some c ->
  exists p, program dotenv env now = Some p /\
  run w p =
  ([CallPostMessage b c (online_text now)] ++
   match w_post_message w b c (online_text now) with
   | PostOk => []
   | PostError err => [CallPrint (send_message_failed_line err)]
   end ++
   [CallPrint (starting_line c); CallStartSocketMode b (Some a)],
   Listening).
Proof.
  intros Ha Hb Hc. unfold program. rewrite (bot_of_settings_at_import _ _ a b c) by done.
  eexists. split; [reflexivity|]. unfold main, send_to_channel, start. cbn.
  run_simpl; reflexivity.
Qed.

Lemma program_run_witness :
  let dotenv := {[ "SLACK_APP_TOKEN" := py "xapp"; "SLACK_BOT_TOKEN" := py "xoxb";
                   "SLACK_CHANNEL" := py "from-file" ]} in
  let env := {[ "SLACK_CHANNEL" := py "general" ]} in
  let now := {| dt_hour := 9; dt_minute := 5; dt_second := 30; dt_weekday := 4 |} in
  let w := demo_world (UsersInfoOk None) (AgentState None) in
  exists p, program dotenv env now = Some p /\
  run w p =
  ([CallPostMessage (py "xoxb") (py "general") (online_text now)] ++
   match w_post_message w (py "xoxb") (py "general") (online_text now) with
   | PostOk => []
   | PostError err => [CallPrint (send_message_failed_line err)]
   end ++
   [CallPrint (starting_line (py "general")); CallStartSocketMode (py "xoxb") (Some (py "xapp"))],
   Listening).
Proof. cbn zeta. apply program_run; reflexivity. Defined.
