(* ===== verification/Process.v ===== *)
(** * The whole process: start-up, then the event loop

    [asyncio.run(main())] runs [main] as the first task of the loop.  Its
    slices are those of any task ([EventLoop.slice]): it is suspended at
    the [await] of [chat_postMessage] in [send_to_channel], then runs up to
    [await socket_handler.start_async()], which opens the socket-mode
    connection and never returns.  Only from then on does Slack deliver
    events, and the loop of [EventLoop.v] runs their handlers while [main]
    stays blocked.

    [proc_step] composes the two phases: [Booting] runs [main]'s slices,
    [Serving] runs the steps of the event loop on the events Slack
    delivers, dispatched by the routes of the bot [main] built; [Exited]
    is the end of [main] without reaching socket mode (an exception, or a
    return), which the theorems show does not happen when the settings
    are set. *)

From stdpp Require Import gmap strings relations.
From S2P Require Import Prelude Effects SlackClient CommandHandler SlackBot Settings EventLoop Entry.

Import SlackClient.

(** ** The process as a step relation *)

Inductive proc_state :=
| Booting (main_task : prog unit) (boot : list call)
| Serving (boot : list call) (loop : loop_state)
| Exited (boot : list call) (o : outcome unit).

(** What follows the last slice of [main]: blocked in [start_async], the
    event loop serves the events; otherwise the process ends. *)
Definition after_main (boot : list call) (o : outcome unit) (events : list inbound) : proc_state :=
  match o with
  | Listening => Serving boot (init_state events)
  | _ => Exited boot o
  end.

Inductive proc_step (w : world) (bot : slack_bot) (events : list inbound) :
    proc_state -> proc_state -> Prop :=
| proc_boot_slice p boot t p' :
    slice w p = (t, inl p') ->
    proc_step w bot events (Booting p boot) (Booting p' (boot ++ t))
| proc_boot_end p boot t o :
    slice w p = (t, inr o) ->
    proc_step w bot events (Booting p boot) (after_main (boot ++ t) o events)
| proc_serve boot s s' :
    step w bot s s' ->
    proc_step w bot events (Serving boot s) (Serving boot s').

(** [python main.py]: the settings are read at import, [main] builds the
    bot and starts as the only task; the loop dispatches with that bot. *)
Definition process (dotenv env : environ) (now : datetime) : option (slack_bot * proc_state) :=
  option_map (fun bot => (bot, Booting (main bot now) []))
    (bot_of_settings (settings_at_import dotenv env)).

(** Every call the process has made, in order. *)
Definition proc_calls (ps : proc_state) : list call :=
  match ps with
  | Booting _ boot | Exited boot _ => boot
  | Serving boot s => boot ++ concat (map sl_calls (ls_trace s))
  end.

(** The calls of [main] up to socket mode ([SlackBot.main_run]) for the
    bot built from the tokens and the channel. *)
Definition startup_trace (w : world) (app_token bot_token channel : pystr) (now : datetime) :
    list call :=
  [CallPostMessage bot_token channel (online_text now)] ++
  match w_post_message w bot_token channel (online_text now) with
  | PostOk => []
  | PostError err => [CallPrint (send_message_failed_line err)]
  end ++
  [CallPrint (starting_line channel); CallStartSocketMode bot_token (Some app_token)].

(** ** The start-up phase *)

Section Boot.
Variable w : world.
Variable bot : slack_bot.
Variable events : list inbound.
Variable p0 : prog unit.

(** The calls of [main] made so far followed by the rest of its run are
    its whole run; once it blocked, the loop has run from the events. *)
Definition boot_inv (ps : proc_state) : Prop :=
  match ps with
  | Booting p boot => boot ++ (run w p).1 = (run w p0).1 /\ (run w p).2 = (run w p0).2
  | Serving boot s =>
      boot = (run w p0).1 /\ (run w p0).2 = Listening /\ rtc (step w bot) (init_state events) s
  | Exited boot o => boot = (run w p0).1 /\ (run w p0).2 = o /\ o <> Listening
  end.

Lemma boot_inv_step (ps ps' : proc_state) :
  proc_step w bot events ps ps' -> boot_inv ps -> boot_inv ps'.
Proof.
  destruct 1 as [p boot t p' Hs|p boot t o Hs|boot s s' Hs]; cbn [boot_inv];
    [| |intros (? & ? & ?); split_and!; [done|done|by eapply rtc_r]].
  all: pose proof (slice_run w p) as Hr; rewrite Hs in Hr; rewrite Hr; cbn;
    intros [Hb Ho]; rewrite <- ?app_assoc.
  - by split.
  - destruct o; cbn; split_and!; try done; by rewrite <- Ho.
Qed.

Lemma boot_inv_reachable (ps : proc_state) :
  rtc (proc_step w bot events) (Booting p0 []) ps -> boot_inv ps.
Proof.
  intros Hr. cut (boot_inv (Booting p0 [])); [|by split].
  induction Hr as [|ps1 ps2 ps3 Hs _ IH]; [done|]. intros H. apply IH.
  by eapply boot_inv_step.
Qed.

End Boot.

Lemma main_listening (w : world) (a b c : pystr) (now : datetime) :
  run w (main (new_slack_bot a b c) now) = (startup_trace w a b c now, Listening).
Proof. unfold main, send_to_channel, start, startup_trace. cbn. run_simpl; reflexivity. Qed.

(** The start-up calls are authenticated with the bot token. *)
Lemma startup_trace_authenticated (w : world) (a b c : pystr) (now : datetime) :
  Forall (fun x => authenticated_by b x = true) (startup_trace w a b c now).
Proof.
  unfold startup_trace. destruct (w_post_message _ _ _ _);
    repeat constructor; cbn; by apply bool_decide_eq_true_2.
Qed.

(** The process [python main.py] starts, with the three variables set. *)
Lemma process_at_import (dotenv env : environ) (now : datetime) (a b c : pystr) :
  env_or_file dotenv env "SLACK_APP_TOKEN" = Some a ->
  env_or_file dotenv env "SLACK_BOT_TOKEN" = Some b ->
  env_or_file dotenv env "SLACK_CHANNEL" = Some c ->
  process dotenv env now =
  Some (new_slack_bot a b c, Booting (main (new_slack_bot a b c) now) []).
Proof. intros. unfold process. by rewrite (bot_of_settings_at_import _ _ a b c). Qed.

(** ** The process as a whole *)

(** C13: composition of start-up and event handling: with the three
    variables set, whatever Slack answers and whatever events arrive, in
    every state the process reaches, [main] has made a prefix of its
    start-up calls (the announcement to [SLACK_CHANNEL], the log of a
    failed post, the start log, socket mode with [SLACK_APP_TOKEN]); no
    handler runs before all of them were made; every post a handler makes
    afterwards goes to [ai-powered-services]; every call that carries a
    token carries [SLACK_BOT_TOKEN]; and the process never exits. *)
Theorem process_safety (w : world) (dotenv env : environ) (now : datetime)
    (events : list inbound) (a b c : pystr) :
  env_or_file dotenv env "SLACK_APP_TOKEN" = Some a ->
  env_or_file dotenv env "SLACK_BOT_TOKEN" = Some b ->
  env_or_file dotenv env "SLACK_CHANNEL" = Some c ->
  exists bot ps0, process dotenv env now = Some (bot, ps0) /\
  forall ps, rtc (proc_step w bot events) ps0 ps ->
    match ps with
    | Booting _ boot => boot `prefix_of` startup_trace w a b c now
    | Serving boot s =>
        boot = startup_trace w a b c now /\
        forall e, e ∈ ls_trace s ->
          Forall (fun x => posts_only_to RESULT_CHANNEL x = true) (sl_calls e)
    | Exited _ _ => False
    end /\
    Forall (fun x => authenticated_by b x = true) (proc_calls ps).
Proof.
  intros Ha Hb Hc. rewrite (process_at_import _ _ _ a b c) by done.
  do 2 eexists. split; [reflexivity|]. intros ps Hr.
  pose proof (boot_inv_reachable w _ events _ ps Hr) as Hinv.
  pose proof (startup_trace_authenticated w a b c now) as Hauth.
  destruct ps as [p boot|boot s|boot o]; cbn [boot_inv proc_calls] in Hinv |- *;
    rewrite !main_listening in Hinv; cbn [fst snd] in Hinv.
  - destruct Hinv as [Hb' _]. assert (Hp : boot `prefix_of` startup_trace w a b c now)
      by (exists (run w p).1; done).
    split; [done|]. by apply Forall_prefix with (startup_trace w a b c now).
  - destruct Hinv as (-> & _ & Hs). split.
    + split; [done|]. by apply (loop_slices_post_result w (new_slack_bot a b c) events).
    + apply Forall_app. split; [done|]. apply Forall_concat, Forall_forall.
      intros t (e & -> & He)%list_elem_of_fmap_1.
      by apply (loop_slices_authenticated w (new_slack_bot a b c) events s eq_refl Hs).
  - naive_solver.
Qed.

(** ** Witnesses: [.env] with the three variables, the channel overridden
    by the process environment, the two events of [EventLoop.v]. *)

Definition demo_dotenv : environ :=
  {[ "SLACK_APP_TOKEN" := py "xapp"; "SLACK_BOT_TOKEN" := py "xoxb";
     "SLACK_CHANNEL" := py "from-file" ]}.

Definition demo_env : environ := {[ "SLACK_CHANNEL" := py "general" ]}.

Definition demo_now : datetime :=
  {| dt_hour := 9; dt_minute := 5; dt_second := 30; dt_weekday := 4 |}.

Lemma process_safety_witness :
  exists bot ps0, process demo_dotenv demo_env demo_now = Some (bot, ps0) /\
  forall ps, rtc (proc_step demo_loop_world bot demo_inbox) ps0 ps ->
    match ps with
    | Booting _ boot =>
        boot `prefix_of` startup_trace demo_loop_world (py "xapp") (py "xoxb") (py "general") demo_now
    | Serving boot s =>
        boot = startup_trace demo_loop_world (py "xapp") (py "xoxb") (py "general") demo_now /\
        forall e, e ∈ ls_trace s ->
          Forall (fun x => posts_only_to RESULT_CHANNEL x = true) (sl_calls e)
    | Exited _ _ => False
    end /\
    Forall (fun x => authenticated_by (py "xoxb") x = true) (proc_calls ps).
Proof. apply process_safety; reflexivity. Defined.

